(** * RSS-to-Telegram bot: resilient fetch and dispatch subsystem

    A shallow embedding of [src/web.py], [src/parsing/tgraph.py] and
    [src/helpers/queue/_helper.py], with the properties of the
    natural-language specification stated over it.

    Conventions.
    - A Python call that may raise is a value of [outcome A]: either
      [Return a] or [Raise e].
    - [while True] loops are fixpoints over a fuel counter; totality
      theorems show which amount of fuel always suffices.
    - Library calls whose result depends on the network (a connection
      attempt, a DNS query, an image decoder) are function parameters. *)

From Stdlib Require Import ZArith QArith Qminmax Bool List String Ascii DecimalString Lia Lqa.
From Stdlib Require DecimalZ DecimalPos.
Import ListNotations.
Open Scope string_scope.
Open Scope Z_scope.

(** ** Python exceptions *)

Module Py.

(** The exception classes that the three modules raise, catch or let
    through.  All of them derive from [Exception]. *)
Inductive exc_class : Set :=
  | PyException
  | ValueError | TypeError | AttributeError | KeyError
  | AssertionError | OverflowError | UnicodeDecodeError
  | OSError | ConnectionError | ConnectionResetError
  | TimeoutError | AsyncioTimeoutError | SSLError
  | ClientError | InvalidURL | ClientPayloadError | ClientResponseError
  | ClientConnectionError | ClientOSError
  | ServerConnectionError | ServerDisconnectedError | ServerTimeoutError
  | DNSError | TelegraphError | UnidentifiedImageError.

Definition exc_class_eq_dec (a b : exc_class) : {a = b} + {a <> b}.
Proof. decide equality. Defined.

Definition exc_class_eqb (a b : exc_class) : bool :=
  if exc_class_eq_dec a b then true else false.

(** Base classes, as declared by CPython, aiohttp, aiodns, aiograph and
    Pillow; [LookupError], [ArithmeticError] and [UnicodeError], which no
    handler names, are passed over. *)
Definition bases (c : exc_class) : list exc_class :=
  match c with
  | PyException => []
  | ValueError | TypeError | AttributeError | KeyError
  | AssertionError | OverflowError | OSError | AsyncioTimeoutError
  | ClientError | DNSError | TelegraphError => [PyException]
  | UnicodeDecodeError => [ValueError]
  | ConnectionError | TimeoutError | SSLError | UnidentifiedImageError => [OSError]
  | ConnectionResetError => [ConnectionError]
  | InvalidURL => [ClientError; ValueError]
  | ClientPayloadError | ClientResponseError | ClientConnectionError => [ClientError]
  | ClientOSError => [ClientConnectionError; OSError]
  | ServerConnectionError => [ClientConnectionError]
  | ServerDisconnectedError => [ServerConnectionError]
  | ServerTimeoutError => [ServerConnectionError; AsyncioTimeoutError]
  end.

(** [issubclass c d]: the hierarchy is at most five levels deep. *)
Fixpoint issubclass_upto (depth : nat) (c d : exc_class) : bool :=
  exc_class_eqb c d ||
  match depth with
  | O => false
  | S depth' => existsb (fun b => issubclass_upto depth' b d) (bases c)
  end.

Definition issubclass (c d : exc_class) : bool := issubclass_upto 5 c d.

(** [type(e).__name__] *)
Definition class_name (c : exc_class) : string :=
  match c with
  | PyException => "Exception"
  | ValueError => "ValueError" | TypeError => "TypeError"
  | AttributeError => "AttributeError" | KeyError => "KeyError"
  | AssertionError => "AssertionError" | OverflowError => "OverflowError"
  | UnicodeDecodeError => "UnicodeDecodeError"
  | OSError => "OSError" | ConnectionError => "ConnectionError"
  | ConnectionResetError => "ConnectionResetError"
  | TimeoutError | AsyncioTimeoutError => "TimeoutError"
  | SSLError => "SSLError"
  | ClientError => "ClientError" | InvalidURL => "InvalidURL"
  | ClientPayloadError => "ClientPayloadError"
  | ClientResponseError => "ClientResponseError"
  | ClientConnectionError => "ClientConnectionError"
  | ClientOSError => "ClientOSError"
  | ServerConnectionError => "ServerConnectionError"
  | ServerDisconnectedError => "ServerDisconnectedError"
  | ServerTimeoutError => "ServerTimeoutError"
  | DNSError => "DNSError" | TelegraphError => "TelegraphError"
  | UnidentifiedImageError => "UnidentifiedImageError"
  end.

Record exn : Set := mk_exn { exn_class : exc_class; exn_msg : string }.

(** [isinstance(e, (c1, ..., cn))] *)
Definition isinstance (e : exn) (cs : list exc_class) : bool :=
  existsb (issubclass (exn_class e)) cs.

Inductive outcome (A : Type) : Type :=
  | Return (a : A)
  | Raise (e : exn).
Arguments Return {A} a.
Arguments Raise {A} e.

Definition bind {A B} (m : outcome A) (k : A -> outcome B) : outcome B :=
  match m with
  | Return a => k a
  | Raise e => Raise e
  end.

(** [try: body  except cs1: h1 ... except csn: hn], first matching
    clause wins; an exception matched by no clause propagates. *)
Fixpoint try_except {A} (body : outcome A)
    (handlers : list (list exc_class * (exn -> outcome A))) : outcome A :=
  match body with
  | Return a => Return a
  | Raise e =>
      match handlers with
      | [] => Raise e
      | (cs, h) :: rest =>
          if isinstance e cs then h e else try_except (Raise e) rest
      end
  end.

End Py.

Import Py.

Declare Scope outcome_scope.
Delimit Scope outcome_scope with outcome.
Notation "x <- m ;; k" := (bind m (fun x => k))
  (at level 61, m at next level, right associativity) : outcome_scope.

(** ** Response headers

    [CIMultiDictProxy]: an ordered multi-map with case-insensitive keys;
    [get] returns the first value stored under the key. *)

Module Headers.

Definition lower_ascii (c : ascii) : ascii :=
  let n := nat_of_ascii c in
  if (65 <=? n)%nat && (n <=? 90)%nat then ascii_of_nat (n + 32) else c.

Fixpoint lower (s : string) : string :=
  match s with
  | EmptyString => EmptyString
  | String c s' => String (lower_ascii c) (lower s')
  end.

Definition t := list (string * string).

Fixpoint get (h : t) (key : string) : option string :=
  match h with
  | [] => None
  | (k, v) :: rest => if String.eqb (lower k) (lower key) then Some v else get rest key
  end.

Definition get_default (h : t) (key default : string) : string :=
  match get h key with Some v => v | None => default end.

End Headers.

(** [str.startswith] *)
Definition startswith (s p : string) : bool := String.prefix p s.

(** Truthiness of an optional string: [None] and [''] are falsy. *)
Definition truthy (s : option string) : bool :=
  match s with
  | None => false
  | Some EmptyString => false
  | Some _ => true
  end.

(** [s.split(sep)[-1]] and [s.rsplit(sep, 1)[-1]] for a one-character
    separator: what follows the last occurrence of [sep]. *)
Fixpoint last_segment (sep : ascii) (acc s : string) : string :=
  match s with
  | EmptyString => acc
  | String c s' =>
      if Ascii.eqb c sep then last_segment sep "" s'
      else last_segment sep (acc ++ String c EmptyString) s'
  end.

(** ** Logging *)

(** Levels of the [logging] module. *)
Definition DEBUG : Z := 10.
Definition INFO : Z := 20.
Definition WARNING : Z := 30.
Definition ERROR : Z := 40.

Record log_record : Type := mkLog {
  lr_level : Z;
  lr_msg : string;
  lr_exc_info : option exn
}.

(** [str(n)] for an integer. *)
Definition py_str (n : Z) : string := NilZero.string_of_int (Z.to_int n).

(** [int(s)] on a string of decimal digits with an optional [-]; used to
    run the model on concrete headers. *)
Definition int_decimal (s : string) : outcome Z :=
  match NilZero.int_of_string s with
  | Some d => Return (Z.of_int d)
  | None => Raise (mk_exn ValueError "invalid literal for int() with base 10")
  end.

(** ** [src/web.py]: fetch engine *)

Module Web.

(** [socket.AF_INET], [socket.AF_INET6] and the unspecified family [0]. *)
Inductive family : Set := AF_UNSPEC | AF_INET | AF_INET6.

Definition family_eqb (a b : family) : bool :=
  match a, b with
  | AF_UNSPEC, AF_UNSPEC | AF_INET, AF_INET | AF_INET6, AF_INET6 => true
  | _, _ => false
  end.

(** What the engine uses of an [aiohttp.ClientResponse]: the status line,
    the headers and the three ways of reading the body. *)
Record ClientResponse : Type := mkClientResponse {
  status : Z;
  reason : option string;
  headers : Headers.t;
  text : outcome string;                 (* await response.text() *)
  read : outcome string;                 (* await response.read() *)
  content_read : Z -> outcome string;    (* await response.content.read(n) *)
  iter_chunked : Z -> list string        (* response.content.iter_chunked(n) *)
}.

Record WebResponse (C : Type) : Type := mkWebResponse {
  wr_url : string;
  wr_content : option C;
  wr_headers : Headers.t;
  wr_status : Z;
  wr_reason : option string
}.
Arguments mkWebResponse {C}.
Arguments wr_url {C}.
Arguments wr_content {C}.
Arguments wr_headers {C}.
Arguments wr_status {C}.
Arguments wr_reason {C}.

Definition EXCEPTIONS_SHOULD_RETRY : list exc_class :=
  [AsyncioTimeoutError; ServerConnectionError; TimeoutError].

(** Statuses after which an IPv6 attempt is repeated over IPv4. *)
Definition LIKELY_BLOCKED : list Z := [400; 403; 429; 451].

Definition status_in (s : Z) (l : list Z) : bool := existsb (Z.eqb s) l.

(** How one run of the [while True] loop of [_get] ends. [AssertFail] is
    the [AssertionError] of [assert tries <= 2]; it is kept apart from the
    exceptions of the transport so that the invariant can be stated. *)
Inductive loop_end (C : Type) : Type :=
  | Done (o : outcome (WebResponse C))
  | AssertFail
  | NoFuel.
Arguments Done {C} o.
Arguments AssertFail {C}.
Arguments NoFuel {C}.

Section Get.
Variable C : Type.
(** [env.IPV6_PRIOR] and the answer of [_resolver.query(host, 'AAAA')]
    under its one-second deadline. *)
Variable IPV6_PRIOR : bool.
Variable resolver_query : outcome (list string).
(** [urlparse(url).hostname] (line 184); [ValueError] on a URL that
    [urlparse] rejects. *)
Variable url_hostname : string -> outcome (option string).
(** [session.get(url)] for the attempt numbered [tries] over the given
    socket family, transport-level retries included. *)
Variable session_get : Z -> family -> outcome ClientResponse.
Variable resp_callback : ClientResponse -> outcome (option C).

(** Lines 187-194: the AAAA lookup; every failure is swallowed. *)
Definition query_v6 : outcome (list string) :=
  try_except
    (if IPV6_PRIOR then resolver_query else Return [])
    [ ([DNSError; AsyncioTimeoutError], fun _ => Return []);
      ([PyException], fun _ => Return []) ].

Definition initial_family (v6_address : list string) : family :=
  match v6_address with [] => AF_UNSPEC | _ :: _ => AF_INET6 end.

(** The body of the [try] of one iteration up to the point where the
    status is known and, for a 200, the body policy has run. *)
Definition try_body (tries : Z) (socket_family : family)
    : outcome (ClientResponse * option C) :=
  (response <- session_get tries socket_family ;;
   if status response =? 200
   then (content <- resp_callback response ;; Return (response, content))
   else Return (response, None))%outcome.

(** The condition of the protocol fallback: the first attempt used
    IPv6 and either raised a retryable error or was answered with a
    status of [LIKELY_BLOCKED]. *)
Definition retried_over_v4 (fam : family) : Prop :=
  fam = AF_INET6 /\
  ((exists e, try_body 1 fam = Raise e
              /\ isinstance e EXCEPTIONS_SHOULD_RETRY = true)
   \/ (exists resp c, try_body 1 fam = Return (resp, c)
                      /\ status_in (status resp) LIKELY_BLOCKED = true)).

(** Lines 200-244.  The second component lists the socket family of
    every connection attempt, in order. *)
Fixpoint _get_loop (fuel : nat) (url : string) (tries : Z)
    (retry_in_v4_flag : bool) (socket_family : family)
    : loop_end C * list family :=
  match fuel with
  | O => (NoFuel, [])
  | S fuel' =>
      let tries := tries + 1 in
      if negb (tries <=? 2) then (AssertFail, []) else
      let socket_family := if retry_in_v4_flag then AF_INET else socket_family in
      let continue :=
        let '(r, tr) := _get_loop fuel' url tries true socket_family in
        (r, socket_family :: tr) in
      match try_body tries socket_family with
      | Return (response, content) =>
          if status response =? 200 then
            (Done (Return (mkWebResponse url content (headers response)
                             (status response) (reason response))),
             [socket_family])
          else if family_eqb socket_family AF_INET6 && (tries =? 1)
                  && status_in (status response) LIKELY_BLOCKED
          then continue
          else
            (Done (Return (mkWebResponse url content (headers response)
                             (status response) (reason response))),
             [socket_family])
      | Raise e =>
          if isinstance e EXCEPTIONS_SHOULD_RETRY then
            if negb (family_eqb socket_family AF_INET6) || (tries >? 1)
            then (Done (Raise e), [socket_family])
            else continue
          else (Done (Raise e), [socket_family])
      end
  end.

Definition _get_run (fuel : nat) (url : string) : loop_end C * list family :=
  match url_hostname url with
  | Raise e => (Done (Raise e), [])
  | Return host =>
      match query_v6 with
      | Return v6_address =>
          _get_loop fuel url 0 false (initial_family v6_address)
      | Raise e => (Done (Raise e), [])
      end
  end.

(** [_get] as a Python call.  Three rounds of fuel always reach a
    [return] or a [raise] (see [get_is_loop_result]). *)
Definition _get (url : string) : outcome (WebResponse C) :=
  match fst (_get_run 3 url) with
  | Done o => o
  | AssertFail | NoFuel => Raise (mk_exn AssertionError "Too many tries")
  end.

(** The families of the connection attempts of a call. *)
Definition attempts (url : string) : list family := snd (_get_run 3 url).

End Get.

(** [len] of a [str] or [bytes] value. *)
Definition len (s : string) : Z := Z.of_nat (String.length s).

(** ** Body policy ([__norm_callback], lines 142-154) *)

Section NormCallback.
(** [int(s)] on a header value; [ValueError] when [s] is not a number. *)
Variable py_int : string -> outcome Z.

(** The inner [if decode / elif max_size is None / elif max_size > 0]
    chain; with none of the three the function falls through to
    [return None]. *)
Definition body_policy (response : ClientResponse) (decode : bool)
    (max_size : option Z) : outcome (option string) :=
  if decode then
    (s <- text response ;; Return (Some s))%outcome
  else
    match max_size with
    | None => (s <- read response ;; Return (Some s))%outcome
    | Some m =>
        if m >? 0 then
          (cl <- py_int (Headers.get_default (headers response)
                           "Content-Length" (py_str m)) ;;
           s <- content_read response (Z.min cl m) ;;
           Return (Some s))%outcome
        else Return None
    end.

(** The policies that read the body ([max_size]: [None] is unlimited,
    [0] ignores the response body). *)
Definition reads_body (decode : bool) (max_size : option Z) : bool :=
  decode || match max_size with None => true | Some m => m >? 0 end.

Definition content_type_gate (content_type intended_content_type : option string)
    : bool :=
  negb (truthy intended_content_type)
  || negb (truthy content_type)
  || match content_type, intended_content_type with
     | Some ct, Some ict => startswith ct ict
     | _, _ => false
     end.

Definition __norm_callback (response : ClientResponse) (decode : bool)
    (max_size : option Z) (intended_content_type : option string)
    : outcome (option string) :=
  let content_type := Headers.get (headers response) "Content-Type" in
  if content_type_gate content_type intended_content_type
  then body_policy response decode max_size
  else Return None.
End NormCallback.

(** ** Outer deadline ([get], lines 157-179) *)

(** An awaited call together with the time it needs when left alone. *)
Definition timed (A : Type) : Type := (Q * outcome A)%type.

(** [asyncio.wait_for(aw, timeout)]: the result of [aw] when it is there
    in time, [asyncio.TimeoutError] when the deadline passes first. *)
Definition wait_for {A} (aw : timed A) (timeout : Q) : outcome A :=
  if Qle_bool (fst aw) timeout then snd aw
  else Raise (mk_exn AsyncioTimeoutError "").

(** [not timeout] for an optional number. *)
Definition falsy_number (t : option Q) : bool :=
  match t with None => true | Some q => Qeq_bool q 0 end.

Definition wait_for_timeout (IPV6_PRIOR : bool) (timeout : option Q) : Q :=
  let timeout := if falsy_number timeout then 12%Q
                 else match timeout with Some q => q | None => 12%Q end in
  ((timeout * 2 + 5) * (if IPV6_PRIOR then 2 else 1))%Q.

Section GetWithDeadline.
Variable py_int : string -> outcome Z.
Variable IPV6_PRIOR : bool.
Variable resolver_query : outcome (list string).
Variable url_hostname : string -> outcome (option string).
Variable session_get : Z -> family -> outcome ClientResponse.
(** Time the inner [_get] takes when nothing interrupts it. *)
Variable elapsed : Q.

Definition get (url : string) (timeout : option Q) (decode : bool)
    (max_size : option Z) (intended_content_type : option string)
    : outcome (WebResponse string) :=
  wait_for
    (elapsed,
     _get string IPV6_PRIOR resolver_query url_hostname session_get
       (fun response =>
          __norm_callback py_int response decode max_size intended_content_type)
       url)
    (wait_for_timeout IPV6_PRIOR timeout).
End GetWithDeadline.

(** ** Feed wrapper ([feed_get], lines 247-305) *)

Record WebError : Type := mkWebError {
  error_name : string;
  we_status : option string;
  we_url : option string;
  base_error : option exn;
  hide_base_error : bool
}.

Definition is_some {A} (o : option A) : bool :=
  match o with Some _ => true | None => false end.

(** [WebError.__init__] (lines 70-87): the object and the record it logs. *)
Definition WebError_init (error_name : string) (status url : option string)
    (base_error : option exn) (hide_base_error : bool) (log_level : Z)
    : WebError * log_record :=
  let log_msg := "Fetch failed (" ++ error_name in
  let log_msg := log_msg ++
    match base_error with
    | Some e => if negb hide_base_error && (log_level <? ERROR)
                then ", " ++ class_name (exn_class e) else ""
    | None => ""
    end in
  let log_msg := log_msg ++
    (if truthy status
     then ", " ++ match status with Some st => st | None => "" end else "") in
  let log_msg := log_msg ++ ")" in
  let log_msg := log_msg ++
    (if truthy url
     then ": " ++ match url with Some u => u | None => "" end else "") in
  (mkWebError error_name status url base_error hide_base_error,
   mkLog log_level log_msg
     (if negb hide_base_error && is_some base_error && (log_level >=? ERROR)
      then base_error else None)).

(** What [feed_get] looks at in a [feedparser.FeedParserDict]. *)
Record FeedParserDict : Type := mkFeedParserDict {
  feed : list (string * string);
  entries : list (list (string * string))
}.

Record WebFeed : Type := mkWebFeed {
  wf_url : string;
  wf_headers : option Headers.t;
  wf_status : Z;
  wf_reason : option string;
  rss_d : option FeedParserDict;
  error : option WebError
}.

Definition WebFeed_new (url : string) : WebFeed :=
  mkWebFeed url None (-1) None None None.

Definition set_response (ret : WebFeed) (resp : WebResponse string) : WebFeed :=
  mkWebFeed (wr_url resp) (Some (wr_headers resp)) (wr_status resp)
            (wf_reason ret) (rss_d ret) (error ret).

Definition set_status (ret : WebFeed) (st : Z) : WebFeed :=
  mkWebFeed (wf_url ret) (wf_headers ret) st (wf_reason ret) (rss_d ret) (error ret).

Definition set_rss_d (ret : WebFeed) (d : FeedParserDict) : WebFeed :=
  mkWebFeed (wf_url ret) (wf_headers ret) (wf_status ret) (wf_reason ret)
            (Some d) (error ret).

Definition set_error (ret : WebFeed) (e : WebError) : WebFeed :=
  mkWebFeed (wf_url ret) (wf_headers ret) (wf_status ret) (wf_reason ret)
            (rss_d ret) (Some e).

Definition FEED_ACCEPT : string :=
  "application/rss+xml, application/rdf+xml, application/atom+xml, "
  ++ "application/xml;q=0.9, text/xml;q=0.8, text/*;q=0.7, application/*;q=0.6".

(** [key in d] for a [dict] with string keys (case-sensitive). *)
Definition dict_has {V} (d : list (string * V)) (key : string) : bool :=
  existsb (fun kv => String.eqb (fst kv) key) d.

(** Lines 252-256: the request headers of a feed fetch. *)
Definition feed_headers (headers : option (list (string * string)))
    : list (string * string) :=
  let _headers := match headers with Some h => h | None => [] end in
  if negb (dict_has _headers "Accept")
  then (_headers ++ [("Accept", FEED_ACCEPT)])%list else _headers.

Section FeedGet.
Variable py_int : string -> outcome Z.
(** [get(url, timeout, web_semaphore, headers=_headers)] *)
Variable fetch : list (string * string) -> outcome (WebResponse string).
(** [feedparser.parse(rss_content, sanitize_html=False)], inline or on
    the single-worker pool for payloads above 512 KiB. *)
Variable feedparser_parse : string -> outcome FeedParserDict.

(** The body of the [try] (lines 259-292): the [ret] object as it is when
    the block is left, the records logged, and the exception that left
    it, if any. *)
Definition feed_get_try (url : string) (log_level : Z)
    (_headers : list (string * string))
    : WebFeed * list log_record * option exn :=
  let ret := WebFeed_new url in
  match fetch _headers with
  | Raise e => (ret, [], Some e)
  | Return resp =>
      let rss_content := wr_content resp in
      let ret := set_response ret resp in
      match (if wr_status resp =? 200
             then (n <- py_int (Headers.get_default (wr_headers resp)
                                  "Content-Length" "1") ;;
                   Return (n =? 0))%outcome
             else Return false) with
      | Raise e => (ret, [], Some e)
      | Return true => (set_status ret 304, [], None)
      | Return false =>
          if wr_status resp =? 304 then (ret, [], None) else
          match rss_content with
          | None =>
              let status_caption :=
                py_str (wr_status resp) ++
                (if truthy (wr_reason resp)
                 then " " ++ match wr_reason resp with Some r => r | None => "" end
                 else "") in
              let '(err, rec) :=
                WebError_init "status code error" (Some status_caption)
                              (Some url) None false log_level in
              (set_error ret err, [rec], None)
          | Some rss_content =>
              match feedparser_parse rss_content with
              | Raise e => (ret, [], Some e)
              | Return d =>
                  if negb (dict_has (feed d) "title") then
                    let '(err, rec) :=
                      WebError_init "feed invalid" None (Some url) None false
                                    log_level in
                    (set_error ret err, [rec], None)
                  else (set_rss_d ret d, [], None)
              end
          end
      end
  end.

Definition NETWORK_ERRORS : list exc_class :=
  [AsyncioTimeoutError; ClientError; SSLError; OSError; ConnectionError;
   TimeoutError].

(** [feed_get]: the returned [WebFeed] and the records logged by its
    [WebError] objects ([Logged.feed_get] below puts the records of the
    fetch in front). *)
Definition feed_get (url : string) (headers : option (list (string * string)))
    (verbose : bool) : outcome (WebFeed * list log_record) :=
  let log_level := if verbose then WARNING else DEBUG in
  let _headers := feed_headers headers in
  let '(ret, logs, exc) := feed_get_try url log_level _headers in
  let caught (name : string) (base : option exn) (level : Z) :=
    let '(err, rec) := WebError_init name None (Some url) base false level in
    Return (set_error ret err, (logs ++ [rec])%list) in
  match exc with
  | None => Return (ret, logs)
  | Some e =>
      try_except (Raise e)
        [ ([InvalidURL], fun _ => caught "URL invalid" None log_level);
          (NETWORK_ERRORS, fun e => caught "network error" (Some e) log_level);
          ([PyException], fun e => caught "internal error" (Some e) ERROR) ]
  end.
End FeedGet.

(** ** Media probe ([__medium_info_callback], lines 308-353) *)

(** [s.find(sub)]: index of the first occurrence, [-1] when there is none. *)
Definition find (s sub : string) : Z :=
  match index 0 sub s with
  | Some p => Z.of_nat p
  | None => -1
  end.

(** [s[a:b]] for [0 <= a <= b]. *)
Definition slice (s : string) (a b : Z) : string :=
  substring (Z.to_nat a) (Z.to_nat (b - a)) s.

Definition byte_value (c : ascii) : Z := Z.of_nat (nat_of_ascii c).

Fixpoint big_endian (acc : Z) (s : string) : Z :=
  match s with
  | EmptyString => acc
  | String c s' => big_endian (acc * 256 + byte_value c) s'
  end.

(** [int(b.hex(), 16)]: the bytes read as one big-endian number;
    [int('', 16)] is a [ValueError]. *)
Definition int_of_hex (b : string) : outcome Z :=
  match b with
  | EmptyString => Raise (mk_exn ValueError "invalid literal for int() with base 16: ''")
  | _ => Return (big_endian 0 b)
  end.

(** [b[i]] for a [bytes] value, [0] past its end. *)
Definition byte_at (b : string) (i : Z) : Z :=
  match String.get (Z.to_nat i) b with
  | Some c => byte_value c
  | None => 0
  end.

(** The [bytes] value with the given byte values. *)
Definition bytes_of (l : list nat) : string :=
  fold_right (fun n s => String (ascii_of_nat n) s) EmptyString l.

Definition bytes2 (a b : nat) : string :=
  String (ascii_of_nat a) (String (ascii_of_nat b) EmptyString).

(** [(b'\xff\xc2', b'\xff\xc1', b'\xff\xc0')] *)
Definition SOF_MARKERS : list string :=
  [bytes2 255 194; bytes2 255 193; bytes2 255 192].

(** Lines 340-345: the position of the first marker of the tuple that
    occurs at all, [-1] when none does. *)
Fixpoint find_pointer (file_header : string) (markers : list string) : Z :=
  match markers with
  | [] => -1
  | marker :: rest =>
      let p := find file_header marker in
      if negb (p =? -1) then p else find_pointer file_header rest
  end.

(** Lines 339-349: the [is_jpeg] branch of the handler; [None] when it
    does not return. *)
Definition jpeg_fallback (file_header : string) : outcome (option (Z * Z)) :=
  let pointer := find_pointer file_header SOF_MARKERS in
  if negb (pointer =? -1) && (pointer + 9 <=? len file_header) then
    (width <- int_of_hex (slice file_header (pointer + 7) (pointer + 9)) ;;
     height <- int_of_hex (slice file_header (pointer + 5) (pointer + 7)) ;;
     Return (Some (width, height)))%outcome
  else Return None.

Section MediumInfo.
Variable py_int : string -> outcome Z.
(** [PIL.Image.open(buffer).size] on the bytes buffered so far. *)
Variable PIL_Image_open : string -> outcome (Z * Z).

(** Lines 326-353.  The second component counts the chunks taken from
    the stream. *)
Fixpoint read_chunks (is_jpeg : bool) (max_read_length : Z)
    (already_read : Z) (buffer : string) (chunks : list string)
    : outcome (Z * Z) * nat :=
  match chunks with
  | [] => (Return (-1, -1), O)
  | chunk :: rest =>
      let already_read := already_read + len chunk in
      let buffer := buffer ++ chunk in
      let next :=
        if already_read >=? max_read_length then (Return (-1, -1), 1%nat)
        else
          let '(r, n) := read_chunks is_jpeg max_read_length already_read
                                     buffer rest in
          (r, S n) in
      match PIL_Image_open buffer with
      | Return (width, height) => (Return (width, height), 1%nat)
      | Raise e =>
          if isinstance e [UnidentifiedImageError] then (Return (-1, -1), 1%nat)
          else if isinstance e [PyException] then
            if is_jpeg then
              match jpeg_fallback buffer with
              | Return (Some wh) => (Return wh, 1%nat)
              | Return None => next
              | Raise e' => (Raise e', 1%nat)
              end
            else next
          else (Raise e, 1%nat)
      end
  end.

Definition content_type_accepted (content_type : string)
    (content_length max_read_length : Z) : bool :=
  (startswith content_type "image" && (find content_type "webp" =? -1))
  || ((negb (find content_type "webp" =? -1)
       || String.eqb content_type "application/octet-stream")
      && (content_length <=? max_read_length)).

Definition __medium_info_callback (response : ClientResponse)
    : outcome (Z * Z) * nat :=
  let content_type :=
    Headers.lower (Headers.get_default (headers response) "Content-Type" "") in
  match py_int (Headers.get_default (headers response) "Content-Length" "1024") with
  | Raise e => (Raise e, O)
  | Return content_length =>
      let max_read_length := Z.min content_length (5 * 1024) in
      if negb (content_type_accepted content_type content_length max_read_length)
      then (Return (-1, -1), O)
      else
        let is_jpeg := startswith content_type "image/jpeg" in
        read_chunks is_jpeg max_read_length 0 "" (iter_chunked response 128)
  end.
End MediumInfo.

(** ** Page title ([get_page_title], lines 377-400) *)

(** What [get_page_title] uses of [urllib.parse.urlparse(url)]. *)
Record ParseResult : Type := mkParseResult {
  path : string;
  hostname : option string
}.

Section PageTitle.
(** [get(url=url, timeout=2, decode=True, intended_content_type='text/html')] *)
Variable fetch : string -> outcome (WebResponse string).
(** [BeautifulSoup(content, 'lxml').title.text]; [AttributeError] when the
    document has no title element. *)
Variable soup_title_text : string -> outcome string.
(** [str.strip] *)
Variable strip : string -> string.
(** What the compiled pattern of line 66 finds in a string: the text of
    the match ([.group()]), if there is one. *)
Variable filename_pattern_search : string -> option string.
(** [urlparse(url)]; [ValueError] on a URL it rejects. *)
Variable urlparse : string -> outcome ParseResult.

(** The [try] block, lines 383-389. *)
Definition title_try (r : outcome (WebResponse string)) : outcome (option string) :=
  (r <- r ;;
   if negb (wr_status r =? 200) || negb (truthy (wr_content r)) then
     Raise (mk_exn ValueError "not an HTML page")
   else
     let content := match wr_content r with Some c => c | None => "" end in
     if len content <=? 27 then Raise (mk_exn ValueError "invalid HTML")
     else
       title <- soup_title_text content ;;
       Return (Some (strip title)))%outcome.

(** [Pattern.search(string, pos, endpos)] of a compiled pattern, called
    with the keyword arguments named in [kwargs]: the method has no
    parameter besides these, so any other keyword is a [TypeError],
    whatever the string. *)
Definition Pattern_search (kwargs : list string) (s : string)
    : outcome (option string) :=
  match List.find (fun k => negb (String.eqb k "pos" || String.eqb k "endpos"))
                  kwargs with
  | Some k =>
      Raise (mk_exn TypeError
               ("'" ++ k ++ "' is an invalid keyword argument for search()"))
  | None => Return (filename_pattern_search s)
  end.

(** Line 66: [partial(re.compile(...).search, flags=re.I)], that is the
    search of the compiled pattern called with the keyword [flags]. *)
Definition contentDispositionFilenameParser : string -> outcome (option string) :=
  Pattern_search ["flags"].

(** Lines 391-392: the parser applied to the [Content-Disposition] header
    of the response, when there is a response and the header is not
    empty. *)
Definition filename_match (r : option (WebResponse string))
    : outcome (option string) :=
  let content_disposition :=
    match r with
    | Some r => Headers.get (wr_headers r) "Content-Disposition"
    | None => None
    end in
  if truthy content_disposition
  then match content_disposition with
       | Some cd => contentDispositionFilenameParser cd
       | None => Return None
       end
  else Return None.

(** The [except Exception] block, lines 391-400.  An exception raised in
    it leaves [get_page_title]. *)
Definition title_fallback (url : string) (r : option (WebResponse string))
    (allow_hostname allow_path allow_filename : bool) : outcome (option string) :=
  (filename_match <- filename_match r ;;
   if is_some filename_match && allow_filename
   then Return filename_match
   else
     url_parsed <- urlparse url ;;
     if allow_path then
       Return (if truthy (Some (path url_parsed))
               then Some (last_segment "/" "" (path url_parsed)) else None)
     else if allow_hostname then Return (hostname url_parsed)
     else Return None)%outcome.

(** The variable [r] as the handler finds it: [None] unless [get]
    returned. *)
Definition response_seen (fetched : outcome (WebResponse string))
    : option (WebResponse string) :=
  match fetched with Return r => Some r | Raise _ => None end.

Definition get_page_title (url : string)
    (allow_hostname allow_path allow_filename : bool) : outcome (option string) :=
  let fetched := fetch url in
  let r := response_seen fetched in
  try_except (title_try fetched)
    [ ([PyException],
       fun _ => title_fallback url r allow_hostname allow_path allow_filename) ].
End PageTitle.

(** The degradation as the specification words it: the first of file
    name, path tail and host name that is both allowed and there. *)
Definition degrade_spec (filename path_tail hostname : option string)
    (allow_hostname allow_path allow_filename : bool) : option string :=
  match (if allow_filename then filename else None) with
  | Some f => Some f
  | None =>
      match (if allow_path then path_tail else None) with
      | Some p => Some p
      | None => if allow_hostname then hostname else None
      end
  end.

End Web.

(** ** [src/parsing/tgraph.py]: rate-limited publishing client *)

Module Tgraph.

(** An [asyncio.Lock] whose holder releases it at a known time is
    represented by the time from which it is free again. *)
Definition lock : Type := Q.

(** [l.locked()] at time [now]. *)
Definition locked (l : lock) (now : Q) : bool := negb (Qle_bool l now).

(** [async with l:] entered at time [t]: the time at which the body runs. *)
Definition acquire (l : lock) (t : Q) : Q := Qmax t l.

Record Telegraph : Type := mkTelegraph {
  token : string;
  last_run : Q;
  _fc_lock : lock;        (* wait if exceed flood control *)
  _request_lock : lock    (* only one request can be sent at the same time *)
}.

(** A remote call: how long it takes and what it yields. *)
Definition remote (A : Type) : Type := (Q * outcome A)%type.

(** What one call of [create_page] did. *)
Record page_call : Type := mkPageCall {
  account_after : Telegraph;
  sent_at : Q;                    (* when the request was attempted *)
  page : outcome string           (* the URL of the page *)
}.

(** Lines 66-74. [create_page] called at time [now]; [reply] is the answer
    of the remote side to this request. *)
Definition create_page (self : Telegraph) (now : Q) (reply : remote string)
    : page_call :=
  let t := acquire (_fc_lock self) now in
  let t := acquire (_request_lock self) t in
  let t := (t + Qmax ((1 # 2) - (t - last_run self)) 0)%Q in
  let finished := (t + fst reply)%Q in
  match snd reply with
  | Return p =>
      mkPageCall (mkTelegraph (token self) finished (_fc_lock self) finished)
                 t (Return p)
  | Raise e =>
      mkPageCall (mkTelegraph (token self) (last_run self) (_fc_lock self) finished)
                 t (Raise e)
  end.

(** Lines 76-89. [flood_wait] called at time [now]; [create_account] is the
    answer of the remote side should a new account be requested (it sets
    [self.token]).  The gate is held from [now] until the time stored in
    [_fc_lock] of the account returned. *)
Definition flood_wait (self : Telegraph) (now : Q) (retry_after : Z)
    (create_account : remote string)
    : Telegraph * list log_record * outcome unit :=
  if negb (locked (_fc_lock self) now) then
    let retry_after := retry_after + 1 in
    let blocking :=
      mkLog INFO ("Blocking any requests for this telegraph account due to "
                  ++ "flood control... (" ++ py_str retry_after ++ "s)") None in
    let unblocked := mkLog INFO "Unblocked." None in
    if retry_after >=? 60 then
      let released := (now + fst create_account)%Q in
      match snd create_account with
      | Return new_token =>
          (mkTelegraph new_token (last_run self) released (_request_lock self),
           [blocking;
            mkLog WARNING ("Wanna let me wait? No way! Created a new Telegraph "
                           ++ "account: " ++ new_token) None;
            unblocked],
           Return tt)
      | Raise e =>
          (mkTelegraph (token self) (last_run self) released (_request_lock self),
           [blocking], Raise e)
      end
    else
      (mkTelegraph (token self) (last_run self) (now + inject_Z retry_after)%Q
                   (_request_lock self),
       [blocking; unblocked], Return tt)
  else (self, [], Return tt).

(** How long a call arriving at [now] waits before its request goes out. *)
Definition waited (c : page_call) (now : Q) : Q := (sent_at c - now)%Q.

(** *** Account pool (lines 92-141) *)

Record APIs : Type := mkAPIs {
  _accounts : list Telegraph;
  _curr_id : Z
}.

Definition count (apis : APIs) : Z := Z.of_nat (List.length (_accounts apis)).

Definition get_account (apis : APIs) : outcome (Telegraph * APIs) :=
  match _accounts apis with
  | [] => Raise (mk_exn TelegraphError "Telegraph token no set!")
  | first :: _ =>
      let n := count apis in
      let curr_id := if (0 <=? _curr_id apis) && (_curr_id apis <? n)
                     then _curr_id apis else 0 in
      let next_id := if (0 <=? curr_id + 1) && (curr_id + 1 <? n)
                     then curr_id + 1 else 0 in
      Return (nth (Z.to_nat curr_id) (_accounts apis) first,
              mkAPIs (_accounts apis) next_id)
  end.

(** *** Publication with retries (lines 329-364) *)

Inductive step : Type :=
  | Attempt (account : string)                     (* a [create_page] call *)
  | FloodWait (account : string) (retry_after : Z). (* a [flood_wait] call *)

Record ify : Type := mkIfy {
  retries : Z;
  apis : APIs;
  trace : list step
}.

(** How a call ends: with a value or an exception, or still waiting for a
    reply when the replies given to the model are used up. *)
Inductive ify_end : Type :=
  | Ended (o : outcome (option string))
  | AwaitingReply.

Definition attempts_of (t : list step) : nat :=
  List.length (filter (fun s => match s with Attempt _ => true | _ => false end) t).

Section TelegraphIfy.
Variable py_int : string -> outcome Z.
(** [await self.task]: the page generation started by the constructor. *)
Variable task : outcome unit.

(** [replies] are the answers of the remote side to the successive
    [create_page] calls.  Inside [flood_wait] the account creation is taken
    to succeed, so that [asyncio.gather] ends with the recursive call;
    its value is [rets[0]], the [None] of [flood_wait]. *)
Fixpoint telegraph_ify (replies : list (outcome string)) (self : ify)
    : ify_end * ify :=
  match task with
  | Raise e => (Ended (Raise e), self)
  | Return _ =>
      if retries self >=? 3 then (Ended (Raise (mk_exn OverflowError "")), self)
      else
        match get_account (apis self) with
        | Raise e => (Ended (Raise e), self)
        | Return (telegraph_account, apis') =>
            match replies with
            | [] => (AwaitingReply, mkIfy (retries self) apis' (trace self))
            | reply :: replies' =>
                let self := mkIfy (retries self) apis'
                              (trace self ++ [Attempt (token telegraph_account)]) in
                match reply with
                | Return url => (Ended (Return (Some url)), self)
                | Raise e =>
                    if isinstance e [TelegraphError] then
                      let e_msg := exn_msg e in
                      if startswith e_msg "FLOOD_WAIT_" then
                        match py_int (last_segment "_" "" e_msg) with
                        | Raise e' => (Ended (Raise e'), self)
                        | Return retry_after =>
                            let self :=
                              mkIfy (retries self + 1) (apis self)
                                (trace self ++
                                 [FloodWait (token telegraph_account) retry_after]) in
                            match telegraph_ify replies' self with
                            | (Ended (Return _), self') => (Ended (Return None), self')
                            | other => other
                            end
                        end
                      else (Ended (Raise e), self)
                    else if isinstance e [TimeoutError; AsyncioTimeoutError] then
                      (Ended (Raise e), self)
                    else if isinstance e [ClientError; ConnectionError] then
                      if retries self <? 3 then telegraph_ify replies' self
                      else (Ended (Raise e), self)
                    else (Ended (Raise e), self)
                end
            end
        end
  end.
End TelegraphIfy.

End Tgraph.

(** ** [src/helpers/queue/_helper.py]: dispatcher *)

Module QueuedHelper.

Section Helper.
(** The payload [(args, kwargs)] of a work entry. *)
Variable P : Type.
(** Calling [func] on the payload builds the coroutine; the call itself
    may raise (a wrong signature, say). *)
Variable func : P -> outcome unit.

(** A queue entry: [(args, kwargs)] or the sentinel [(None, None)]. *)
Inductive entry : Type :=
  | Work (payload : P)
  | Sentinel.

(** The consumer task.  It is suspended in [await queue.get()] (or not
    started yet) whenever another coroutine runs.  [task.cancel()] on such a
    task makes its next resumption raise [CancelledError], which is not an
    [Exception] and so leaves the loop. *)
Inductive task : Type :=
  | Waiting            (* will run when scheduled *)
  | CancelRequested    (* [cancel()] was called, not yet delivered *)
  | Finished           (* the coroutine returned *)
  | Cancelled.         (* ended by [CancelledError] *)

Definition done (t : task) : bool :=
  match t with
  | Finished | Cancelled => true
  | Waiting | CancelRequested => false
  end.

Record t : Type := mk {
  maxsize : Z;                      (* of the queue; [<= 0] is unbounded *)
  _queue : list entry;
  _consumer_task : option task;
  spawned : list P;                 (* tasks created by the consumer *)
  errors_logged : list exn          (* [logger.error] calls of the consumer *)
}.

Definition with_queue (h : t) (q : list entry) : t :=
  mk (maxsize h) q (_consumer_task h) (spawned h) (errors_logged h).

Definition with_task (h : t) (c : task) : t :=
  mk (maxsize h) (_queue h) (Some c) (spawned h) (errors_logged h).

Definition full (h : t) : bool :=
  (0 <? maxsize h) && (maxsize h <=? Z.of_nat (List.length (_queue h))).

(** [self._queue.put_nowait(item)] *)
Definition put_nowait (h : t) (item : entry) : option t :=
  if full h then None (* QueueFull *)
  else Some (with_queue h (_queue h ++ [item])).

(** Lines 45-59, from one resumption of the consumer to its next
    suspension or its end: [queue.get()] does not suspend while the queue
    has entries. *)
Fixpoint consume (q : list entry) (spawned : list P) (errors : list exn)
    : list entry * task * list P * list exn :=
  match q with
  | [] => ([], Waiting, spawned, errors)
  | Sentinel :: rest => (rest, Finished, spawned, errors)
  | Work payload :: rest =>
      match func payload with
      | Return _ => consume rest (spawned ++ [payload]) errors
      | Raise e => consume rest spawned (errors ++ [e])
      end
  end.

(** The event loop runs the consumer task once. *)
Definition consumer_turn (h : t) : t :=
  match _consumer_task h with
  | Some Waiting =>
      let '(q, c, sp, errs) := consume (_queue h) (spawned h) (errors_logged h) in
      mk (maxsize h) q (Some c) sp errs
  | Some CancelRequested => with_task h Cancelled
  | _ => h
  end.

(** Lines 74-87. *)
Definition close_sync (h : t) : t * bool :=
  match _consumer_task h with
  | None => (h, false)
  | Some c =>
      if done c then (h, false)
      else
        match _queue h with
        | [] =>
            match put_nowait h Sentinel with
            | Some h' => (h', true)
            | None => (h, false)   (* logged, [return False] *)
            end
        | _ :: _ =>
            (* [Task.cancel()] of a task that is not done returns [True] *)
            (with_task h CancelRequested, true)
        end
  end.

(** [queued_nowait] on a payload; a full queue raises and is left as
    it was. *)
Definition queued_nowait (h : t) (payload : P) : t :=
  match put_nowait h (Work payload) with
  | Some h' => h'
  | None => h
  end.

(** What can happen to a helper after [close_sync]: producers enqueue,
    and the event loop schedules the consumer. *)
Inductive event : Type :=
  | Enqueue (payload : P)
  | ConsumerRuns.

Definition apply_event (h : t) (e : event) : t :=
  match e with
  | Enqueue payload => queued_nowait h payload
  | ConsumerRuns => consumer_turn h
  end.

Definition run (h : t) (evs : list event) : t := fold_left apply_event evs h.

End Helper.

Arguments Work {P}.
Arguments Sentinel {P}.
Arguments Enqueue {P}.
Arguments ConsumerRuns {P}.

End QueuedHelper.

(** ** Concrete inputs

    Small worlds on which the models are run: the statements below that
    carry no variable are checked on them by computation. *)

Module Sample.
Import Web.

Definition no_body : outcome string := Raise (mk_exn ClientPayloadError "").

(** A response of which only status line and headers matter. *)
Definition head_only (st : Z) (h : Headers.t) : ClientResponse :=
  mkClientResponse st (Some "OK") h no_body no_body (fun _ => no_body)
                   (fun _ => []).

(** A response whose body is [body], however it is read. *)
Definition with_body (st : Z) (h : Headers.t) (body : string) : ClientResponse :=
  mkClientResponse st (Some "OK") h (Return body) (Return body)
                   (fun n => Return (substring 0 (Z.to_nat n) body))
                   (fun _ => [body]).

Definition feed_url : string := "https://example.org/feed.xml".

Definition empty_200 : WebResponse string :=
  mkWebResponse feed_url (Some "") [("Content-Length", "0")] 200 (Some "OK").

Definition not_modified_304 : WebResponse string :=
  mkWebResponse feed_url None [("ETag", "abc")] 304 (Some "Not Modified").

Definition parser_unused : string -> outcome FeedParserDict :=
  fun _ => Raise (mk_exn AssertionError "parser called").

(** A decoder that finds every buffer truncated. *)
Definition pil_truncated : string -> outcome (Z * Z) :=
  fun _ => Raise (mk_exn OSError "image file is truncated").

(** SOI, then a baseline frame header: precision 8, height 300, width 600. *)
Definition jpeg_head : string :=
  bytes_of [255; 216; 255; 192; 0; 17; 8; 1; 44; 2; 88; 3; 1]%nat.

(** The same frame header in the second 128-byte chunk of a stream that
    ends after 160 bytes. *)
Definition jpeg_chunk1 : string :=
  bytes_of ([255; 216] ++ repeat 0 126)%nat%list.
Definition jpeg_chunk2 : string :=
  bytes_of ([0; 0; 255; 192; 0; 17; 8; 1; 44; 2; 88; 3] ++ repeat 0 20)%nat%list.
Definition truncated_jpeg : ClientResponse :=
  mkClientResponse 200 (Some "OK")
    [("Content-Type", "image/jpeg"); ("Content-Length", "20000")]
    no_body no_body (fun _ => no_body)
    (fun _ => [jpeg_chunk1; jpeg_chunk2]).

Definition page_url : string := "http://example.com".
Definition timed_out : string -> outcome (WebResponse string) :=
  fun _ => Raise (mk_exn AsyncioTimeoutError "").
Definition no_title : string -> outcome string :=
  fun _ => Raise (mk_exn AttributeError "'NoneType' object has no attribute 'text'").
Definition no_filename : string -> option string := fun _ => None.

(** A download: a 200 that is no HTML page and names its file in
    [Content-Disposition], and a pattern search that finds the name. *)
Definition dq : string := String (ascii_of_nat 34) EmptyString.
Definition report_disposition : string :=
  "attachment; filename=" ++ dq ++ "report.pdf" ++ dq.
Definition report_response : WebResponse string :=
  mkWebResponse "http://example.com/a/report" None
    [("Content-Type", "application/pdf");
     ("Content-Disposition", report_disposition)] 200 (Some "OK").
Definition serves_report : string -> outcome (WebResponse string) :=
  fun _ => Return report_response.
Definition finds_report : string -> option string := fun _ => Some "report.pdf".

(** [urlparse] on the URLs used below. *)
Definition urlparse_sample (url : string) : outcome ParseResult :=
  if String.eqb url "https://example.org/feed.xml"
  then Return (mkParseResult "/feed.xml" (Some "example.org"))
  else if String.eqb url "http://example.com"
  then Return (mkParseResult "" (Some "example.com"))
  else if String.eqb url "http://example.com/a/b.html"
  then Return (mkParseResult "/a/b.html" (Some "example.com"))
  else Raise (mk_exn ValueError "Invalid IPv6 URL").

Definition account_A : Tgraph.Telegraph := Tgraph.mkTelegraph "token-A" 0%Q 0%Q 0%Q.
Definition new_account : Tgraph.remote string := (0%Q, Return "token-B").
Definition page_reply : Tgraph.remote string :=
  (0%Q, Return "https://telegra.ph/page").

(** [urlparse(url).hostname] on the URLs used below. *)
Definition hostname_sample (url : string) : outcome (option string) :=
  (r <- urlparse_sample url ;; Return (hostname r))%outcome.

Definition always_ok : nat -> outcome unit := fun _ => Return tt.

(** A dispatcher with a running consumer and the given queue. *)
Definition helper_with (q : list (QueuedHelper.entry nat)) : QueuedHelper.t nat :=
  QueuedHelper.mk nat 0 q (Some QueuedHelper.Waiting) [] [].

End Sample.

(** ** Further parts of the three modules

    Functions of [src/web.py], [src/parsing/tgraph.py] and
    [src/helpers/queue/_helper.py] that the sections above call or are
    called by. *)

Module Publishing.
Import Tgraph.

(** The [flood_wait] calls of a trace. *)
Definition floods_of (t : list step) : nat :=
  List.length
    (filter (fun s => match s with FloodWait _ _ => true | _ => false end) t).

(** [k] successive [apis.get_account()] calls: the tokens handed out, in
    order, and the pool afterwards.  A call that raises ends the series. *)
Fixpoint take_accounts (k : nat) (apis : APIs) : list string * APIs :=
  match k with
  | O => ([], apis)
  | S k' =>
      match get_account apis with
      | Raise _ => ([], apis)
      | Return (a, apis') =>
          let '(rest, final) := take_accounts k' apis' in
          (token a :: rest, final)
      end
  end.

(** Lines 341-344: the arguments of [create_page].  A [str] is a list of
    characters of any alphabet [A]; [ellipsis] is the character U+2026. *)
Section PageArguments.
Variable A : Type.
Variable ellipsis : A.

(** [s[:n]] *)
Definition upto (n : nat) (s : list A) : list A := firstn n s.

Definition title_argument (telegraph_title : list A) : list A :=
  if (61 <? List.length telegraph_title)%nat
  then (upto 60 telegraph_title ++ [ellipsis])%list
  else telegraph_title.

Definition author_name_argument (telegraph_author : list A) : list A :=
  upto 128 telegraph_author.

Definition author_url_argument (telegraph_author_url : list A) : list A :=
  upto 512 telegraph_author_url.
End PageArguments.

End Publishing.

Module Fetched.
Import Web.

Section Built.
Variable C : Type.
Variable resp_callback : ClientResponse -> outcome (option C).

(** What the [WebResponse] of lines 232-236 is made of: the URL asked
    for, the headers, status and reason of the response at hand, and as
    content the result of the body policy for a 200, nothing otherwise. *)
Definition built_from (url : string) (r : WebResponse C)
    (response : ClientResponse) : Prop :=
  wr_url r = url
  /\ wr_headers r = headers response
  /\ wr_status r = status response
  /\ wr_reason r = reason response
  /\ (status response = 200 -> resp_callback response = Return (wr_content r))
  /\ (status response <> 200 -> wr_content r = None).
End Built.

End Fetched.

Module Medium.
Import Web.

(** The bytes of a run of chunks. *)
Fixpoint bytes_in (chunks : list string) : Z :=
  match chunks with
  | [] => 0
  | chunk :: rest => len chunk + bytes_in rest
  end.

Section GetMediumInfo.
Variable py_int : string -> outcome Z.
Variable PIL_Image_open : string -> outcome (Z * Z).
Variable IPV6_PRIOR : bool.
Variable resolver_query : outcome (list string).
Variable url_hostname : string -> outcome (option string).
Variable session_get : Z -> family -> outcome ClientResponse.

(** [__medium_info_callback] as the body policy of [_get]: its value is
    the pair of width and height. *)
Definition medium_callback (response : ClientResponse)
    : outcome (option (Z * Z)) :=
  match fst (__medium_info_callback py_int PIL_Image_open response) with
  | Return wh => Return (Some wh)
  | Raise e => Raise e
  end.

(** [int(r.headers.get('Content-Length') or -1)] *)
Definition declared_size (hs : Headers.t) : outcome Z :=
  let v := Headers.get hs "Content-Length" in
  if truthy v
  then py_int (match v with Some s => s | None => "" end)
  else Return (-1).

(** Lines 357-374, without the memoization of [lru_cache]: size, width,
    height and content type, or [None]. *)
Definition get_medium_info (url : string)
    : outcome (option (Z * Z * Z * option string)) :=
  if startswith url "data:" then Return None
  else
    match
      try_except
        (r <- _get (Z * Z) IPV6_PRIOR resolver_query url_hostname session_get
                   medium_callback url ;;
         if negb (wr_status r =? 200)
         then Raise (mk_exn ValueError "status code not 200")
         else Return (Some r))%outcome
        [ ([PyException], fun _ => Return None) ]
    with
    | Raise e => Raise e
    | Return None => Return None
    | Return (Some r) =>
        (size <- declared_size (wr_headers r) ;;
         let content_type := Headers.get (wr_headers r) "Content-Type" in
         let '(width, height) :=
           match wr_content r with
           | Some wh => wh
           | None => (-1, -1)
           end in
         Return (Some (size, width, height, content_type)))%outcome
    end.
End GetMediumInfo.

End Medium.

Module Proxy.

(** [s.endswith(suffix)] *)
Definition endswith (s suffix : string) : bool :=
  (String.length suffix <=? String.length s)%nat
  && String.eqb (substring (String.length s - String.length suffix)
                           (String.length suffix) s) suffix.

(** [s[-k]] for [k >= 1]; [None] is the [IndexError] of an index out of
    range. *)
Definition char_from_end (s : string) (k : nat) : option ascii :=
  if ((1 <=? k) && (k <=? String.length s))%nat
  then String.get (String.length s - k) s
  else None.

(** How a call of [proxy_filter] ends. *)
Inductive verdict : Type :=
  | Decided (use_proxy : bool)
  | Failed (e : exn)
  | IndexError.

(** Lines 135-136: [any(...)] over the bypass domains, from left to
    right; [None] is an [IndexError] raised on the way. *)
Fixpoint any_bypassed (hostname : string) (domains : list string) : option bool :=
  match domains with
  | [] => Some false
  | domain :: rest =>
      if endswith hostname domain then
        if String.eqb hostname domain then Some true
        else
          match char_from_end hostname (String.length domain + 1) with
          | None => None
          | Some c =>
              if Ascii.eqb c "."%char then Some true
              else any_bypassed hostname rest
          end
      else any_bypassed hostname rest
  end.

Section ProxyFilter.
(** [env.PROXY_BYPASS_PRIVATE] and [env.PROXY_BYPASS_DOMAINS]. *)
Variable PROXY_BYPASS_PRIVATE : bool.
Variable PROXY_BYPASS_DOMAINS : list string.
(** [urlparse(url).hostname] *)
Variable url_hostname : string -> outcome (option string).
(** [ip_address(hostname)] followed by the test against
    [PRIVATE_NETWORKS]; [None] is the [ValueError] of a host name that is
    no IP address. *)
Variable ip_private : string -> option bool.

Definition nonempty {A} (l : list A) : bool :=
  match l with [] => false | _ :: _ => true end.

(** Lines 121-139. *)
Definition proxy_filter (url : string) (parse : bool) : verdict :=
  if negb (PROXY_BYPASS_PRIVATE || nonempty PROXY_BYPASS_DOMAINS)
  then Decided true
  else
    match (if parse then url_hostname url else Return (Some url)) with
    | Raise e => Failed e
    | Return hostname =>
        let is_private :=
          if PROXY_BYPASS_PRIVATE then
            match hostname with
            | Some h => match ip_private h with Some b => b | None => false end
            | None => false
            end
          else false in
        if is_private then Decided false
        else if nonempty PROXY_BYPASS_DOMAINS then
          match hostname with
          | None =>
              Failed (mk_exn AttributeError
                        "'NoneType' object has no attribute 'endswith'")
          | Some h =>
              match any_bypassed h PROXY_BYPASS_DOMAINS with
              | None => IndexError
              | Some true => Decided false
              | Some false => Decided true
              end
          end
        else Decided true
    end.
End ProxyFilter.

(** [hostname] is [domain] or ends with a dot followed by [domain]. *)
Definition label_suffix (hostname domain : string) : Prop :=
  hostname = domain \/ exists pre, hostname = pre ++ "." ++ domain.

End Proxy.

Module Text.

(** [c in s] for a character. *)
Fixpoint has_char (c : ascii) (s : string) : bool :=
  match s with
  | EmptyString => false
  | String x s' => Ascii.eqb x c || has_char c s'
  end.

End Text.

Module Lifecycle.
Import QueuedHelper.

Section Init.
Variable P : Type.
Variable func : P -> outcome unit.

(** Lines 61-69, [init_sync]: nothing while a consumer task is there and
    not done; otherwise a new queue from the queue constructor (of size
    [new_maxsize]) and a new consumer task. *)
Definition init_sync (new_maxsize : Z) (h : t P) : t P :=
  let restart :=
    mk P new_maxsize [] (Some Waiting) (spawned P h) (errors_logged P h) in
  match _consumer_task P h with
  | Some c => if negb (done c) then h else restart
  | None => restart
  end.

(** The payloads of work entries. *)
Fixpoint payloads (q : list (entry P)) : list P :=
  match q with
  | [] => []
  | Work p :: rest => p :: payloads rest
  | Sentinel :: rest => payloads rest
  end.

(** The entries in front of the first sentinel, and whether there is one. *)
Fixpoint before_sentinel (q : list (entry P)) : list P :=
  match q with
  | [] => []
  | Work p :: rest => p :: before_sentinel rest
  | Sentinel :: _ => []
  end.

Fixpoint after_sentinel (q : list (entry P)) : list (entry P) :=
  match q with
  | [] => []
  | Work _ :: rest => after_sentinel rest
  | Sentinel :: rest => rest
  end.

Definition has_sentinel (q : list (entry P)) : bool :=
  existsb (fun e => match e with Sentinel => true | Work _ => false end) q.

(** The payloads for which calling [func] returns, and the exceptions of
    the others. *)
Definition accepted (ps : list P) : list P :=
  filter (fun p => match func p with Return _ => true | Raise _ => false end) ps.

Fixpoint rejected (ps : list P) : list exn :=
  match ps with
  | [] => []
  | p :: rest =>
      match func p with
      | Return _ => rejected rest
      | Raise e => e :: rejected rest
      end
  end.
End Init.

End Lifecycle.

Module Logged.
Import Web.

Section FeedGet.
Variable py_int : string -> outcome Z.
(** [get(url, timeout, web_semaphore, headers=_headers)] of line 259: its
    outcome, and the records [_get] writes to the logger of the module
    while it runs (lines 193 and 241: a failed AAAA lookup, a retry over
    IPv4). *)
Variable fetch :
  list (string * string) -> outcome (WebResponse string) * list log_record.
Variable feedparser_parse : string -> outcome FeedParserDict.

(** [feed_get] with all the records of the call: [get] is the first step
    of the [try], so what it logs stands in front of the record of a
    [WebError], which is created after [get] has come back. *)
Definition feed_get (url : string) (headers : option (list (string * string)))
    (verbose : bool) : outcome (WebFeed * list log_record) :=
  let fetched := fetch (feed_headers headers) in
  match Web.feed_get py_int (fun _headers => fst (fetch _headers))
                     feedparser_parse url headers verbose with
  | Return (ret, own) => Return (ret, (snd fetched ++ own)%list)
  | Raise e => Raise e
  end.
End FeedGet.

End Logged.

(** ** More concrete inputs *)

Module Sample2.
Import Web Sample.

Definition account_B : Tgraph.Telegraph := Tgraph.mkTelegraph "token-B" 0%Q 0%Q 0%Q.
Definition pool_AB : list Tgraph.Telegraph := [account_A; account_B].
Definition pool_A : Tgraph.APIs := Tgraph.mkAPIs [account_A] 0.
Definition fresh_ify : Tgraph.ify := Tgraph.mkIfy 0 pool_A [].
Definition flood_5 : exn := mk_exn TelegraphError "FLOOD_WAIT_5".
Definition page_link : string := "https://telegra.ph/p".

(** A dispatcher with a running consumer and a queue of at most two. *)
Definition bounded_helper : QueuedHelper.t nat :=
  QueuedHelper.mk nat 2 [] (Some QueuedHelper.Waiting) [] [].

(** A target that refuses odd payloads. *)
Definition even_only (n : nat) : outcome unit :=
  if Nat.even n then Return tt else Raise (mk_exn TypeError "odd").

(** An origin that answers a feed, one that blocks IPv6 and one without
    the resource. *)
Definition serves_feed : Z -> family -> outcome ClientResponse :=
  fun _ _ => Return (with_body 200 [] "<rss/>").
Definition blocks_v6 : Z -> family -> outcome ClientResponse :=
  fun _ f =>
    match f with
    | AF_INET6 => Return (head_only 403 [])
    | _ => Return (with_body 200 [] "<rss/>")
    end.
Definition not_found : Z -> family -> outcome ClientResponse :=
  fun _ _ => Return (head_only 404 []).

Definition feed_with_title : FeedParserDict :=
  mkFeedParserDict [("title", "News")] [].
Definition parses_title : string -> outcome FeedParserDict :=
  fun _ => Return feed_with_title.
Definition feed_200 : WebResponse string :=
  mkWebResponse feed_url (Some "<rss/>") [] 200 (Some "OK").

Definition big_webp : ClientResponse :=
  head_only 200 [("Content-Type", "image/webp"); ("Content-Length", "9000")].

(** An origin that cannot be reached in time, and what [feed_get] makes
    of it. *)
Definition timeout_feed : WebFeed :=
  mkWebFeed feed_url None (-1) None None
    (Some (mkWebError "network error" None (Some feed_url)
             (Some (mk_exn AsyncioTimeoutError "")) false)).
Definition timeout_logs : list log_record :=
  [mkLog DEBUG
     "Fetch failed (network error, TimeoutError): https://example.org/feed.xml"
     None].

(** The record of line 193 for an AAAA lookup that failed, and a fetch
    that writes it before it times out. *)
Definition lookup_failed : list log_record :=
  [mkLog DEBUG "Error occurred when querying https://example.org/feed.xml AAAA:"
     (Some (mk_exn OSError "resolver is down"))].
Definition unreachable_v6
    : list (string * string) -> outcome (WebResponse string) * list log_record :=
  fun _ => (Raise (mk_exn AsyncioTimeoutError ""), lookup_failed).

Definition answer_404 : WebResponse string :=
  mkWebResponse feed_url None [] 404 (Some "OK").
Definition seen : ClientResponse -> outcome (option string) :=
  fun _ => Return (Some "seen").
Definition article_url : string := "http://example.com/a/b.html".
Definition article_gone : string -> outcome (WebResponse string) :=
  fun url => Return (mkWebResponse url None [] 404 (Some "Not Found")).
Definition report_origin : Z -> family -> outcome ClientResponse :=
  fun _ _ =>
    Return (with_body 200 [("Content-Type", "application/pdf");
                           ("Content-Disposition", report_disposition)] "%PDF").

End Sample2.

(** * Properties *)

Import Web.

(** ** Exceptions *)

Lemma issubclass_Exception (c : exc_class) : issubclass c PyException = true.
Proof. destruct c; reflexivity. Qed.

Lemma isinstance_Exception (e : exn) : isinstance e [PyException] = true.
Proof.
  unfold isinstance; simpl. now rewrite issubclass_Exception.
Qed.

(** ** Fetch engine *)

Section FetchEngine.
Context {C : Type}.
Variable IPV6_PRIOR : bool.
Variable resolver_query : outcome (list string).
Variable url_hostname : string -> outcome (option string).
Variable session_get : Z -> family -> outcome ClientResponse.
Variable resp_callback : ClientResponse -> outcome (option C).

Let loop := _get_loop C session_get resp_callback.
Let run := _get_run C IPV6_PRIOR resolver_query url_hostname session_get
             resp_callback.

(** The AAAA lookup never fails the call. *)
Lemma query_v6_returns :
  exists v6, query_v6 IPV6_PRIOR resolver_query = Return v6.
Proof.
  unfold query_v6.
  destruct IPV6_PRIOR; [destruct resolver_query as [v|e] | ];
    cbn [try_except]; eauto.
  destruct (isinstance e [DNSError; AsyncioTimeoutError]); eauto.
  rewrite isinstance_Exception; eauto.
Qed.

(** The second round of the loop always ends the call: it runs over
    IPv4 with [tries = 2]. *)
Lemma second_round (k : nat) (url : string) (fam : family) :
  exists o, loop (S k) url 1 true fam = (Done o, [AF_INET]).
Proof.
  unfold loop; cbn [_get_loop]. change (1 + 1) with 2.
  cbn [Z.leb Z.compare Pos.compare Pos.compare_cont negb].
  destruct (try_body C session_get resp_callback 2 AF_INET) as [[resp c]|e].
  - destruct (status resp =? 200); cbn [family_eqb andb]; eauto.
  - destruct (isinstance e EXCEPTIONS_SHOULD_RETRY);
      cbn [family_eqb negb orb]; eauto.
Qed.

Lemma likely_blocked_not_200 (s : Z) :
  status_in s LIKELY_BLOCKED = true -> (s =? 200) = false.
Proof.
  unfold status_in, LIKELY_BLOCKED; simpl. intros H.
  destruct (Z.eqb_spec s 200) as [->|]; [discriminate H | reflexivity].
Qed.

Lemma loop_from_start (k : nat) (url : string) (fam : family) :
  exists o fams,
    loop (S (S k)) url 0 false fam = (Done o, fams)
    /\ (fams = [fam] \/ fams = [AF_INET6; AF_INET])
    /\ (fams = [AF_INET6; AF_INET]
        <-> retried_over_v4 C session_get resp_callback fam).
Proof.
  unfold retried_over_v4.
  destruct (second_round k url fam) as [o2 H2]. unfold loop in *.
  remember (S k) as n eqn:Hn. clear Hn.
  cbn [_get_loop]. cbn [Z.add Z.leb Z.compare Pos.compare Pos.compare_cont negb
                          Z.eqb Pos.eqb Z.gtb orb].
  change (0 + 1) with 1.
  destruct (try_body C session_get resp_callback 1 fam) as [[resp c]|e] eqn:Hb.
  - destruct (status resp =? 200) eqn:H200.
    + eexists _, _; split; [reflexivity|]. split; [now left|].
      split; [destruct fam; discriminate|].
      intros [_ [(e & He & _)|(r & c' & He & Hs)]]; [discriminate|].
      injection He as <- <-. apply likely_blocked_not_200 in Hs. congruence.
    + destruct fam; cbn [family_eqb andb].
      1,2: eexists _, _; split; [reflexivity|]; split; [now left|];
           split; [discriminate | intros [? _]; discriminate].
      destruct (status_in (status resp) LIKELY_BLOCKED) eqn:Hs.
      * rewrite H2. eexists _, _; split; [reflexivity|]. split; [now right|].
        split; [|reflexivity]. intros _. split; [reflexivity|]. right; eauto.
      * eexists _, _; split; [reflexivity|]. split; [now left|].
        split; [discriminate|].
        intros [_ [(e & He & _)|(r & c' & He & Hs')]]; [discriminate|].
        injection He as <- <-. congruence.
  - destruct (isinstance e EXCEPTIONS_SHOULD_RETRY) eqn:Hr.
    + destruct fam; cbn [family_eqb negb orb].
      1,2: eexists _, _; split; [reflexivity|]; split; [now left|];
           split; [discriminate | intros [? _]; discriminate].
      rewrite H2. eexists _, _; split; [reflexivity|]. split; [now right|].
      split; [|reflexivity]. intros _. split; [reflexivity|]. left; eauto.
    + eexists _, _; split; [reflexivity|]. split; [now left|].
      split; [destruct fam; discriminate|].
      intros [_ [(e' & He & Hr')|(r & c' & He & _)]]; [|discriminate].
      injection He as <-. congruence.
Qed.


(** Three rounds of fuel, as [_get] takes them, are therefore enough,
    and the families listed by [attempts] are those of the call. *)
Lemma get_is_loop_result (url : string) :
  exists o fams,
    run 3 url = (Done o, fams)
    /\ _get C IPV6_PRIOR resolver_query url_hostname session_get
            resp_callback url = o
    /\ attempts C IPV6_PRIOR resolver_query url_hostname session_get
                resp_callback url = fams.
Proof.
  unfold _get, attempts. fold run. unfold run, _get_run.
  destruct (url_hostname url) as [host|e0]; [|eauto].
  destruct query_v6_returns as [v6 Hq].
  destruct (loop_from_start 1 url (initial_family v6)) as (o & fams & Hl & _).
  exists o, fams. rewrite Hq. unfold loop in Hl. rewrite Hl. auto.
Qed.

End FetchEngine.

(** ** Feed wrapper *)

Section FeedWrapper.
Variable py_int : string -> outcome Z.
Variable fetch : list (string * string) -> outcome (WebResponse string).
Variable feedparser_parse : string -> outcome FeedParserDict.

Let feed_get' := feed_get py_int fetch feedparser_parse.

(** C4. A response with status 304, or with status 200 and a
    [Content-Length] header whose value is the number 0, makes [feed_get]
    return at once: the result is the same whatever the parser would do, it
    carries no error and no parsed feed, nothing is logged, and its status
    reads 304. *)
Theorem feed_get_not_modified (url : string)
    (headers : option (list (string * string))) (verbose : bool)
    (resp : WebResponse string) :
  fetch (feed_headers headers) = Return resp ->
  (wr_status resp = 304
   \/ (wr_status resp = 200
       /\ exists v, Headers.get (wr_headers resp) "Content-Length" = Some v
                    /\ py_int v = Return 0)) ->
  exists ret,
    feed_get' url headers verbose = Return (ret, [])
    /\ ret = mkWebFeed (wr_url resp) (Some (wr_headers resp)) 304 None None None
    /\ error ret = None /\ rss_d ret = None.
Proof.
  intros Hfetch Hnm. eexists. split; [|split; [reflexivity | split; reflexivity]].
  unfold feed_get', feed_get, feed_get_try. rewrite Hfetch.
  destruct Hnm as [H304 | (H200 & v & Hv & Hint)].
  - rewrite H304. cbn. unfold set_response, WebFeed_new; cbn.
    now rewrite H304.
  - rewrite H200. unfold Headers.get_default. rewrite Hv, Hint. cbn.
    reflexivity.
Qed.


End FeedWrapper.

(** ** Media probe *)

Lemma substring_two (s : string) :
  forall n, (n + 2 <= String.length s)%nat ->
  exists a b, substring n 2 s = String a (String b EmptyString)
              /\ String.get n s = Some a /\ String.get (S n) s = Some b.
Proof.
  induction s as [|c s IH]; intros n H; cbn [String.length] in H; [lia|].
  destruct n as [|n].
  - destruct s as [|d s]; cbn [String.length] in H; [lia|].
    exists c, d. cbn. destruct s; auto.
  - destruct (IH n ltac:(lia)) as (a & b & Hs & Ha & Hb).
    exists a, b. cbn [substring String.get]. auto.
Qed.

(** Two bytes read by [int(b.hex(), 16)] are a big-endian 16-bit number. *)
Lemma int_of_hex_two (fh : string) (i : Z) :
  0 <= i -> i + 2 <= len fh ->
  int_of_hex (slice fh i (i + 2))
  = Return (byte_at fh i * 256 + byte_at fh (i + 1)).
Proof.
  intros Hi Hl. unfold slice, len in *.
  replace (i + 2 - i) with 2 by lia. change (Z.to_nat 2) with 2%nat.
  destruct (substring_two fh (Z.to_nat i) ltac:(lia)) as (a & b & Hs & Ha & Hb).
  rewrite Hs. unfold int_of_hex, byte_at. cbn [big_endian].
  replace (Z.to_nat (i + 1)) with (S (Z.to_nat i)) by lia.
  rewrite Ha, Hb. f_equal.
Qed.

Lemma find_not_found (s sub : string) :
  find s sub = -1 <-> index 0 sub s = None.
Proof.
  unfold find. destruct (index 0 sub s); split; intros H; try discriminate; auto.
  lia.
Qed.

Lemma find_found (s sub : string) (p : Z) :
  find s sub = p -> p <> -1 -> index 0 sub s = Some (Z.to_nat p) /\ 0 <= p.
Proof.
  unfold find. destruct (index 0 sub s) as [n|]; intros <- H.
  - rewrite Nat2Z.id. split; [reflexivity | lia].
  - contradiction.
Qed.

(** The scan of lines 340-345 returns the first occurrence of the first
    marker of the tuple that occurs at all. *)
Lemma find_pointer_priority (fh : string) (markers : list string) (p : Z) :
  find_pointer fh markers = p -> p <> -1 ->
  0 <= p /\
  exists i marker,
    nth_error markers i = Some marker
    /\ index 0 marker fh = Some (Z.to_nat p)
    /\ forall j m, (j < i)%nat -> nth_error markers j = Some m ->
                   index 0 m fh = None.
Proof.
  revert p. induction markers as [|m0 rest IH]; intros p Hp Hne.
  - cbn in Hp. congruence.
  - cbn [find_pointer] in Hp.
    destruct (find fh m0 =? -1) eqn:Hf; cbn [negb] in Hp.
    + apply Z.eqb_eq, find_not_found in Hf.
      destruct (IH p Hp Hne) as (H0 & i & marker & Hn & Hi & Hprev).
      split; [exact H0|]. exists (S i), marker. repeat split; auto.
      intros [|j] m Hj Hm; cbn in Hm.
      * now injection Hm as <-.
      * apply (Hprev j); [lia | exact Hm].
    + apply Z.eqb_neq in Hf. destruct (find_found fh m0 p Hp Hne) as [Hi H0].
      split; [exact H0|]. exists 0%nat, m0. repeat split; auto.
      intros j m Hj. lia.
Qed.

Lemma sof_marker_shape (i : nat) (marker : string) :
  nth_error SOF_MARKERS i = Some marker ->
  String.length marker = 2%nat /\ marker <> EmptyString.
Proof.
  unfold SOF_MARKERS.
  destruct i as [|[|[|i]]]; cbn; intros H; try discriminate;
    try (injection H as <-; split; [reflexivity | discriminate]).
  destruct i; discriminate.
Qed.

Section MediaProbe.
Variable PIL_Image_open : string -> outcome (Z * Z).

(** C5. On a JPEG-typed stream, when decoding the bytes buffered so far
    raises something other than [UnidentifiedImageError] and the scan for
    [ff c2], [ff c1], [ff c0] (in this order of preference, first occurrence
    of the preferred marker present) yields a position [p] with
    [p + 9 <= len], the probe returns at this chunk, whatever chunks would
    follow: the width is the big-endian number in bytes [p+7] and [p+8], the
    height the one in bytes [p+5] and [p+6]. *)
Theorem jpeg_marker_dimensions (max_read_length already_read : Z)
    (buffer chunk fh : string) (rest : list string) (e : exn) (p : Z) :
  fh = buffer ++ chunk ->
  PIL_Image_open fh = Raise e ->
  isinstance e [UnidentifiedImageError] = false ->
  find_pointer fh SOF_MARKERS = p ->
  p <> -1 ->
  p + 9 <= len fh ->
  read_chunks PIL_Image_open true max_read_length already_read buffer
              (chunk :: rest)
  = (Return (byte_at fh (p + 7) * 256 + byte_at fh (p + 8),
             byte_at fh (p + 5) * 256 + byte_at fh (p + 6)), 1%nat)
  /\ exists i marker,
       nth_error SOF_MARKERS i = Some marker
       /\ substring (Z.to_nat p) 2 fh = marker
       /\ (forall q, (q < Z.to_nat p)%nat -> substring q 2 fh <> marker)
       /\ (forall j m q, (j < i)%nat -> nth_error SOF_MARKERS j = Some m ->
                         substring q 2 fh <> m).
Proof.
  intros Hfh Hpil Hunid Hp Hne Hlen.
  destruct (find_pointer_priority fh SOF_MARKERS p Hp Hne)
    as (H0 & i & marker & Hn & Hi & Hprev).
  split.
  - cbn [read_chunks]. rewrite <- Hfh, Hpil, Hunid, isinstance_Exception.
    unfold jpeg_fallback. rewrite Hp.
    replace (p =? -1) with false by (symmetry; now apply Z.eqb_neq).
    replace (p + 9 <=? len fh) with true by (symmetry; now apply Z.leb_le).
    cbn [negb andb].
    pose proof (int_of_hex_two fh (p + 7) ltac:(lia) ltac:(lia)) as Hw.
    pose proof (int_of_hex_two fh (p + 5) ltac:(lia) ltac:(lia)) as Hh.
    replace (p + 7 + 2) with (p + 9) in Hw by lia.
    replace (p + 5 + 2) with (p + 7) in Hh by lia.
    replace (p + 7 + 1) with (p + 8) in Hw by lia.
    replace (p + 5 + 1) with (p + 6) in Hh by lia.
    rewrite Hw. cbn [bind]. rewrite Hh. reflexivity.
  - exists i, marker. destruct (sof_marker_shape i marker Hn) as [Hl2 Hnon].
    split; [exact Hn|]. split; [|split].
    + rewrite <- Hl2. now apply index_correct1 with (n := 0%nat).
    + intros q Hq. rewrite <- Hl2.
      apply (index_correct2 0 (Z.to_nat p) marker fh Hi); lia.
    + intros j m q Hj Hm.
      destruct (sof_marker_shape j m Hm) as [Hm2 Hmn]. rewrite <- Hm2.
      apply (index_correct3 0 q m fh); [eapply Hprev; eauto | exact Hmn | lia].
Qed.

End MediaProbe.

(** ** Outer deadline *)

Section OuterDeadline.
Variable py_int : string -> outcome Z.
Variable IPV6_PRIOR : bool.
Variable resolver_query : outcome (list string).
Variable url_hostname : string -> outcome (option string).
Variable session_get : Z -> family -> outcome ClientResponse.

(** C8. With a positive [timeout] the deadline handed to
    [asyncio.wait_for] is [(timeout * 2 + 5) * (2 if IPV6_PRIOR else 1)].
    A fetch that would need longer ends in [asyncio.TimeoutError], whatever
    the resolver, the transport and the body policy would have produced; a
    fetch that is done within the deadline yields what [_get] yields. *)
Theorem get_outer_deadline (elapsed timeout : Q) (url : string) (decode : bool)
    (max_size : option Z) (intended_content_type : option string) :
  (0 < timeout)%Q ->
  wait_for_timeout IPV6_PRIOR (Some timeout)
  = ((timeout * 2 + 5) * (if IPV6_PRIOR then 2 else 1))%Q
  /\ ((((timeout * 2 + 5) * (if IPV6_PRIOR then 2 else 1)) < elapsed)%Q ->
      get py_int IPV6_PRIOR resolver_query url_hostname session_get elapsed url
          (Some timeout) decode max_size intended_content_type
      = Raise (mk_exn AsyncioTimeoutError ""))
  /\ ((elapsed <= (timeout * 2 + 5) * (if IPV6_PRIOR then 2 else 1))%Q ->
      get py_int IPV6_PRIOR resolver_query url_hostname session_get elapsed url
          (Some timeout) decode max_size intended_content_type
      = _get string IPV6_PRIOR resolver_query url_hostname session_get
          (fun response =>
             __norm_callback py_int response decode max_size
                             intended_content_type)
          url).
Proof.
  intros Hpos.
  assert (Hd : wait_for_timeout IPV6_PRIOR (Some timeout)
               = ((timeout * 2 + 5) * (if IPV6_PRIOR then 2 else 1))%Q).
  { unfold wait_for_timeout, falsy_number.
    destruct (Qeq_bool timeout 0) eqn:Hz; [|reflexivity].
    apply Qeq_bool_iff in Hz. rewrite Hz in Hpos.
    exfalso. revert Hpos. apply Qlt_irrefl. }
  split; [exact Hd|]. unfold get, wait_for. rewrite Hd. cbn [fst snd].
  split; intros H.
  - destruct (Qle_bool elapsed _) eqn:Hle; [|reflexivity].
    apply Qle_bool_iff in Hle. exfalso.
    apply (Qlt_irrefl elapsed). eapply Qle_lt_trans; eauto.
  - apply Qle_bool_iff in H. now rewrite H.
Qed.

(** Without a timeout, or with 0, the fetch runs with 12 seconds and a
    deadline of 29 seconds (58 with IPv6 preferred). *)
Lemma default_deadline (timeout : option Q) :
  falsy_number timeout = true ->
  (wait_for_timeout IPV6_PRIOR timeout == if IPV6_PRIOR then 58 else 29)%Q.
Proof.
  intros H. unfold wait_for_timeout. rewrite H.
  destruct IPV6_PRIOR; reflexivity.
Qed.

End OuterDeadline.

(** ** Body policy *)

Section BodyPolicy.
Variable py_int : string -> outcome Z.

Lemma body_policy_reads (response : ClientResponse) (decode : bool)
    (max_size : option Z) (o : option string) :
  reads_body decode max_size = true ->
  body_policy py_int response decode max_size = Return o ->
  exists s, o = Some s.
Proof.
  unfold reads_body, body_policy. destruct decode; cbn [orb].
  - intros _. destruct (text response); cbn; intros H; [|discriminate].
    injection H as <-. eauto.
  - destruct max_size as [m|].
    + intros ->. destruct (py_int _); cbn; [|discriminate].
      destruct (content_read response _); cbn; intros H; [|discriminate].
      injection H as <-. eauto.
    + intros _. destruct (read response); cbn; intros H; [|discriminate].
      injection H as <-. eauto.
Qed.

(** C10, as the code has it.  With an intended content type given, a
    response without a [Content-Type] header passes the gate and the callback
    is the body policy; a policy that reads ([decode], or [max_size] absent
    or positive) returns the content it read, never [None], and the policy
    with [max_size <= 0] and no [decode] returns [None].  With a policy that
    reads, the callback returns [None] only for a [Content-Type] header that
    is present, not empty and does not start with the intended type. *)
Theorem norm_callback_gate (response : ClientResponse) (decode : bool)
    (max_size : option Z) (ict : string) :
  ict <> EmptyString ->
  (Headers.get (headers response) "Content-Type" = None ->
   __norm_callback py_int response decode max_size (Some ict)
   = body_policy py_int response decode max_size)
  /\ (reads_body decode max_size = true ->
      forall o, body_policy py_int response decode max_size = Return o ->
                exists s, o = Some s)
  /\ (reads_body decode max_size = false ->
      body_policy py_int response decode max_size = Return None)
  /\ (reads_body decode max_size = true ->
      __norm_callback py_int response decode max_size (Some ict) = Return None ->
      exists ct, Headers.get (headers response) "Content-Type" = Some ct
                 /\ ct <> EmptyString /\ startswith ct ict = false).
Proof.
  intros Hict. split; [|split; [|split]].
  - intros Hnone. unfold __norm_callback. rewrite Hnone.
    unfold content_type_gate.
    destruct ict; [contradiction | reflexivity].
  - intros Hr o. now apply body_policy_reads.
  - unfold reads_body, body_policy. destruct decode; cbn [orb]; [discriminate|].
    destruct max_size as [m|]; [intros ->; reflexivity | discriminate].
  - intros Hr. unfold __norm_callback, content_type_gate.
    destruct (Headers.get (headers response) "Content-Type") as [ct|] eqn:Hct.
    + destruct ict as [|c ict']; [contradiction|]. cbn [truthy negb orb].
      destruct ct as [|d ct'].
      * cbn [negb orb]. intros H.
        destruct (body_policy_reads _ _ _ _ Hr H); discriminate.
      * cbn [negb orb].
        destruct (startswith (String d ct') (String c ict')) eqn:Hs.
        -- intros H. destruct (body_policy_reads _ _ _ _ Hr H); discriminate.
        -- intros _. exists (String d ct'). repeat split; [discriminate | exact Hs].
    + destruct ict; [contradiction|]. cbn [truthy negb orb].
      intros H. destruct (body_policy_reads _ _ _ _ Hr H); discriminate.
Qed.

End BodyPolicy.

(** ** Page title *)

Section PageTitleFallback.
Variable fetch : string -> outcome (WebResponse string).
Variable soup_title_text : string -> outcome string.
Variable strip : string -> string.
Variable filename_pattern_search : string -> option string.
Variable urlparse : string -> outcome ParseResult.

Let title := get_page_title fetch soup_title_text strip
               filename_pattern_search urlparse.
(** The parser of line 66 raises on every string. *)
Lemma parser_raises (cd : string) :
  contentDispositionFilenameParser filename_pattern_search cd
  = Raise (mk_exn TypeError
             "'flags' is an invalid keyword argument for search()").
Proof. reflexivity. Qed.

(** With a [Content-Disposition] that is not empty the handler ends in
    the parser call, before any of the three flags is looked at. *)
Lemma title_fallback_disposition_raises (url : string)
    (r : WebResponse string) (cd : string)
    (allow_hostname allow_path allow_filename : bool) :
  Headers.get (wr_headers r) "Content-Disposition" = Some cd ->
  cd <> EmptyString ->
  title_fallback filename_pattern_search urlparse url (Some r)
                 allow_hostname allow_path allow_filename
  = Raise (mk_exn TypeError
             "'flags' is an invalid keyword argument for search()").
Proof.
  intros Hcd Hne. unfold title_fallback, filename_match. rewrite Hcd.
  destruct cd as [|c cd']; [congruence|]. reflexivity.
Qed.

(** Without such a header, or without a response, no file name is looked
    for. *)
Lemma filename_match_without_disposition (r : option (WebResponse string)) :
  (forall r', r = Some r' ->
              truthy (Headers.get (wr_headers r') "Content-Disposition") = false) ->
  filename_match filename_pattern_search r = Return None.
Proof.
  intros H. unfold filename_match. destruct r as [r'|]; [|reflexivity].
  now rewrite (H r' eq_refl).
Qed.

(** C9, evaluated on the code.  When the [try] block fails on a response
    that carries a [Content-Disposition] header that is not empty, the call
    raises the [TypeError] of the parser of line 66, whatever the three
    flags are: neither the file name nor the path tail nor the host name is
    returned, and the call does not return at all. *)
Theorem page_title_disposition_raises (url : string)
    (allow_hostname allow_path allow_filename : bool)
    (e : exn) (r : WebResponse string) (cd : string) :
  fetch url = Return r ->
  title_try soup_title_text strip (fetch url) = Raise e ->
  Headers.get (wr_headers r) "Content-Disposition" = Some cd ->
  cd <> EmptyString ->
  title url allow_hostname allow_path allow_filename
  = Raise (mk_exn TypeError
             "'flags' is an invalid keyword argument for search()").
Proof.
  intros Hfetch Htry Hcd Hne. unfold title, get_page_title.
  rewrite Htry. cbn [try_except]. rewrite isinstance_Exception.
  rewrite Hfetch. cbn [response_seen].
  now apply title_fallback_disposition_raises with (cd := cd).
Qed.

(** What is left of the degradation: when the [try] block fails and there
    is no response, or the response has no [Content-Disposition] or an
    empty one, then for a URL that [urlparse] accepts: if the path is
    allowed, the result is what follows the last slash of the path, or
    nothing for an empty path, and the host name is not consulted;
    otherwise the host name if allowed; otherwise nothing. *)
Lemma page_title_degrades_without_disposition (url : string)
    (allow_hostname allow_path allow_filename : bool)
    (e : exn) (parsed : ParseResult) :
  title_try soup_title_text strip (fetch url) = Raise e ->
  urlparse url = Return parsed ->
  (forall r, fetch url = Return r ->
             truthy (Headers.get (wr_headers r) "Content-Disposition") = false) ->
  (allow_path = true ->
   title url allow_hostname allow_path allow_filename
   = Return (if String.eqb (path parsed) "" then None
             else Some (last_segment "/" "" (path parsed))))
  /\ (allow_path = false -> allow_hostname = true ->
      title url allow_hostname allow_path allow_filename
      = Return (hostname parsed))
  /\ (allow_path = false -> allow_hostname = false ->
      title url allow_hostname allow_path allow_filename = Return None).
Proof.
  intros Htry Hparse Hno. unfold title, get_page_title.
  rewrite Htry. cbn [try_except]. rewrite isinstance_Exception.
  unfold title_fallback. rewrite filename_match_without_disposition.
  2:{ intros r' Hr. apply Hno. unfold response_seen in Hr.
      destruct (fetch url); congruence. }
  cbn [bind is_some andb]. rewrite Hparse. cbn [bind].
  repeat split.
  - intros ->. destruct (path parsed); reflexivity.
  - intros -> ->. reflexivity.
  - intros -> ->. reflexivity.
Qed.

End PageTitleFallback.

(** ** Dispatcher *)

Section Dispatcher.
Import QueuedHelper.
Local Open Scope list_scope.
Context {P : Type}.
Variable func : P -> outcome unit.

Let helper := QueuedHelper.t P.
Let run' := QueuedHelper.run P func.

(** What producers can change: the queue only, and only by appending. *)
Lemma queued_nowait_appends (h : helper) (payload : P) :
  exists more,
    queued_nowait P h payload
    = with_queue P h (_queue P h ++ more).
Proof.
  unfold queued_nowait, put_nowait. destruct (full P h).
  - exists []. rewrite app_nil_r. now destruct h.
  - eexists. reflexivity.
Qed.

Lemma enqueues_append (later : list P) (h : helper) :
  exists more,
    run' h (map Enqueue later) = with_queue P h (_queue P h ++ more).
Proof.
  revert h. induction later as [|p later IH]; intros h.
  - exists []. rewrite app_nil_r. now destruct h.
  - cbn [map]. unfold run', QueuedHelper.run in *. cbn [fold_left apply_event].
    destruct (queued_nowait_appends h p) as [m1 ->].
    destruct (IH (with_queue P h (_queue P h ++ m1))) as [m2 ->].
    exists (m1 ++ m2). cbn. now rewrite app_assoc.
Qed.

(** Once the consumer is done, nothing is spawned or logged any more, and
    no entry leaves the queue. *)
Lemma done_is_final (evs : list (event P)) (h : helper) (c : task) :
  _consumer_task P h = Some c -> done c = true ->
  exists more,
    run' h evs = with_queue P h (_queue P h ++ more).
Proof.
  revert h. induction evs as [|ev evs IH]; intros h Hc Hd.
  - exists []. rewrite app_nil_r. now destruct h.
  - unfold run', QueuedHelper.run in *. cbn [fold_left].
    destruct ev as [p|]; cbn [apply_event].
    + destruct (queued_nowait_appends h p) as [m1 ->].
      destruct (IH (with_queue P h (_queue P h ++ m1)) Hc Hd) as [m2 ->].
      exists (m1 ++ m2). cbn. now rewrite app_assoc.
    + unfold consumer_turn. rewrite Hc.
      destruct c; try discriminate Hd; apply IH; assumption.
Qed.


End Dispatcher.

(** ** Publishing client *)

Section FloodControl.
Import Tgraph.

(** A request never goes out before the gate of its account is free, nor
    before the call was made. *)
Lemma create_page_after_gate (self : Telegraph) (t : Q) (reply : remote string) :
  (_fc_lock self <= sent_at (create_page self t reply))%Q
  /\ (t <= sent_at (create_page self t reply))%Q.
Proof.
  assert (H : forall s, sent_at (create_page self t reply) = s ->
                        (_fc_lock self <= s)%Q /\ (t <= s)%Q).
  { unfold create_page, acquire. intros s <-.
    pose proof (Q.le_max_r t (_fc_lock self)) as H1.
    pose proof (Q.le_max_l t (_fc_lock self)) as H1'.
    pose proof (Q.le_max_l (Qmax t (_fc_lock self)) (_request_lock self)) as H2.
    pose proof (Q.le_max_r
                  ((1 # 2) - (Qmax (Qmax t (_fc_lock self)) (_request_lock self)
                              - last_run self)) 0) as H3.
    destruct (snd reply); cbn [sent_at]; split; lra. }
  now apply H.
Qed.

(** C1, as the code has it.  A flood-wait signal of [N] seconds received
    while the gate of the account is held does nothing.  Received while the
    gate is free: if [N + 1 < 60], the gate is held from now for [N + 1]
    seconds and the account keeps its token, so a later call on the account
    sends its request no earlier than [now + N + 1], and a call made at the
    moment of the signal waits at least [N + 1] seconds; if [N + 1 >= 60],
    no sleep takes place: the gate is held only while the new account is
    created, and the account takes the new token. *)
Theorem flood_wait_gate (self : Telegraph) (now : Q) (retry_after : Z)
    (create_account : remote string) :
  (locked (_fc_lock self) now = true ->
   flood_wait self now retry_after create_account = (self, [], Return tt))
  /\ (locked (_fc_lock self) now = false -> retry_after + 1 < 60 ->
      exists self' logs,
        flood_wait self now retry_after create_account = (self', logs, Return tt)
        /\ token self' = token self
        /\ _fc_lock self' = (now + inject_Z (retry_after + 1))%Q
        /\ (forall t reply, (now <= t)%Q ->
              (now + inject_Z (retry_after + 1)
               <= sent_at (create_page self' t reply))%Q)
        /\ (forall reply,
              (inject_Z (retry_after + 1)
               <= waited (create_page self' now reply) now)%Q))
  /\ (locked (_fc_lock self) now = false -> 60 <= retry_after + 1 ->
      exists self' logs r,
        flood_wait self now retry_after create_account = (self', logs, r)
        /\ _fc_lock self' = (now + fst create_account)%Q
        /\ (forall new_token, snd create_account = Return new_token ->
              token self' = new_token /\ r = Return tt)).
Proof.
  unfold flood_wait. repeat split.
  - intros ->. reflexivity.
  - intros -> Hlt. cbn [negb].
    replace (retry_after + 1 >=? 60) with false by (symmetry; lia).
    eexists _, _. split; [reflexivity|]. cbn [token _fc_lock].
    repeat split.
    + intros t reply _.
      match goal with |- (_ <= sent_at (create_page ?s _ _))%Q =>
        exact (proj1 (create_page_after_gate s t reply)) end.
    + intros reply. unfold waited.
      match goal with |- (_ <= sent_at (create_page ?s _ _) - _)%Q =>
        pose proof (proj1 (create_page_after_gate s now reply)) as H end.
      cbn [_fc_lock] in H. lra.
  - intros -> Hge. cbn [negb].
    replace (retry_after + 1 >=? 60) with true by (symmetry; lia).
    destruct (snd create_account) as [tok|e] eqn:Hc.
    + eexists _, _, _. split; [reflexivity|]. cbn [token _fc_lock].
      split; [reflexivity|]. intros new_token H. injection H as <-. auto.
    + eexists _, _, _. split; [reflexivity|]. cbn [token _fc_lock].
      split; [reflexivity|]. intros new_token H. discriminate H.
Qed.

End FloodControl.

Section Publication.
Import Tgraph.
Variable py_int : string -> outcome Z.

(** A pool of one account hands out that account every time. *)
Lemma get_account_single (a : Telegraph) :
  get_account (mkAPIs [a] 0) = Return (a, mkAPIs [a] 0).
Proof. reflexivity. Qed.

Lemma network_errors_recur (a : Telegraph) (url msg : string) (n : nat) :
  forall tr,
    telegraph_ify py_int (Return tt)
      (repeat (Raise (mk_exn ClientConnectionError msg)) n ++ [Return url])%list
      (mkIfy 0 (mkAPIs [a] 0) tr)
    = (Ended (Return (Some url)),
       mkIfy 0 (mkAPIs [a] 0) (tr ++ repeat (Attempt (token a)) (S n))%list).
Proof.
  induction n as [|n IH]; intros tr.
  - reflexivity.
  - cbn [repeat app]. cbn [telegraph_ify apis retries trace Z.geb Z.compare].
    rewrite get_account_single. cbn [token retries Z.ltb Z.compare].
    change (isinstance (mk_exn ClientConnectionError msg) [TelegraphError])
      with false.
    change (isinstance (mk_exn ClientConnectionError msg)
              [TimeoutError; AsyncioTimeoutError]) with false.
    change (isinstance (mk_exn ClientConnectionError msg)
              [ClientError; ConnectionError]) with true.
    cbn iota. rewrite IH. cbn [repeat]. now rewrite <- app_assoc.
Qed.

(** C2, evaluated on the code.  When the remote side answers [n]
    consecutive [create_page] calls with a connection error and the next one
    with a page, [telegraph_ify] makes [n + 1] attempts and returns the page:
    the branch for network errors recurs without counting, so [retries]
    stays 0 and the number of attempts is not bounded by 3. *)
Theorem telegraph_ify_network_retries_uncounted (a : Telegraph)
    (url msg : string) (n : nat) :
  exists self',
    telegraph_ify py_int (Return tt)
      (repeat (Raise (mk_exn ClientConnectionError msg)) n ++ [Return url])%list
      (mkIfy 0 (mkAPIs [a] 0) [])
    = (Ended (Return (Some url)), self')
    /\ attempts_of (trace self') = S n
    /\ retries self' = 0.
Proof.
  eexists. split; [apply network_errors_recur|]. cbn [trace retries app].
  split; [|reflexivity].
  unfold attempts_of. generalize (S n) as k.
  induction k as [|k IH]; cbn; [reflexivity | now rewrite IH].
Qed.

End Publication.

(** * The models at work *)

Import Sample.

(** ** Fetch engine *)

(** An origin that answers 403 over IPv6 and 200 over IPv4: two attempts,
    the second over IPv4, and the body of the second is returned. *)
Example fallback_after_403 :
  let session (tries : Z) (f : family) :=
    match f with
    | AF_INET6 => Return (head_only 403 [])
    | _ => Return (with_body 200 [] "<rss/>")
    end in
  _get_run string true (Return ["2001:db8::1"]) hostname_sample session
           (fun r => __norm_callback int_decimal r false None None) 3 feed_url
  = (Done (Return (mkWebResponse feed_url (Some "<rss/>") [] 200 (Some "OK"))),
     [AF_INET6; AF_INET]).
Proof. reflexivity. Qed.

(** Over IPv4 from the start, a timeout is raised after one attempt. *)
Example no_fallback_without_v6 :
  _get_run string false (Return []) hostname_sample
           (fun _ _ => Raise (mk_exn TimeoutError ""))
           (fun r => __norm_callback int_decimal r false None None) 3 feed_url
  = (Done (Raise (mk_exn TimeoutError "")), [AF_UNSPEC]).
Proof. reflexivity. Qed.

(** ** Feed wrapper *)

Lemma feed_get_not_modified_witness :
  exists ret,
    feed_get int_decimal (fun _ => Return empty_200) parser_unused
             feed_url None true = Return (ret, [])
    /\ ret = mkWebFeed feed_url (Some [("Content-Length", "0")]) 304
                       None None None
    /\ error ret = None /\ rss_d ret = None.
Proof.
  apply (feed_get_not_modified int_decimal (fun _ => Return empty_200)
           parser_unused feed_url None true empty_200).
  - reflexivity.
  - right. split; [reflexivity|]. exists "0". split; reflexivity.
Defined.

Example feed_get_304 :
  feed_get int_decimal (fun _ => Return not_modified_304) parser_unused
           feed_url None true
  = Return (mkWebFeed feed_url (Some [("ETag", "abc")]) 304 None None None, []).
Proof. reflexivity. Qed.

(** A malformed [Content-Length] on a 200 is an internal error, logged at
    [ERROR] with the [ValueError] attached. *)
Example feed_get_bad_length :
  let resp := mkWebResponse feed_url (Some "<rss/>")
                [("Content-Length", "many")] 200 (Some "OK") in
  match feed_get int_decimal (fun _ => Return resp) parser_unused
                 feed_url None false with
  | Return (ret, [rec]) =>
      option_map error_name (error ret) = Some "internal error"
      /\ lr_level rec = ERROR /\ rss_d ret = None
  | _ => False
  end.
Proof. vm_compute. repeat split; reflexivity. Qed.

(** ** Media probe *)

Lemma jpeg_marker_dimensions_witness :
  read_chunks pil_truncated true 5120 0 "" [jpeg_head] = (Return (600, 300), 1%nat).
Proof.
  refine (proj1 (jpeg_marker_dimensions pil_truncated 5120 0 "" jpeg_head
                   jpeg_head [] (mk_exn OSError "image file is truncated") 2
                   _ _ _ _ _ _)).
  - reflexivity.
  - reflexivity.
  - reflexivity.
  - vm_compute. reflexivity.
  - discriminate.
  - vm_compute. discriminate.
Defined.

(** A JPEG cut off after 160 bytes with [ff c0] in its second chunk: the
    first chunk yields nothing, the second the dimensions of the frame
    header. *)
Example probe_truncated_jpeg :
  __medium_info_callback int_decimal pil_truncated truncated_jpeg
  = (Return (600, 300), 2%nat).
Proof. vm_compute. reflexivity. Qed.

(** A marker too close to the end of the buffer is not read, even when a
    marker of lower preference with enough bytes after it comes first. *)
Example preferred_marker_too_late :
  jpeg_fallback
    (bytes_of [255; 192; 0; 17; 8; 1; 44; 2; 88; 3; 1; 255; 194; 0]%nat)
  = Return None.
Proof. vm_compute. reflexivity. Qed.

(** ** Outer deadline *)

Lemma get_outer_deadline_witness :
  wait_for_timeout true (Some 2%Q) = ((2 * 2 + 5) * 2)%Q.
Proof.
  refine (proj1 (get_outer_deadline int_decimal true (Return [])
                   hostname_sample
                   (fun _ _ => Raise (mk_exn TimeoutError "")) 0%Q 2%Q
                   page_url true None (Some "text/html") _)).
  reflexivity.
Defined.

(** The page-title probe ([timeout=2]) gives up after 9 seconds, 18 with
    IPv6 preferred, even if the transport never answers. *)
Example page_title_deadline :
  get int_decimal true (Return ["2001:db8::1"]) hostname_sample
      (fun _ _ => Return (head_only 403 [])) 19%Q page_url (Some 2%Q) true None
      (Some "text/html")
  = Raise (mk_exn AsyncioTimeoutError "").
Proof. reflexivity. Qed.

(** ** Body policy *)

Lemma norm_callback_gate_witness :
  __norm_callback int_decimal (with_body 200 [] "<html/>") true None
                  (Some "text/html")
  = body_policy int_decimal (with_body 200 [] "<html/>") true None.
Proof.
  refine (proj1 (norm_callback_gate int_decimal (with_body 200 [] "<html/>")
                   true None "text/html" _) _).
  - discriminate.
  - reflexivity.
Defined.

(** The claim as worded fails here: an intended content type is given and
    the response has no [Content-Type] header, its body is there to be read,
    and still the callback returns no content, because [max_size] is 0. *)
Lemma norm_callback_max_size_zero :
  Headers.get (headers (with_body 200 [] "<html/>")) "Content-Type" = None
  /\ read (with_body 200 [] "<html/>") = Return "<html/>"
  /\ __norm_callback int_decimal (with_body 200 [] "<html/>") false (Some 0)
                     (Some "text/html")
     = Return None.
Proof. repeat split; reflexivity. Qed.

(** A type that does not match is refused without an error. *)
Example norm_callback_refuses :
  __norm_callback int_decimal
    (with_body 200 [("content-type", "application/pdf")] "%PDF") true None
    (Some "text/html")
  = Return None.
Proof. reflexivity. Qed.

(** ** Page title *)

(** A download named in [Content-Disposition]: with file names allowed
    the specification gives the file name, and the call raises. *)
Lemma page_title_disposition_raises_witness :
  get_page_title serves_report no_title (fun s => s) finds_report
                 urlparse_sample "http://example.com/a/report" true true true
  = Raise (mk_exn TypeError
             "'flags' is an invalid keyword argument for search()").
Proof.
  refine (page_title_disposition_raises serves_report no_title (fun s => s)
            finds_report urlparse_sample "http://example.com/a/report"
            true true true (mk_exn ValueError "not an HTML page")
            report_response report_disposition _ _ _ _).
  - reflexivity.
  - reflexivity.
  - reflexivity.
  - discriminate.
Defined.

(** The same call with every flag off raises as well, where the
    specification gives nothing. *)
Example page_title_disposition_raises_flags_off :
  get_page_title serves_report no_title (fun s => s) finds_report
                 urlparse_sample "http://example.com/a/report" false false false
  = Raise (mk_exn TypeError
             "'flags' is an invalid keyword argument for search()")
  /\ degrade_spec (finds_report report_disposition) (Some "report")
                  (Some "example.com") false false false
     = None.
Proof. split; reflexivity. Qed.

(** Without a response the handler works; with the path allowed and
    everything else as before the result is the path tail. *)
Example page_title_path_tail_b :
  get_page_title timed_out no_title (fun s => s) no_filename urlparse_sample
                 "http://example.com/a/b.html" true true true
  = Return (Some "b.html").
Proof. reflexivity. Qed.

(** Apart from the parser: the fetch fails, no file name is to be had,
    the path is empty, the host name is allowed and known, and yet the
    result is nothing, where the chain of the specification gives the host
    name. *)
Lemma page_title_skips_hostname :
  get_page_title timed_out no_title (fun s => s) no_filename urlparse_sample
                 page_url true true true
  = Return None
  /\ degrade_spec None None (Some "example.com") true true true
     = Some "example.com".
Proof. split; reflexivity. Qed.

(** With the path not allowed the host name is the result. *)
Example page_title_hostname :
  get_page_title timed_out no_title (fun s => s) no_filename urlparse_sample
                 page_url true false true
  = Return (Some "example.com").
Proof. reflexivity. Qed.

(** The handler calls [urlparse] unguarded: when the fetch itself failed,
    a URL that [urlparse] rejects makes the call raise. *)
Lemma page_title_raises_on_rejected_url
    (fetch : string -> outcome (WebResponse string))
    (soup_title_text : string -> outcome string) (strip : string -> string)
    (filename_pattern_search : string -> option string)
    (urlparse : string -> outcome ParseResult)
    (url : string) (allow_hostname allow_path allow_filename : bool)
    (e e' : exn) :
  fetch url = Raise e ->
  urlparse url = Raise e' ->
  get_page_title fetch soup_title_text strip filename_pattern_search urlparse
                 url allow_hostname allow_path allow_filename
  = Raise e'.
Proof.
  intros Hfetch Hparse. unfold get_page_title, title_try. rewrite Hfetch.
  cbn [bind try_except response_seen]. rewrite isinstance_Exception.
  unfold title_fallback. cbn [filename_match truthy bind is_some andb].
  now rewrite Hparse.
Qed.

Example page_title_raises :
  get_page_title timed_out no_title (fun s => s) no_filename urlparse_sample
                 "http://[" true false true
  = Raise (mk_exn ValueError "Invalid IPv6 URL").
Proof. reflexivity. Qed.

(** ** Dispatcher *)


(** Five entries, consumed; then a shutdown on the empty queue: the
    consumer sees the sentinel and finishes, five tasks spawned. *)
Example graceful_shutdown :
  let h1 := QueuedHelper.run nat always_ok (helper_with [])
              (map QueuedHelper.Enqueue [1; 2; 3; 4; 5]%nat
               ++ [QueuedHelper.ConsumerRuns])%list in
  let '(h2, ok) := QueuedHelper.close_sync nat h1 in
  let h3 := QueuedHelper.consumer_turn nat always_ok h2 in
  ok = true
  /\ QueuedHelper._queue nat h2 = [QueuedHelper.Sentinel]
  /\ QueuedHelper._consumer_task nat h3 = Some QueuedHelper.Finished
  /\ QueuedHelper.spawned nat h3 = [1; 2; 3; 4; 5]%nat
  /\ QueuedHelper.errors_logged nat h3 = [].
Proof. cbn. repeat split; reflexivity. Qed.

(** Five entries and a shutdown before the consumer ran: the consumer is
    cancelled and the five entries stay where they are. *)
Example forced_shutdown :
  let h1 := QueuedHelper.run nat always_ok (helper_with [])
              (map QueuedHelper.Enqueue [1; 2; 3; 4; 5]%nat) in
  let '(h2, ok) := QueuedHelper.close_sync nat h1 in
  let h3 := QueuedHelper.consumer_turn nat always_ok h2 in
  ok = true
  /\ QueuedHelper._consumer_task nat h3 = Some QueuedHelper.Cancelled
  /\ QueuedHelper.spawned nat h3 = []
  /\ List.length (QueuedHelper._queue nat h3) = 5%nat.
Proof. cbn. repeat split; reflexivity. Qed.

(** ** Publishing client *)

Lemma flood_wait_gate_witness :
  exists self' logs,
    Tgraph.flood_wait account_A 0 10 new_account = (self', logs, Return tt)
    /\ Tgraph.token self' = Tgraph.token account_A
    /\ Tgraph._fc_lock self' = (0 + inject_Z (10 + 1))%Q
    /\ (forall t reply, (0 <= t)%Q ->
          (0 + inject_Z (10 + 1)
           <= Tgraph.sent_at (Tgraph.create_page self' t reply))%Q)
    /\ (forall reply,
          (inject_Z (10 + 1)
           <= Tgraph.waited (Tgraph.create_page self' 0 reply) 0)%Q).
Proof.
  refine (proj1 (proj2 (flood_wait_gate account_A 0 10 new_account)) _ _).
  - reflexivity.
  - reflexivity.
Defined.

(** The claim as worded fails here: 59 is below 60, the gate is free, and
    the account is replaced at once instead of being held for 60 seconds: a
    call made at the same moment waits for the pacing only. *)
Lemma flood_wait_59_replaces_account :
  59 < 60
  /\ Tgraph.locked (Tgraph._fc_lock account_A) 0 = false
  /\ exists self' logs,
       Tgraph.flood_wait account_A 0 59 new_account = (self', logs, Return tt)
       /\ Tgraph.token self' = "token-B"
       /\ ~ (inject_Z (59 + 1)
             <= Tgraph.waited (Tgraph.create_page self' 0 page_reply) 0)%Q.
Proof.
  split; [reflexivity|]. split; [reflexivity|].
  eexists _, _. split; [reflexivity|]. split; [reflexivity|].
  intros H. vm_compute in H. now apply H.
Qed.

(** "Flood wait 10": a call made at the same moment waits 11 seconds. *)
Example flood_wait_10 :
  match Tgraph.flood_wait account_A 0 10 new_account with
  | (self', _, r) =>
      r = Return tt /\ Tgraph.token self' = "token-A"
      /\ (Tgraph.waited (Tgraph.create_page self' 0 page_reply) 0 == 11)%Q
  end.
Proof. cbn. repeat split. Qed.

(** "Flood wait 90": the account is replaced, nothing is waited for. *)
Example flood_wait_90 :
  match Tgraph.flood_wait account_A 0 90 new_account with
  | (self', _, r) =>
      r = Return tt /\ Tgraph.token self' = "token-B"
      /\ (Tgraph._fc_lock self' == 0)%Q
  end.
Proof. cbn. repeat split. Qed.

(** Flood control is counted: the fourth call in a row raises
    [OverflowError] after three attempts. *)
Example telegraph_ify_flood_budget :
  let flood := Raise (mk_exn TelegraphError "FLOOD_WAIT_5") in
  match Tgraph.telegraph_ify int_decimal (Return tt) [flood; flood; flood; flood]
          (Tgraph.mkIfy 0 (Tgraph.mkAPIs [account_A] 0) []) with
  | (r, self') =>
      r = Tgraph.Ended (Raise (mk_exn OverflowError ""))
      /\ Tgraph.attempts_of (Tgraph.trace self') = 3%nat
      /\ Tgraph.retries self' = 3
  end.
Proof. vm_compute. repeat split; reflexivity. Qed.

(** Five connection errors in a row are followed by a sixth attempt. *)
Example telegraph_ify_six_attempts :
  let down := Raise (mk_exn ClientConnectionError "") in
  match Tgraph.telegraph_ify int_decimal (Return tt)
          [down; down; down; down; down; Return "https://telegra.ph/p"]
          (Tgraph.mkIfy 0 (Tgraph.mkAPIs [account_A] 0) []) with
  | (r, self') =>
      r = Tgraph.Ended (Return (Some "https://telegra.ph/p"))
      /\ Tgraph.attempts_of (Tgraph.trace self') = 6%nat
  end.
Proof. vm_compute. repeat split; reflexivity. Qed.

(** A timeout is passed on after a single attempt. *)
Example telegraph_ify_timeout :
  fst (Tgraph.telegraph_ify int_decimal (Return tt)
         [Raise (mk_exn AsyncioTimeoutError ""); Return "https://telegra.ph/p"]
         (Tgraph.mkIfy 0 (Tgraph.mkAPIs [account_A] 0) []))
  = Tgraph.Ended (Raise (mk_exn AsyncioTimeoutError "")).
Proof. reflexivity. Qed.

(** * Further properties *)

(** ** Account pool *)

Section AccountPool.
Import Tgraph Publishing.
Local Open Scope list_scope.

(** X1.  Whatever the cursor holds, [get_account] on a pool that is not empty
    hands out an account of the pool, leaves the accounts as they are and
    leaves the cursor inside the pool. *)
Theorem get_account_cursor_in_range (accounts : list Telegraph) (cursor : Z) :
  accounts <> [] ->
  exists a apis',
    get_account (mkAPIs accounts cursor) = Return (a, apis')
    /\ In a accounts
    /\ _accounts apis' = accounts
    /\ 0 <= _curr_id apis' < count apis'.
Proof.
  intros Hne. destruct accounts as [|first rest]; [contradiction|].
  unfold get_account. cbn [_accounts _curr_id].
  set (n := count (mkAPIs (first :: rest) cursor)).
  assert (Hn : 0 < n) by (unfold n, count; cbn [_accounts List.length]; lia).
  set (curr := if (0 <=? cursor) && (cursor <? n) then cursor else 0).
  assert (Hc : 0 <= curr < n).
  { unfold curr. destruct (Z.leb_spec 0 cursor), (Z.ltb_spec cursor n);
      cbn [andb]; lia. }
  eexists _, _. split; [reflexivity|]. split; [|split; [reflexivity|]].
  - apply nth_In. unfold n, count in Hc. cbn [_accounts] in Hc. lia.
  - cbn [_curr_id]. change (count _) with n.
    destruct (Z.leb_spec 0 (curr + 1)), (Z.ltb_spec (curr + 1) n);
      cbn [andb]; lia.
Qed.

Lemma get_account_at (accounts : list Telegraph) (i : nat) (a : Telegraph) :
  nth_error accounts i = Some a ->
  get_account (mkAPIs accounts (Z.of_nat i))
  = Return (a, mkAPIs accounts
                 ((Z.of_nat i + 1) mod Z.of_nat (List.length accounts))).
Proof.
  intros Hnth.
  assert (Hi : (i < List.length accounts)%nat)
    by (apply nth_error_Some; congruence).
  destruct accounts as [|first rest]; [destruct i; discriminate|].
  unfold get_account, count. cbn [_accounts _curr_id].
  set (n := Z.of_nat (List.length (first :: rest))) in *.
  assert (Hn : Z.of_nat i < n) by (unfold n; lia).
  replace ((0 <=? Z.of_nat i) && (Z.of_nat i <? n)) with true
    by (symmetry; apply andb_true_iff; split; [apply Z.leb_le | apply Z.ltb_lt]; lia).
  rewrite Nat2Z.id. rewrite (nth_error_nth _ _ first Hnth).
  do 3 f_equal.
  replace (0 <=? Z.of_nat i + 1) with true by (symmetry; apply Z.leb_le; lia).
  cbn [andb].
  destruct (Z.ltb_spec (Z.of_nat i + 1) n).
  - now rewrite Z.mod_small by lia.
  - replace (Z.of_nat i + 1) with n by lia. now rewrite Z.mod_same by lia.
Qed.

(** X2.  Round robin: with the cursor at [i] inside the pool, the account
    handed out is the one at [i] and the cursor moves to [i + 1], wrapping
    to 0 after the last account; a cursor outside the pool counts as 0. *)
Theorem get_account_round_robin (accounts : list Telegraph) (i : nat)
    (a : Telegraph) (stray : Z) :
  nth_error accounts i = Some a ->
  (stray < 0 \/ Z.of_nat (List.length accounts) <= stray) ->
  get_account (mkAPIs accounts (Z.of_nat i))
  = Return (a, mkAPIs accounts
                 ((Z.of_nat i + 1) mod Z.of_nat (List.length accounts)))
  /\ get_account (mkAPIs accounts stray) = get_account (mkAPIs accounts 0).
Proof.
  intros Hnth Hstray. split; [now apply get_account_at|].
  unfold get_account, count. cbn [_accounts _curr_id].
  destruct accounts as [|first rest]; [reflexivity|].
  set (n := Z.of_nat (List.length (first :: rest))) in *.
  assert (Hn : 0 < n) by (unfold n; cbn [List.length]; lia).
  replace ((0 <=? stray) && (stray <? n)) with false.
  - replace ((0 <=? 0) && (0 <? n)) with true; [reflexivity|].
    symmetry. apply andb_true_iff. split; [reflexivity | now apply Z.ltb_lt].
  - symmetry. apply andb_false_iff.
    destruct Hstray; [left; apply Z.leb_gt | right; apply Z.ltb_ge]; lia.
Qed.

Lemma take_from_cursor (accounts : list Telegraph) :
  forall k i,
    (i + k = List.length accounts)%nat -> (0 < k)%nat ->
    take_accounts k (mkAPIs accounts (Z.of_nat i))
    = (map token (skipn i accounts), mkAPIs accounts 0).
Proof.
  induction k as [|k IH]; intros i Hik Hk; [lia|].
  destruct (nth_error accounts i) as [a|] eqn:Hnth.
  2: { apply nth_error_None in Hnth. lia. }
  cbn [take_accounts]. rewrite (get_account_at accounts i a Hnth).
  assert (Hsk : skipn i accounts = a :: skipn (S i) accounts).
  { clear - Hnth. revert i Hnth. induction accounts as [|x l IHl]; intros [|i] H;
      try discriminate; cbn in *; [congruence | now apply IHl]. }
  rewrite Hsk. cbn [map].
  destruct k as [|k'].
  - cbn [take_accounts].
    replace (Z.of_nat i + 1) with (Z.of_nat (List.length accounts)) by lia.
    rewrite Z.mod_same by lia.
    rewrite skipn_all2 by lia. reflexivity.
  - rewrite Z.mod_small by lia.
    replace (Z.of_nat i + 1) with (Z.of_nat (S i)) by lia.
    rewrite (IH (S i)) by lia. reflexivity.
Qed.

(** X3.  A full turn: as many calls as the pool has accounts, starting with
    the cursor at 0, hand out every account once, in the order of the pool,
    and bring the cursor back to 0. *)
Theorem get_account_full_turn (accounts : list Telegraph) :
  accounts <> [] ->
  take_accounts (List.length accounts) (mkAPIs accounts 0)
  = (map token accounts, mkAPIs accounts 0).
Proof.
  intros Hne.
  apply (take_from_cursor accounts (List.length accounts) 0).
  - reflexivity.
  - destruct accounts; [contradiction | cbn; lia].
Qed.

End AccountPool.

(** ** Request pacing *)

Section Pacing.
Import Tgraph.

Lemma create_page_not_before (self : Telegraph) (now : Q) (reply : remote string) :
  (last_run self + (1 # 2) <= sent_at (create_page self now reply))%Q
  /\ (_request_lock self <= sent_at (create_page self now reply))%Q.
Proof.
  assert (H : forall s, sent_at (create_page self now reply) = s ->
                        (last_run self + (1 # 2) <= s)%Q
                        /\ (_request_lock self <= s)%Q).
  { unfold create_page, acquire. intros s <-.
    set (t := Qmax (Qmax now (_fc_lock self)) (_request_lock self)).
    pose proof (Q.le_max_r (Qmax now (_fc_lock self)) (_request_lock self)) as H1.
    pose proof (Q.le_max_l ((1 # 2) - (t - last_run self)) 0) as H2.
    pose proof (Q.le_max_r ((1 # 2) - (t - last_run self)) 0) as H3.
    fold t in H1. destruct (snd reply); cbn [sent_at]; fold t; split; lra. }
  now apply H.
Qed.

(** X4.  Requests of one account are spaced.  A request goes out at least half
    a second after the answer to the last request of the account and not
    while another one is in flight; and when a request is answered with a
    page after [d] seconds, the next request of the account goes out no
    earlier than half a second after that answer, whenever it is asked
    for. *)
Theorem create_page_spacing (self : Telegraph) (t1 t2 d : Q)
    (reply2 : remote string) (p : string) :
  (last_run self + (1 # 2) <= sent_at (create_page self t1 (d, Return p)))%Q
  /\ (_request_lock self <= sent_at (create_page self t1 (d, Return p)))%Q
  /\ (sent_at (create_page self t1 (d, Return p)) + d + (1 # 2)
      <= sent_at (create_page
                    (account_after (create_page self t1 (d, Return p)))
                    t2 reply2))%Q.
Proof.
  split; [apply create_page_not_before|].
  split; [apply create_page_not_before|].
  pose proof (proj1 (create_page_not_before
                       (account_after (create_page self t1 (d, Return p)))
                       t2 reply2)) as H.
  unfold create_page at 2 in H. cbn [snd fst account_after last_run] in H.
  unfold create_page at 1. cbn [snd fst sent_at].
  exact H.
Qed.

End Pacing.

(** ** Publication *)

Section PublicationBudget.
Import Tgraph Publishing.
Variable py_int : string -> outcome Z.

Lemma floods_of_app (t u : list step) :
  floods_of (t ++ u)%list = (floods_of t + floods_of u)%nat.
Proof.
  unfold floods_of. now rewrite filter_app, length_app.
Qed.

Lemma attempts_of_app (t u : list step) :
  attempts_of (t ++ u)%list = (attempts_of t + attempts_of u)%nat.
Proof.
  unfold attempts_of. now rewrite filter_app, length_app.
Qed.

(** What a call does to the counter and the trace, whatever it is
    answered: [retries] only grows, stops at 3 once it is below, and grows by
    one for each [flood_wait]. *)
Lemma telegraph_ify_counts (task : outcome unit)
    (replies : list (outcome string)) :
  forall self r self',
    telegraph_ify py_int task replies self = (r, self') ->
    retries self <= retries self'
    /\ retries self' <= Z.max (retries self) 3
    /\ Z.of_nat (floods_of (trace self'))
       = Z.of_nat (floods_of (trace self)) + (retries self' - retries self).
Proof.
  induction replies as [|reply replies IH]; intros self r self' H.
  - cbn [telegraph_ify] in H. destruct task as [u0|e0]; [|injection H as <- <-; lia].
    destruct (retries self >=? 3); [injection H as <- <-; lia|].
    destruct (get_account (apis self)) as [[acct apis']|e1];
      injection H as <- <-; cbn [retries trace]; lia.
  - cbn [telegraph_ify] in H. destruct task as [u0|e0]; [|injection H as <- <-; lia].
    destruct (retries self >=? 3) eqn:H3; [injection H as <- <-; lia|].
    destruct (get_account (apis self)) as [[acct apis']|e1];
      [|injection H as <- <-; lia].
    cbn [retries trace apis] in H.
    assert (Hone : forall u, floods_of (trace self ++ [Attempt u])%list
                             = floods_of (trace self)).
    { intros u. rewrite floods_of_app. cbn. lia. }
    destruct reply as [url|e].
    { injection H as <- <-. cbn [retries trace]. rewrite Hone. lia. }
    destruct (isinstance e [TelegraphError]).
    + destruct (startswith (exn_msg e) "FLOOD_WAIT_").
      * destruct (py_int _) as [n|e'].
        -- match type of H with
           | match telegraph_ify _ _ _ ?s with _ => _ end = _ =>
               destruct (telegraph_ify py_int _ replies s) as [r1 s1] eqn:Hrec
           end.
           apply IH in Hrec. cbn [retries trace] in Hrec.
           rewrite floods_of_app, Hone in Hrec. cbn in Hrec.
           assert (Hs : self' = s1).
           { destruct r1 as [[v|e1]|]; injection H as _ <-; reflexivity. }
           subst s1. lia.
        -- injection H as <- <-. cbn [retries trace]. rewrite Hone. lia.
      * injection H as <- <-. cbn [retries trace]. rewrite Hone. lia.
    + destruct (isinstance e [TimeoutError; AsyncioTimeoutError]).
      { injection H as <- <-. cbn [retries trace]. rewrite Hone. lia. }
      destruct (isinstance e [ClientError; ConnectionError]).
      * destruct (retries self <? 3).
        -- apply IH in H. cbn [retries trace] in H. rewrite Hone in H. lia.
        -- injection H as <- <-. cbn [retries trace]. rewrite Hone. lia.
      * injection H as <- <-. cbn [retries trace]. rewrite Hone. lia.
Qed.

(** X5.  Flood control is bounded: from a fresh object, whatever the remote
    side answers and however many answers there are, [flood_wait] is called
    at most three times and [retries] never exceeds 3. *)
Theorem telegraph_ify_flood_waits_bounded (task : outcome unit)
    (replies : list (outcome string)) (pool : APIs) :
  (floods_of (trace (snd (telegraph_ify py_int task replies (mkIfy 0 pool []))))
   <= 3)%nat
  /\ 0 <= retries (snd (telegraph_ify py_int task replies (mkIfy 0 pool []))) <= 3.
Proof.
  destruct (telegraph_ify py_int task replies (mkIfy 0 pool [])) as [r s'] eqn:H.
  apply telegraph_ify_counts in H. cbn [retries trace snd] in *.
  change (floods_of []) with 0%nat in H. lia.
Qed.

End PublicationBudget.

Section PublicationErrors.
Import Tgraph Publishing.
Variable py_int : string -> outcome Z.

Lemma timeout_is_no_telegraph_error (e : exn) :
  isinstance e [TimeoutError; AsyncioTimeoutError] = true ->
  isinstance e [TelegraphError] = false.
Proof. destruct e as [c m]; destruct c; cbn; congruence. Qed.

(** X6.  Errors that are passed on at once: a timeout, also when the class is
    a [ClientError] as well, and a [TelegraphError] that is not a flood
    wait.  The call makes its one attempt, does not look at further answers
    and leaves [retries] as it was. *)
Theorem telegraph_ify_passes_on (rest : list (outcome string)) (self : ify)
    (e : exn) (a : Telegraph) (pool' : APIs) :
  retries self < 3 ->
  get_account (apis self) = Return (a, pool') ->
  (isinstance e [TimeoutError; AsyncioTimeoutError] = true
   \/ (isinstance e [TelegraphError] = true
       /\ startswith (exn_msg e) "FLOOD_WAIT_" = false)) ->
  telegraph_ify py_int (Return tt) (Raise e :: rest) self
  = (Ended (Raise e),
     mkIfy (retries self) pool' (trace self ++ [Attempt (token a)])%list).
Proof.
  intros Hr Hacc He. cbn [telegraph_ify]. rewrite Hacc.
  replace (retries self >=? 3) with false by (symmetry; lia).
  cbn [retries trace apis].
  destruct He as [Ht | [Htg Hfl]].
  - rewrite (timeout_is_no_telegraph_error e Ht), Ht. reflexivity.
  - rewrite Htg, Hfl. reflexivity.
Qed.

(** X7.  After a flood wait the value of the call is that of [flood_wait]:
    when the repeated call returns, with a page or without, the call returns
    [None]. *)
Theorem telegraph_ify_after_flood_returns_none (rest : list (outcome string))
    (self after : ify) (e : exn) (a : Telegraph) (pool' : APIs)
    (n : Z) (v : option string) :
  retries self < 3 ->
  get_account (apis self) = Return (a, pool') ->
  isinstance e [TelegraphError] = true ->
  startswith (exn_msg e) "FLOOD_WAIT_" = true ->
  py_int (last_segment "_" "" (exn_msg e)) = Return n ->
  telegraph_ify py_int (Return tt) rest
    (mkIfy (retries self + 1) pool'
       (trace self ++ [Attempt (token a)] ++ [FloodWait (token a) n])%list)
  = (Ended (Return v), after) ->
  telegraph_ify py_int (Return tt) (Raise e :: rest) self
  = (Ended (Return None), after).
Proof.
  intros Hr Hacc Htg Hfl Hint Hrec. cbn [telegraph_ify]. rewrite Hacc.
  replace (retries self >=? 3) with false by (symmetry; lia).
  cbn [retries trace apis]. rewrite Htg, Hfl, Hint.
  rewrite <- app_assoc. rewrite Hrec. reflexivity.
Qed.

(** X8.  The arguments of [create_page] fit the limits of the remote side: a
    title of at most 61 characters is passed as it is, a longer one as its
    first 60 characters and an ellipsis; the author name is cut at 128
    characters and the author URL at 512. *)
Theorem page_arguments_bounded (A : Type) (ellipsis : A)
    (title author url : list A) :
  (List.length (title_argument A ellipsis title) <= 61)%nat
  /\ ((List.length title <= 61)%nat -> title_argument A ellipsis title = title)
  /\ ((61 < List.length title)%nat ->
      title_argument A ellipsis title = (firstn 60 title ++ [ellipsis])%list)
  /\ (List.length (author_name_argument A author) <= 128)%nat
  /\ (List.length (author_url_argument A url) <= 512)%nat.
Proof.
  unfold title_argument, author_name_argument, author_url_argument, upto.
  assert (Hcut : forall n (l : list A), (List.length (firstn n l) <= n)%nat)
    by (intros n l; rewrite length_firstn; lia).
  split; [|split; [|split; [|split]]]; try apply Hcut.
  - destruct (Nat.ltb_spec 61 (List.length title)) as [Hlong|Hshort]; [|lia].
    rewrite length_app. cbn [List.length]. specialize (Hcut 60%nat title). lia.
  - intros Hshort.
    destruct (Nat.ltb_spec 61 (List.length title)); [lia | reflexivity].
  - intros Hlong.
    destruct (Nat.ltb_spec 61 (List.length title)); [reflexivity | lia].
Qed.

End PublicationErrors.

(** ** Dispatcher life cycle *)

Section DispatcherLifeCycle.
Import QueuedHelper Lifecycle.
Local Open Scope list_scope.
Context {P : Type}.
Variable func : P -> outcome unit.

(** X9.  [init_sync] leaves a dispatcher with a consumer that is not done, and
    is then without effect: calling it again, with whatever queue size,
    changes nothing.  A dispatcher whose consumer was absent or done starts
    over with an empty queue. *)
Theorem init_sync_idempotent (m m' : Z) (h : QueuedHelper.t P) :
  (exists c, _consumer_task P (init_sync P m h) = Some c /\ done c = false)
  /\ init_sync P m' (init_sync P m h) = init_sync P m h
  /\ ((forall c, _consumer_task P h = Some c -> done c = true) ->
      _queue P (init_sync P m h) = []
      /\ _consumer_task P (init_sync P m h) = Some Waiting).
Proof.
  unfold init_sync.
  destruct (_consumer_task P h) as [c|] eqn:Hc.
  - destruct (done c) eqn:Hd; cbn [negb].
    + split; [eexists; split; [reflexivity | reflexivity]|].
      split; [reflexivity|]. intros _. split; reflexivity.
    + split; [exists c; auto|]. rewrite Hc, Hd. cbn [negb].
      split; [reflexivity|]. intros H. specialize (H c eq_refl). congruence.
  - split; [eexists; split; [reflexivity | reflexivity]|].
    split; [reflexivity|]. intros _. split; reflexivity.
Qed.

Lemma consume_spec (q : list (entry P)) :
  forall sp errs,
    consume P func q sp errs
    = (after_sentinel P q,
       if has_sentinel P q then Finished else Waiting,
       sp ++ accepted P func (before_sentinel P q),
       errs ++ rejected P func (before_sentinel P q)).
Proof.
  induction q as [|[p|] q IH]; intros sp errs.
  - cbn. now rewrite !app_nil_r.
  - cbn [consume before_sentinel after_sentinel has_sentinel existsb orb
         accepted rejected filter].
    destruct (func p) as [u|e]; rewrite IH.
    + unfold accepted. now rewrite <- app_assoc.
    + now rewrite <- app_assoc.
  - cbn. now rewrite !app_nil_r.
Qed.

(** X10.  One run of a waiting consumer takes every entry in front of the first
    sentinel, in queue order: those for which calling the target returns are
    spawned, the exceptions of the others are logged, and none of them stops
    the loop.  The run ends finished at the sentinel, leaving what was queued
    behind it, or waiting on the empty queue. *)
Theorem consumer_turn_in_order (h : QueuedHelper.t P) :
  _consumer_task P h = Some Waiting ->
  consumer_turn P func h
  = mk P (maxsize P h) (after_sentinel P (_queue P h))
       (Some (if has_sentinel P (_queue P h) then Finished else Waiting))
       (spawned P h ++ accepted P func (before_sentinel P (_queue P h)))
       (errors_logged P h ++ rejected P func (before_sentinel P (_queue P h))).
Proof.
  intros Hc. unfold consumer_turn. rewrite Hc, consume_spec. reflexivity.
Qed.

End DispatcherLifeCycle.

Section DispatcherQueue.
Import QueuedHelper Lifecycle.
Local Open Scope list_scope.
Context {P : Type}.
Variable func : P -> outcome unit.

Lemma enqueue_unbounded (ps : list P) :
  forall h : QueuedHelper.t P,
    maxsize P h <= 0 ->
    QueuedHelper.run P func h (map Enqueue ps)
    = with_queue P h (_queue P h ++ map Work ps).
Proof.
  induction ps as [|p ps IH]; intros h Hm.
  - cbn. rewrite app_nil_r. now destruct h.
  - cbn [map]. unfold QueuedHelper.run in *. cbn [fold_left apply_event].
    unfold queued_nowait, put_nowait, full.
    replace (0 <? maxsize P h) with false by (symmetry; lia). cbn [andb].
    rewrite IH by (cbn; lia). cbn. now rewrite <- app_assoc.
Qed.

Lemma before_sentinel_work (ps : list P) :
  before_sentinel P (map Work ps) = ps
  /\ after_sentinel P (map Work ps) = []
  /\ has_sentinel P (map Work ps) = false.
Proof.
  induction ps as [|p ps (IH1 & IH2 & IH3)]; cbn; [auto|].
  rewrite IH1. auto.
Qed.

(** X11.  Enqueue order is spawn order: on a dispatcher with an unbounded,
    empty queue and a waiting consumer, the payloads enqueued before the
    consumer runs are spawned in the order of their enqueuing, the ones whose
    call raises being logged instead, and the queue is empty afterwards. *)
Theorem enqueue_order_is_spawn_order (h : QueuedHelper.t P) (ps : list P) :
  _consumer_task P h = Some Waiting ->
  _queue P h = [] ->
  maxsize P h <= 0 ->
  QueuedHelper.run P func h (map Enqueue ps ++ [ConsumerRuns])
  = mk P (maxsize P h) [] (Some Waiting)
       (spawned P h ++ accepted P func ps)
       (errors_logged P h ++ rejected P func ps).
Proof.
  intros Hc Hq Hm. unfold QueuedHelper.run. rewrite fold_left_app.
  pose proof (enqueue_unbounded ps h Hm) as He.
  unfold QueuedHelper.run in He. rewrite He, Hq. cbn [app fold_left apply_event].
  unfold consumer_turn. cbn [_consumer_task with_queue _queue spawned
                             errors_logged maxsize].
  rewrite Hc, consume_spec.
  destruct (before_sentinel_work ps) as (-> & -> & ->). reflexivity.
Qed.

Lemma after_sentinel_shorter (q : list (entry P)) :
  (List.length (after_sentinel P q) <= List.length q)%nat.
Proof. induction q as [|[p|] q IH]; cbn; lia. Qed.

Lemma step_keeps_bound (h : QueuedHelper.t P) (ev : event P) :
  0 < maxsize P h ->
  Z.of_nat (List.length (_queue P h)) <= maxsize P h ->
  maxsize P (apply_event P func h ev) = maxsize P h
  /\ Z.of_nat (List.length (_queue P (apply_event P func h ev))) <= maxsize P h.
Proof.
  intros Hpos Hb. destruct ev as [p|]; cbn [apply_event].
  - unfold queued_nowait, put_nowait, full.
    replace (0 <? maxsize P h) with true by (symmetry; lia). cbn [andb].
    destruct (Z.leb_spec (maxsize P h) (Z.of_nat (List.length (_queue P h)))).
    + auto.
    + cbn. rewrite length_app. cbn. split; [reflexivity | lia].
  - unfold consumer_turn.
    destruct (_consumer_task P h) as [[| | |]|]; auto.
    rewrite consume_spec. cbn.
    pose proof (after_sentinel_shorter (_queue P h)). split; [reflexivity | lia].
Qed.

(** X12.  A bounded queue stays within its bound: with [maxsize > 0], whatever
    producers enqueue without waiting and whenever the consumer runs, the
    queue never holds more than [maxsize] entries; an enqueue on the full
    queue is the one that fails. *)
Theorem bounded_queue_stays_bounded (evs : list (event P)) :
  forall h : QueuedHelper.t P,
    0 < maxsize P h ->
    Z.of_nat (List.length (_queue P h)) <= maxsize P h ->
    Z.of_nat (List.length (_queue P (QueuedHelper.run P func h evs)))
    <= maxsize P h
    /\ maxsize P (QueuedHelper.run P func h evs) = maxsize P h.
Proof.
  induction evs as [|ev evs IH]; intros h Hpos Hb.
  - cbn. auto.
  - unfold QueuedHelper.run in *. cbn [fold_left].
    destruct (step_keeps_bound h ev Hpos Hb) as [Hm Hl].
    destruct (IH (apply_event P func h ev)) as [H1 H2]; [lia | lia |].
    rewrite Hm in *. auto.
Qed.

(** X13.  A second [close_sync] before the consumer has run finds the sentinel
    in the queue and cancels the consumer: the shutdown that was graceful
    ends with a cancelled consumer. *)
Theorem close_sync_twice_cancels (h : QueuedHelper.t P) :
  _consumer_task P h = Some Waiting ->
  _queue P h = [] ->
  close_sync P (fst (close_sync P h))
  = (with_task P (with_queue P h [Sentinel]) CancelRequested, true)
  /\ _consumer_task P
       (consumer_turn P func (fst (close_sync P (fst (close_sync P h)))))
     = Some Cancelled.
Proof.
  intros Hc Hq.
  assert (H1 : close_sync P h = (with_queue P h [Sentinel], true)).
  { unfold close_sync, put_nowait, full. rewrite Hc, Hq. cbn.
    replace ((0 <? maxsize P h) && (maxsize P h <=? 0)) with false
      by (destruct (0 <? maxsize P h) eqn:A, (maxsize P h <=? 0) eqn:B;
          try reflexivity; lia).
    reflexivity. }
  rewrite H1. cbn [fst].
  assert (H2 : close_sync P (with_queue P h [Sentinel])
               = (with_task P (with_queue P h [Sentinel]) CancelRequested, true)).
  { unfold close_sync. cbn. rewrite Hc. reflexivity. }
  rewrite H2. split; reflexivity.
Qed.

(** X14.  [init_sync] between a forced shutdown and the delivery of the
    cancellation does nothing, since the consumer is not done yet: the
    consumer then ends cancelled and what is enqueued afterwards is never
    spawned. *)
Theorem init_sync_before_cancellation (m : Z) (h : QueuedHelper.t P)
    (later : list P) (evs : list (event P)) :
  _consumer_task P h = Some CancelRequested ->
  init_sync P m h = h
  /\ _consumer_task P
       (QueuedHelper.run P func (init_sync P m h)
          (map Enqueue later ++ ConsumerRuns :: evs))
     = Some Cancelled
  /\ spawned P
       (QueuedHelper.run P func (init_sync P m h)
          (map Enqueue later ++ ConsumerRuns :: evs))
     = spawned P h.
Proof.
  intros Hc.
  assert (Hi : init_sync P m h = h) by (unfold init_sync; now rewrite Hc).
  rewrite Hi. split; [reflexivity|].
  unfold QueuedHelper.run. rewrite fold_left_app.
  destruct (enqueues_append func later h) as [more Hm].
  unfold QueuedHelper.run in Hm. rewrite Hm. cbn [fold_left apply_event].
  assert (Hturn : consumer_turn P func (with_queue P h (_queue P h ++ more))
                  = mk P (maxsize P h) (_queue P h ++ more) (Some Cancelled)
                       (spawned P h) (errors_logged P h)).
  { unfold consumer_turn. cbn. rewrite Hc. reflexivity. }
  rewrite Hturn.
  edestruct (done_is_final func evs) as [m2 Hm2];
    [ | | unfold QueuedHelper.run in Hm2; rewrite Hm2 ];
    [reflexivity | reflexivity | cbn; auto].
Qed.

End DispatcherQueue.

(** ** Fetch engine: what a call returns *)

Section FetchResult.
Context {C : Type}.
Variable IPV6_PRIOR : bool.
Variable resolver_query : outcome (list string).
Variable url_hostname : string -> outcome (option string).
Variable session_get : Z -> family -> outcome ClientResponse.
Variable resp_callback : ClientResponse -> outcome (option C).

Let loop := _get_loop C session_get resp_callback.
Let body := try_body C session_get resp_callback.
Let fetch := _get C IPV6_PRIOR resolver_query url_hostname session_get
               resp_callback.

Let built_from := Fetched.built_from C resp_callback.

Lemma try_body_built (url : string) (tries : Z) (fam : family)
    (response : ClientResponse) (content : option C) :
  body tries fam = Return (response, content) ->
  built_from url (mkWebResponse url content (headers response)
                    (status response) (reason response)) response.
Proof.
  unfold body, try_body, built_from, Fetched.built_from.
  cbn [wr_url wr_headers wr_status
                                          wr_reason wr_content].
  destruct (session_get tries fam) as [resp|e]; cbn [bind]; [|discriminate].
  destruct (Z.eqb_spec (status resp) 200) as [H200|H200].
  - destruct (resp_callback resp) as [c|e] eqn:Hcb; cbn [bind]; [|discriminate].
    intros H. injection H as <- <-. repeat split; auto. contradiction.
  - intros H. injection H as <- <-. repeat split; auto. contradiction.
Qed.

Lemma loop_returns_built (fuel : nat) (url : string) :
  forall tries flag fam r fams,
    loop fuel url tries flag fam = (Done (Return r), fams) ->
    exists response, built_from url r response.
Proof.
  unfold loop. induction fuel as [|fuel IH]; intros tries flag fam r fams H.
  - discriminate H.
  - cbn [_get_loop] in H.
    destruct (negb (tries + 1 <=? 2)); [discriminate H|].
    set (fam' := if flag then AF_INET else fam) in *.
    destruct (try_body C session_get resp_callback (tries + 1) fam')
      as [[response content]|e] eqn:Hb.
    + pose proof (try_body_built url _ _ _ _ Hb) as Hbuilt.
      destruct (status response =? 200).
      * injection H as <- _. eauto.
      * destruct (family_eqb fam' AF_INET6 && (tries + 1 =? 1)
                  && status_in (status response) LIKELY_BLOCKED).
        -- destruct (_get_loop C session_get resp_callback fuel url
                       (tries + 1) true fam') as [r' tr'] eqn:Hrec.
           injection H as -> _. eapply IH; eauto.
        -- injection H as <- _. eauto.
    + destruct (isinstance e EXCEPTIONS_SHOULD_RETRY).
      * destruct (negb (family_eqb fam' AF_INET6) || (tries + 1 >? 1));
          [discriminate H|].
        destruct (_get_loop C session_get resp_callback fuel url
                    (tries + 1) true fam') as [r' tr'] eqn:Hrec.
        injection H as -> _. eapply IH; eauto.
      * discriminate H.
Qed.

Lemma _get_built (url : string) (r : WebResponse C) :
  fetch url = Return r ->
  exists response,
    wr_url r = url
    /\ wr_headers r = headers response
    /\ wr_status r = status response
    /\ wr_reason r = reason response
    /\ (wr_status r = 200 -> resp_callback response = Return (wr_content r))
    /\ (wr_status r <> 200 -> wr_content r = None).
Proof.
  unfold fetch, _get, _get_run. intros H.
  destruct (url_hostname url) as [host|e0]; [|discriminate H].
  destruct (query_v6 IPV6_PRIOR resolver_query) as [v6|e1]; [|discriminate H].
  destruct (_get_loop C session_get resp_callback 3 url 0 false
              (initial_family v6)) as [[o| |] fams] eqn:Hl;
    cbn [fst] in H; try discriminate H.
  subst o. destruct (loop_returns_built 3 url _ _ _ _ _ Hl)
    as (response & Hb). unfold built_from, Fetched.built_from in Hb.
  destruct Hb as (Hu & Hh & Hs & Hr & H200 & Hn).
  exists response. rewrite Hs. repeat split; auto.
Qed.

(** X15.  Without IPv6 there is no second attempt: when IPv6 is not preferred,
    or the AAAA lookup raises, or it yields no address, a call on a URL with
    a host name makes exactly one connection attempt, over the unspecified
    family, and its outcome is the outcome of the call. *)
Theorem get_single_attempt_without_v6 (url : string) (host : option string) :
  url_hostname url = Return host ->
  (IPV6_PRIOR = false
   \/ (exists e, resolver_query = Raise e)
   \/ resolver_query = Return []) ->
  attempts C IPV6_PRIOR resolver_query url_hostname session_get resp_callback url
  = [AF_UNSPEC]
  /\ fetch url
     = match body 1 AF_UNSPEC with
       | Return (response, content) =>
           Return (mkWebResponse url content (headers response)
                     (status response) (reason response))
       | Raise e => Raise e
       end.
Proof.
  intros Hh Hno.
  assert (Hq : query_v6 IPV6_PRIOR resolver_query = Return []).
  { unfold query_v6. destruct Hno as [-> | [[e ->] | ->]].
    - reflexivity.
    - destruct IPV6_PRIOR; [|reflexivity]. cbn [try_except].
      destruct (isinstance e [DNSError; AsyncioTimeoutError]); [reflexivity|].
      now rewrite isinstance_Exception.
    - now destruct IPV6_PRIOR. }
  unfold fetch, attempts, _get, _get_run, body. rewrite Hh, Hq.
  cbn [initial_family _get_loop]. change (0 + 1) with 1.
  cbn [Z.leb Z.compare Pos.compare negb family_eqb andb orb].
  destruct (try_body C session_get resp_callback 1 AF_UNSPEC)
    as [[response content]|e].
  - destruct (status response =? 200); cbn [fst snd]; auto.
  - destruct (isinstance e EXCEPTIONS_SHOULD_RETRY); cbn [fst snd]; auto.
Qed.

(** X16.  The fallback attempt is final: after a first attempt over IPv6 that
    calls for the fallback, the outcome of the call is the outcome of the
    attempt over IPv4, be it an error that would be retried or a status that
    would trigger the fallback. *)
Theorem get_fallback_is_final (url : string) (host : option string)
    (address : string) (others : list string) :
  url_hostname url = Return host ->
  query_v6 IPV6_PRIOR resolver_query = Return (address :: others) ->
  retried_over_v4 C session_get resp_callback AF_INET6 ->
  fetch url
  = match body 2 AF_INET with
    | Return (response, content) =>
        Return (mkWebResponse url content (headers response)
                  (status response) (reason response))
    | Raise e => Raise e
    end.
Proof.
  intros Hh Hq (_ & Hretry).
  unfold fetch, _get, _get_run, body. rewrite Hh, Hq.
  cbn [initial_family].
  assert (H2 : forall fuel,
    _get_loop C session_get resp_callback (S fuel) url 1 true AF_INET6
    = match try_body C session_get resp_callback 2 AF_INET with
      | Return (response, content) =>
          (Done (Return (mkWebResponse url content (headers response)
                           (status response) (reason response))), [AF_INET])
      | Raise e => (Done (Raise e), [AF_INET])
      end).
  { intros fuel. cbn [_get_loop]. change (1 + 1) with 2.
    cbn [Z.leb Z.compare Pos.compare Pos.compare_cont negb].
    destruct (try_body C session_get resp_callback 2 AF_INET)
      as [[response content]|e].
    - destruct (status response =? 200); cbn [family_eqb andb]; reflexivity.
    - destruct (isinstance e EXCEPTIONS_SHOULD_RETRY);
        cbn [family_eqb negb orb]; reflexivity. }
  remember 2%nat as f2 eqn:Hf2.
  cbn [_get_loop]. change (0 + 1) with 1.
  cbn [Z.leb Z.compare Pos.compare negb family_eqb andb orb Z.eqb Pos.eqb Z.gtb].
  subst f2. rewrite H2.
  destruct Hretry as [(e & He & Hr) | (resp & c & He & Hs)]; rewrite He.
  - rewrite Hr.
    destruct (try_body C session_get resp_callback 2 AF_INET) as [[r2 c2]|e2];
      reflexivity.
  - rewrite (likely_blocked_not_200 _ Hs), Hs.
    destruct (try_body C session_get resp_callback 2 AF_INET) as [[r2 c2]|e2];
      reflexivity.
Qed.

End FetchResult.

(** ** Size-capped reads *)

Section SizeCap.
Variable py_int : string -> outcome Z.

(** X18.  A size-capped read ([max_size > 0], no [decode]) never asks the
    stream for more than [max_size] bytes: the content returned is the result
    of one [content.read(n)] with [n <= max_size], where [n] is the declared
    length when that is smaller.  A [Content-Length] that is no number makes
    the callback raise the error of [int] instead of returning content. *)
Theorem capped_read_within_max_size (response : ClientResponse) (m : Z)
    (ict : option string) :
  0 < m ->
  (forall s,
     __norm_callback py_int response false (Some m) ict = Return (Some s) ->
     exists cl, py_int (Headers.get_default (headers response) "Content-Length"
                          (py_str m)) = Return cl
                /\ Z.min cl m <= m
                /\ content_read response (Z.min cl m) = Return s)
  /\ (forall e,
        content_type_gate (Headers.get (headers response) "Content-Type") ict
        = true ->
        py_int (Headers.get_default (headers response) "Content-Length"
                  (py_str m)) = Raise e ->
        __norm_callback py_int response false (Some m) ict = Raise e).
Proof.
  intros Hm. unfold __norm_callback, body_policy.
  replace (m >? 0) with true by (symmetry; lia). split.
  - intros s.
    destruct (content_type_gate _ ict); [|discriminate].
    destruct (py_int _) as [cl|e]; cbn [bind]; [|discriminate].
    destruct (content_read response (Z.min cl m)) as [s'|e] eqn:Hr;
      cbn [bind]; [|discriminate].
    intros H. injection H as <-. exists cl. repeat split; auto. lia.
  - intros e -> ->. reflexivity.
Qed.

End SizeCap.



(** ** Feed results *)

Section FeedResults.
Variable py_int : string -> outcome Z.
Variable fetch : list (string * string) -> outcome (WebResponse string).
Variable feedparser_parse : string -> outcome FeedParserDict.

Let feed_get' := feed_get py_int fetch feedparser_parse.

Lemma feed_get_try_shape (url : string) (level : Z)
    (hs : list (string * string)) :
  match feed_get_try py_int fetch feedparser_parse url level hs with
  | (ret, logs, Some _) => rss_d ret = None /\ error ret = None /\ logs = []
  | (ret, logs, None) =>
      (rss_d ret = None \/ error ret = None)
      /\ List.length logs = (if is_some (error ret) then 1 else 0)%nat
      /\ (forall d, rss_d ret = Some d -> dict_has (feed d) "title" = true)
  end.
Proof.
  unfold feed_get_try.
  destruct (fetch hs) as [resp|e]; [|cbn; auto].
  destruct (wr_status resp =? 200).
  - destruct (py_int _) as [n|e]; cbn [bind]; [|cbn; auto].
    destruct (n =? 0); [cbn; repeat split; auto; discriminate|].
    destruct (wr_status resp =? 304); [cbn; repeat split; auto; discriminate|].
    destruct (wr_content resp) as [c|]; [|cbn; repeat split; auto; discriminate].
    destruct (feedparser_parse c) as [d|e]; [|cbn; auto].
    destruct (dict_has (feed d) "title") eqn:Ht; cbn [negb].
    + cbn. repeat split; auto. intros d' H. injection H as <-. exact Ht.
    + cbn. repeat split; auto. discriminate.
  - destruct (wr_status resp =? 304); [cbn; repeat split; auto; discriminate|].
    destruct (wr_content resp) as [c|]; [|cbn; repeat split; auto; discriminate].
    destruct (feedparser_parse c) as [d|e]; [|cbn; auto].
    destruct (dict_has (feed d) "title") eqn:Ht; cbn [negb].
    + cbn. repeat split; auto. intros d' H. injection H as <-. exact Ht.
    + cbn. repeat split; auto. discriminate.
Qed.

(** The records of [feed_get] itself, those of its [WebError] objects: a
    result never carries both a parsed feed and an error; a parsed feed it
    carries has a title; and one [WebError] is created, and logs its record,
    exactly when the result carries an error. *)
Lemma feed_get_own_records (url : string)
    (headers : option (list (string * string))) (verbose : bool)
    (ret : WebFeed) (logs : list log_record) :
  feed_get' url headers verbose = Return (ret, logs) ->
  (rss_d ret = None \/ error ret = None)
  /\ (forall d, rss_d ret = Some d -> dict_has (feed d) "title" = true)
  /\ List.length logs = (if is_some (error ret) then 1 else 0)%nat.
Proof.
  unfold feed_get', feed_get.
  pose proof (feed_get_try_shape url (if verbose then WARNING else DEBUG)
                (feed_headers headers)) as Hs.
  destruct (feed_get_try py_int fetch feedparser_parse url
              (if verbose then WARNING else DEBUG) (feed_headers headers))
    as [[ret0 lg] [e|]].
  - destruct Hs as (Hd & He & ->). cbn [try_except].
    destruct (isinstance e [InvalidURL]);
      [|destruct (isinstance e NETWORK_ERRORS);
        [|rewrite isinstance_Exception]];
      intros H; injection H as <- <-; cbn; rewrite Hd;
      (repeat split; auto; discriminate).
  - intros H. injection H as <- <-. destruct Hs as (H1 & H2 & H3). auto.
Qed.

End FeedResults.

(** ** The fetch engine under its callers *)

Section FetchCallers.
Variable py_int : string -> outcome Z.
Variable IPV6_PRIOR : bool.
Variable resolver_query : outcome (list string).
Variable url_hostname : string -> outcome (option string).

(** X17.  A response returned by [get] carries the URL that was asked for.  Its
    content is what the body policy returned on a response with status 200
    and the same headers, and nothing for any other status: the body of a
    response that is not a 200 is never read. *)
Theorem get_returns_response
    (session_get : Z -> family -> outcome ClientResponse) (elapsed : Q)
    (url : string) (timeout : option Q) (decode : bool) (max_size : option Z)
    (ict : option string) (r : WebResponse string) :
  get py_int IPV6_PRIOR resolver_query url_hostname session_get elapsed url
      timeout decode max_size ict = Return r ->
  wr_url r = url
  /\ (wr_status r <> 200 -> wr_content r = None)
  /\ (wr_status r = 200 ->
      exists response,
        status response = 200 /\ headers response = wr_headers r
        /\ __norm_callback py_int response decode max_size ict
           = Return (wr_content r)).
Proof.
  unfold get, wait_for. cbn [fst snd].
  destruct (Qle_bool elapsed _); [|discriminate].
  intros H. apply _get_built in H.
  destruct H as (response & Hu & Hh & Hs & Hr & H200 & Hn).
  split; [exact Hu|]. split; [exact Hn|].
  intros Hst. exists response. rewrite <- Hs. auto.
Qed.

Variable feedparser_parse : string -> outcome FeedParserDict.
(** The transport, which sees the request headers. *)
Variable session_for :
  list (string * string) -> Z -> family -> outcome ClientResponse.
Variable elapsed : Q.

(** [get(url, timeout, web_semaphore, headers=_headers)] as [feed_get]
    calls it: no [decode], no [max_size], no intended content type. *)
Let fetch_feed (url : string) (timeout : option Q)
    (_headers : list (string * string)) : outcome (WebResponse string) :=
  get py_int IPV6_PRIOR resolver_query url_hostname (session_for _headers)
      elapsed url timeout false None None.

(** Through the fetch engine, a status other than 200 and 304 always ends
    as a status code error: the result carries the status, the caption
    "status reason" (the status alone without a reason), no parsed feed, and
    the parser is not consulted; the record of the [WebError] has level
    [WARNING], or [DEBUG] when not verbose. *)
Lemma feed_get_status_code_error_own (url : string) (timeout : option Q)
    (headers : option (list (string * string))) (verbose : bool)
    (resp : WebResponse string) :
  fetch_feed url timeout (feed_headers headers) = Return resp ->
  wr_status resp <> 200 ->
  wr_status resp <> 304 ->
  exists ret err rec,
    feed_get py_int (fetch_feed url timeout) feedparser_parse url headers verbose
    = Return (ret, [rec])
    /\ error ret = Some err
    /\ error_name err = "status code error"
    /\ we_status err
       = Some (py_str (wr_status resp)
               ++ match wr_reason resp with
                  | Some (String c reason) => " " ++ String c reason
                  | _ => ""
                  end)
    /\ rss_d ret = None
    /\ wf_status ret = wr_status resp
    /\ lr_level rec = (if verbose then WARNING else DEBUG).
Proof.
  intros Hfetch H200 H304.
  assert (Hc : wr_content resp = None).
  { unfold fetch_feed in Hfetch. unfold get, wait_for in Hfetch.
    cbn [fst snd] in Hfetch.
    destruct (Qle_bool elapsed _); [|discriminate].
    apply _get_built in Hfetch.
    destruct Hfetch as (response & _ & _ & _ & _ & _ & Hn). auto. }
  unfold feed_get, feed_get_try. rewrite Hfetch.
  replace (wr_status resp =? 200) with false by (symmetry; now apply Z.eqb_neq).
  replace (wr_status resp =? 304) with false by (symmetry; now apply Z.eqb_neq).
  rewrite Hc. cbn.
  eexists _, _, _. split; [reflexivity|]. cbn.
  repeat split.
  destruct (wr_reason resp) as [[|c reason]|]; reflexivity.
Qed.

End FetchCallers.

(** The request headers of a feed fetch always have an [Accept] entry:
    the caller's, when the caller's headers have one under exactly that key,
    and otherwise [FEED_ACCEPT], added behind the caller's entries, which are
    kept as they are. *)
Theorem feed_headers_accept (hs : list (string * string)) :
  dict_has (feed_headers (Some hs)) "Accept" = true
  /\ dict_has (feed_headers None) "Accept" = true
  /\ (dict_has hs "Accept" = true -> feed_headers (Some hs) = hs)
  /\ (dict_has hs "Accept" = false ->
      feed_headers (Some hs) = (hs ++ [("Accept", FEED_ACCEPT)])%list).
Proof.
  unfold feed_headers.
  destruct (dict_has hs "Accept") eqn:Hh; cbn [negb].
  - repeat split; auto. discriminate.
  - split; [|repeat split; auto; discriminate].
    unfold dict_has. rewrite existsb_app. cbn. apply orb_true_r.
Qed.

(** ** Media probe: what it reads and what it returns *)

Section ProbeReads.
Import Medium.
Variable py_int : string -> outcome Z.
Variable PIL_Image_open : string -> outcome (Z * Z).

Lemma jpeg_fallback_returns (file_header : string) :
  exists r, jpeg_fallback file_header = Return r.
Proof.
  unfold jpeg_fallback.
  destruct (Z.eqb_spec (find_pointer file_header SOF_MARKERS) (-1)) as [|Hne];
    cbn [negb andb]; [eauto|].
  destruct (Z.leb_spec (find_pointer file_header SOF_MARKERS + 9)
                       (len file_header)) as [Hle|]; [|eauto].
  destruct (find_pointer_priority file_header SOF_MARKERS _ eq_refl Hne)
    as [H0 _].
  set (p := find_pointer file_header SOF_MARKERS) in *.
  pose proof (int_of_hex_two file_header (p + 7) ltac:(lia) ltac:(lia)) as Hw.
  pose proof (int_of_hex_two file_header (p + 5) ltac:(lia) ltac:(lia)) as Hh.
  replace (p + 7 + 2) with (p + 9) in Hw by lia.
  replace (p + 5 + 2) with (p + 7) in Hh by lia.
  rewrite Hw. cbn [bind]. rewrite Hh. cbn [bind]. eauto.
Qed.

Lemma read_chunks_spec (is_jpeg : bool) (max_read_length : Z)
    (chunks : list string) :
  forall already_read buffer,
    (exists w h,
       fst (read_chunks PIL_Image_open is_jpeg max_read_length already_read
                        buffer chunks) = Return (w, h))
    /\ (snd (read_chunks PIL_Image_open is_jpeg max_read_length already_read
                         buffer chunks) <= List.length chunks)%nat
    /\ ((2 <= snd (read_chunks PIL_Image_open is_jpeg max_read_length
                               already_read buffer chunks))%nat ->
        already_read
        + bytes_in (firstn (snd (read_chunks PIL_Image_open is_jpeg
                                   max_read_length already_read buffer chunks)
                            - 1) chunks)
        < max_read_length).
Proof.
  induction chunks as [|chunk rest IH]; intros already_read buffer.
  - cbn. split; [eauto|]. split; lia.
  - cbn [read_chunks].
    specialize (IH (already_read + len chunk) (buffer ++ chunk)).
    destruct (read_chunks PIL_Image_open is_jpeg max_read_length
                (already_read + len chunk) (buffer ++ chunk) rest)
      as [r n] eqn:Hrec.
    cbn [fst snd] in IH. destruct IH as ((w & h & Hr) & Hn & Hcap).
    assert (Hnext :
      let next := if already_read + len chunk >=? max_read_length
                  then (Return (-1, -1), 1%nat) else (r, S n) in
      (exists w h, fst next = Return (w, h))
      /\ (snd next <= List.length (chunk :: rest))%nat
      /\ ((2 <= snd next)%nat ->
          already_read + bytes_in (firstn (snd next - 1) (chunk :: rest))
          < max_read_length)).
    { cbn zeta.
      destruct (Z.geb_spec (already_read + len chunk) max_read_length)
        as [Hge|Hlt]; cbn [fst snd List.length].
      - split; [eauto|]. split; lia.
      - split; [eauto|]. split; [lia|]. intros _.
        assert (Hlen : 0 <= len chunk) by (unfold len; lia).
        replace (S n - 1)%nat with n by lia.
        destruct n as [|[|n']].
        + cbn [firstn bytes_in]. lia.
        + cbn [firstn bytes_in]. lia.
        + replace (S (S n') - 1)%nat with (S n') in Hcap by lia.
          specialize (Hcap ltac:(lia)).
          change (firstn (S (S n')) (chunk :: rest))
            with (chunk :: firstn (S n') rest).
          cbn [bytes_in]. lia. }
    assert (Hone : forall o : outcome (Z * Z),
      (exists w h, o = Return (w, h)) ->
      (exists w h, fst (o, 1%nat) = Return (w, h))
      /\ (snd (o, 1%nat) <= List.length (chunk :: rest))%nat
      /\ ((2 <= snd (o, 1%nat))%nat ->
          already_read + bytes_in (firstn (snd (o, 1%nat) - 1) (chunk :: rest))
          < max_read_length)).
    { intros o Ho. cbn [fst snd List.length]. split; [exact Ho|]. split; lia. }
    destruct (PIL_Image_open (buffer ++ chunk)) as [[w0 h0]|e].
    + apply Hone. eauto.
    + destruct (isinstance e [UnidentifiedImageError]); [apply Hone; eauto|].
      rewrite isinstance_Exception.
      destruct is_jpeg; [|exact Hnext].
      destruct (jpeg_fallback_returns (buffer ++ chunk)) as [[[w1 h1]|] ->].
      * apply Hone. eauto.
      * exact Hnext.
Qed.

(** X23.  Reading stops at the cap: the probe returns a pair, never an error of
    its own; it takes no chunk beyond the first one unless the chunks before
    hold fewer bytes than [min(declared length, 5 KiB)]; and a declared
    length that is no number is the only error it passes on. *)
Theorem medium_info_reads_up_to_cap (response : ClientResponse) :
  match py_int (Headers.get_default (headers response) "Content-Length" "1024")
  with
  | Raise e =>
      __medium_info_callback py_int PIL_Image_open response = (Raise e, 0%nat)
  | Return content_length =>
      (exists w h,
         fst (__medium_info_callback py_int PIL_Image_open response)
         = Return (w, h))
      /\ (snd (__medium_info_callback py_int PIL_Image_open response)
          <= List.length (iter_chunked response 128))%nat
      /\ ((2 <= snd (__medium_info_callback py_int PIL_Image_open response))%nat ->
          bytes_in
            (firstn (snd (__medium_info_callback py_int PIL_Image_open response)
                     - 1)
                    (iter_chunked response 128))
          < Z.min content_length 5120)
  end.
Proof.
  unfold __medium_info_callback.
  destruct (py_int _) as [cl|e]; [|reflexivity].
  destruct (content_type_accepted _ cl _); cbn [negb].
  - change (5 * 1024) with 5120.
    destruct (read_chunks_spec
                (startswith
                   (Headers.lower
                      (Headers.get_default (headers response) "Content-Type" ""))
                   "image/jpeg")
                (Z.min cl 5120) (iter_chunked response 128) 0 "")
      as (Hr & Hn & Hcap).
    split; [exact Hr|]. split; [exact Hn|]. intros H2.
    specialize (Hcap H2). lia.
  - cbn [fst snd]. split; [eauto|]. split; lia.
Qed.

(** X24.  What is not probed: a WebP image, or a type naming it, whose declared
    length exceeds 5 KiB, and any type that is neither [image...] nor WebP
    nor [application/octet-stream].  The result is [(-1, -1)] and no chunk
    is taken from the stream. *)
Theorem medium_info_refused_types (response : ClientResponse) (cl : Z) :
  py_int (Headers.get_default (headers response) "Content-Length" "1024")
  = Return cl ->
  let content_type :=
    Headers.lower (Headers.get_default (headers response) "Content-Type" "") in
  ((find content_type "webp" <> -1 /\ 5120 < cl)
   \/ (startswith content_type "image" = false
       /\ find content_type "webp" = -1
       /\ content_type <> "application/octet-stream")) ->
  __medium_info_callback py_int PIL_Image_open response
  = (Return (-1, -1), 0%nat).
Proof.
  intros Hcl ct Href. unfold __medium_info_callback. rewrite Hcl. fold ct.
  replace (content_type_accepted ct cl (Z.min cl (5 * 1024))) with false;
    [reflexivity|].
  symmetry. unfold content_type_accepted.
  destruct Href as [[Hw Hbig] | (Hi & Hw & Ho)].
  - replace (find ct "webp" =? -1) with false by (symmetry; now apply Z.eqb_neq).
    replace (cl <=? Z.min cl (5 * 1024)) with false by (symmetry; lia).
    cbn. now rewrite andb_false_r.
  - rewrite Hi, Hw. cbn.
    replace (String.eqb ct "application/octet-stream") with false; [reflexivity|].
    symmetry. now apply String.eqb_neq.
Qed.

End ProbeReads.

Section MediumInfoCall.
Import Medium.
Variable py_int : string -> outcome Z.
Variable PIL_Image_open : string -> outcome (Z * Z).
Variable IPV6_PRIOR : bool.
Variable resolver_query : outcome (list string).
Variable url_hostname : string -> outcome (option string).
Variable session_get : Z -> family -> outcome ClientResponse.

Lemma callback_read_length (response : ClientResponse) (c : option (Z * Z)) :
  medium_callback py_int PIL_Image_open response = Return c ->
  exists cl,
    py_int (Headers.get_default (headers response) "Content-Length" "1024")
    = Return cl.
Proof.
  unfold medium_callback, __medium_info_callback.
  destruct (py_int _) as [cl|e]; [eauto | discriminate].
Qed.

(** X25.  [get_medium_info] always returns: a [data:] URL, a failed fetch and a
    status other than 200 give [None], and the second reading of
    [Content-Length], which stands outside the [try], cannot fail, because
    the probe has read the same header before. *)
Theorem get_medium_info_returns (url : string) :
  exists v,
    get_medium_info py_int PIL_Image_open IPV6_PRIOR resolver_query
                    url_hostname session_get url = Return v
    /\ (startswith url "data:" = true -> v = None)
    /\ (forall r,
          _get (Z * Z) IPV6_PRIOR resolver_query url_hostname session_get
               (medium_callback py_int PIL_Image_open) url = Return r ->
          wr_status r <> 200 -> v = None)
    /\ (forall e,
          _get (Z * Z) IPV6_PRIOR resolver_query url_hostname session_get
               (medium_callback py_int PIL_Image_open) url = Raise e ->
          v = None).
Proof.
  unfold get_medium_info.
  destruct (startswith url "data:").
  { exists None. repeat split; auto. }
  destruct (_get (Z * Z) IPV6_PRIOR resolver_query url_hostname session_get
              (medium_callback py_int PIL_Image_open) url) as [r|e] eqn:Hget.
  2: { cbn [bind try_except]. rewrite isinstance_Exception.
       exists None. repeat split; auto; discriminate. }
  cbn [bind].
  destruct (Z.eqb_spec (wr_status r) 200) as [H200|Hn200]; cbn [negb try_except].
  2: { rewrite isinstance_Exception. exists None.
       repeat split; auto; discriminate. }
  apply _get_built in Hget.
  destruct Hget as (response & _ & Hh & _ & _ & Hcb & _).
  specialize (Hcb H200). apply callback_read_length in Hcb.
  destruct Hcb as [cl Hcl].
  assert (Hsize : exists size, declared_size py_int (wr_headers r) = Return size).
  { unfold declared_size. rewrite Hh.
    unfold Headers.get_default in Hcl.
    destruct (Headers.get (headers response) "Content-Length") as [[|c s]|];
      cbn [truthy]; eauto. }
  destruct Hsize as [size ->]. cbn [bind].
  destruct (wr_content r) as [[w h]|]; eexists; (split; [reflexivity|]);
    repeat split; try discriminate; intros; congruence.
Qed.

End MediumInfoCall.

(** ** Proxy bypass *)

Section ProxyBypass.
Import Proxy.

Lemma string_length_app (a b : string) :
  String.length (a ++ b) = (String.length a + String.length b)%nat.
Proof. induction a as [|c a IH]; cbn; [reflexivity | now rewrite IH]. Qed.

Lemma string_app_assoc (a b c : string) : (a ++ b) ++ c = a ++ (b ++ c).
Proof. induction a as [|x a IH]; cbn; [reflexivity | now rewrite IH]. Qed.

Lemma substring_suffix (a b : string) :
  substring (String.length a) (String.length b) (a ++ b) = b.
Proof.
  induction a as [|c a IH]; cbn [String.length append substring].
  - induction b as [|c b IHb]; cbn; [reflexivity | now rewrite IHb].
  - exact IH.
Qed.

Lemma substring_cut (s : string) :
  forall n, (n <= String.length s)%nat ->
  s = substring 0 n s ++ substring n (String.length s - n) s.
Proof.
  induction s as [|c s IH]; intros n Hn.
  - destruct n; [reflexivity | cbn in Hn; lia].
  - destruct n as [|n].
    + cbn [substring append String.length Nat.sub]. f_equal.
      clear. induction s as [|c s IH]; cbn; [reflexivity | now rewrite <- IH].
    + cbn [substring append String.length Nat.sub]. f_equal.
      apply IH. cbn in Hn. lia.
Qed.

Lemma endswith_app (pre d : string) : endswith (pre ++ d) d = true.
Proof.
  unfold endswith. rewrite string_length_app.
  replace (String.length pre + String.length d - String.length d)%nat
    with (String.length pre) by lia.
  rewrite substring_suffix, String.eqb_refl.
  apply andb_true_iff. split; [apply Nat.leb_le; lia | reflexivity].
Qed.

Lemma endswith_split (s d : string) :
  endswith s d = true -> exists pre, s = pre ++ d.
Proof.
  unfold endswith. intros H. apply andb_true_iff in H. destruct H as [Hl He].
  apply Nat.leb_le in Hl. apply String.eqb_eq in He.
  exists (substring 0 (String.length s - String.length d) s).
  rewrite (substring_cut s (String.length s - String.length d)) at 1 by lia.
  f_equal.
  replace (String.length s - (String.length s - String.length d))%nat
    with (String.length d) by lia.
  exact He.
Qed.

Lemma char_from_end_app (pre d : string) (c : ascii) :
  char_from_end (pre ++ String c d) (String.length d + 1) = Some c.
Proof.
  unfold char_from_end. rewrite string_length_app. cbn [String.length].
  replace ((1 <=? String.length d + 1)
           && (String.length d + 1 <=? String.length pre + S (String.length d)))%nat
    with true
    by (symmetry; apply andb_true_iff; split; apply Nat.leb_le; lia).
  replace (String.length pre + S (String.length d) - (String.length d + 1))%nat
    with (0 + String.length pre)%nat by lia.
  now rewrite <- append_correct2.
Qed.

Lemma string_snoc (s : string) :
  s <> EmptyString -> exists pre c, s = pre ++ String c EmptyString.
Proof.
  induction s as [|x s IH]; intros H; [contradiction|].
  destruct s as [|y s].
  - exists EmptyString, x. reflexivity.
  - destruct IH as (pre & c & Hs); [discriminate|].
    exists (String x pre), c. cbn. now rewrite <- Hs.
Qed.

(** One domain of the list: the test of lines 135-136 never indexes out of
    range, and it succeeds exactly for a label suffix. *)
Lemma domain_test (hostname domain : string) :
  (endswith hostname domain = false /\ ~ label_suffix hostname domain)
  \/ (endswith hostname domain = true /\ String.eqb hostname domain = true
      /\ label_suffix hostname domain)
  \/ (endswith hostname domain = true /\ String.eqb hostname domain = false
      /\ exists c, char_from_end hostname (String.length domain + 1) = Some c
                   /\ (Ascii.eqb c "."%char = true
                       <-> label_suffix hostname domain)).
Proof.
  destruct (endswith hostname domain) eqn:He.
  - right. destruct (String.eqb_spec hostname domain) as [Heq|Hneq].
    + left. repeat split. now left.
    + right. repeat split.
      destruct (endswith_split _ _ He) as [pre Hs].
      destruct (string_snoc pre) as (pre' & c & Hpre).
      { intros ->. now apply Hneq. }
      assert (Hh : hostname = pre' ++ String c domain).
      { rewrite Hs, Hpre, string_app_assoc. reflexivity. }
      exists c. split; [rewrite Hh; apply char_from_end_app|].
      split.
      * intros Hc. apply Ascii.eqb_eq in Hc. subst c. right. now exists pre'.
      * intros [Heq | [pre2 Hp2]]; [contradiction|].
        assert (Hc2 : char_from_end hostname (String.length domain + 1)
                      = Some "."%char)
          by (rewrite Hp2; apply (char_from_end_app pre2 domain)).
        rewrite Hh, char_from_end_app in Hc2. injection Hc2 as ->.
        reflexivity.
  - left. split; [reflexivity|].
    intros [-> | [pre ->]].
    + change domain with (EmptyString ++ domain) in He at 1.
      now rewrite endswith_app in He.
    + change (pre ++ "." ++ domain) with (pre ++ (String "." domain)) in He.
      replace (pre ++ String "." domain) with ((pre ++ ".") ++ domain) in He
        by (now rewrite string_app_assoc).
      now rewrite endswith_app in He.
Qed.

Lemma any_bypassed_spec (hostname : string) (domains : list string) :
  (any_bypassed hostname domains = Some true
   /\ exists d, In d domains /\ label_suffix hostname d)
  \/ (any_bypassed hostname domains = Some false
      /\ forall d, In d domains -> ~ label_suffix hostname d).
Proof.
  induction domains as [|d rest IH].
  - right. split; [reflexivity|]. intros d [].
  - cbn [any_bypassed].
    destruct (domain_test hostname d)
      as [[He Hno] | [(He & Heq & Hyes) | (He & Hneq & c & Hc & Hiff)]];
      rewrite He.
    + destruct IH as [[-> (d' & Hin & Hl)] | [-> Hall]].
      * left. split; [reflexivity|]. exists d'. split; [now right | exact Hl].
      * right. split; [reflexivity|]. intros d' [<- | Hin]; auto.
    + rewrite Heq. left. split; [reflexivity|]. exists d. split; [now left|auto].
    + rewrite Hneq, Hc. destruct (Ascii.eqb c ".") eqn:Hdot.
      * left. split; [reflexivity|]. exists d. split; [now left|].
        now apply Hiff.
      * destruct IH as [[-> (d' & Hin & Hl)] | [-> Hall]].
        -- left. split; [reflexivity|]. exists d'. split; [now right | exact Hl].
        -- right. split; [reflexivity|]. intros d' [<- | Hin]; auto.
           intros Hl. apply Hiff in Hl. congruence.
Qed.

(** X26.  Bypass domains match at label boundaries.  With only the domain list
    configured, a host name given as such is decided without an error: the
    proxy is bypassed exactly when the host name is one of the domains or
    ends with a dot followed by one of them, so that a name that merely ends
    with the letters of a domain keeps the proxy. *)
Theorem proxy_filter_label_boundary (domains : list string)
    (url_hostname : string -> outcome (option string))
    (ip_private : string -> option bool) (hostname : string) :
  domains <> [] ->
  (proxy_filter false domains url_hostname ip_private hostname false
   = Decided false
   /\ exists d, In d domains /\ label_suffix hostname d)
  \/ (proxy_filter false domains url_hostname ip_private hostname false
      = Decided true
      /\ forall d, In d domains -> ~ label_suffix hostname d).
Proof.
  intros Hne. unfold proxy_filter.
  destruct domains as [|d0 rest] eqn:Hd; [contradiction|].
  cbn [orb nonempty negb]. rewrite <- Hd.
  destruct (any_bypassed_spec hostname domains) as [[-> H] | [-> H]];
    [left | right]; auto.
Qed.

(** A host that is a private address bypasses the proxy before any domain
    is looked at, and with nothing to bypass configured the proxy is used
    for every URL, which is then not even parsed. *)
Theorem proxy_filter_private_first (bypass_private : bool)
    (domains : list string)
    (url_hostname : string -> outcome (option string))
    (ip_private : string -> option bool) (url hostname : string) (parse : bool) :
  (bypass_private = true ->
   (if parse then url_hostname url else Return (Some url)) = Return (Some hostname) ->
   ip_private hostname = Some true ->
   proxy_filter bypass_private domains url_hostname ip_private url parse
   = Decided false)
  /\ (bypass_private = false -> domains = [] ->
      proxy_filter bypass_private domains url_hostname ip_private url parse
      = Decided true).
Proof.
  unfold proxy_filter. split.
  - intros -> -> ->. reflexivity.
  - intros -> ->. reflexivity.
Qed.

End ProxyBypass.

(** ** Page title: what is parsed and what the path gives *)

Section PageTitleSources.
Import Text.
Variable py_int : string -> outcome Z.
Variable IPV6_PRIOR : bool.
Variable resolver_query : outcome (list string).
Variable url_hostname : string -> outcome (option string).
Variable session_get : Z -> family -> outcome ClientResponse.
Variable elapsed : Q.
Variable soup_title_text : string -> outcome string.
Variable strip : string -> string.
Variable filename_pattern_search : string -> option string.
Variable urlparse : string -> outcome ParseResult.

(** [get(url=url, timeout=2, decode=True, intended_content_type='text/html')]
    as [get_page_title] calls it. *)
Let fetch_page (url : string) : outcome (WebResponse string) :=
  get py_int IPV6_PRIOR resolver_query url_hostname session_get elapsed url
      (Some 2%Q) true None (Some "text/html").

(** X27.  Only HTML is parsed for a title.  When the fetch returns a
    response that is not a 200, or one whose [Content-Type] is there, not
    empty and does not start with [text/html], the body is not read, the
    HTML parser is not consulted, and the result is that of the [except]
    block on that response; so when the response carries a
    [Content-Disposition] that is not empty, the call raises the
    [TypeError] of the file name parser, whatever the three flags. *)
Theorem page_title_only_from_html (url : string)
    (allow_hostname allow_path allow_filename : bool)
    (r : WebResponse string) :
  fetch_page url = Return r ->
  (wr_status r <> 200
   \/ exists ct, Headers.get (wr_headers r) "Content-Type" = Some ct
                 /\ ct <> EmptyString /\ startswith ct "text/html" = false) ->
  wr_content r = None
  /\ get_page_title fetch_page soup_title_text strip
                    filename_pattern_search urlparse url
                    allow_hostname allow_path allow_filename
     = title_fallback filename_pattern_search urlparse url (Some r)
                      allow_hostname allow_path allow_filename
  /\ (forall cd,
        Headers.get (wr_headers r) "Content-Disposition" = Some cd ->
        cd <> EmptyString ->
        get_page_title fetch_page soup_title_text strip
                       filename_pattern_search urlparse url
                       allow_hostname allow_path allow_filename
        = Raise (mk_exn TypeError
                   "'flags' is an invalid keyword argument for search()")).
Proof.
  intros Hfetch Hnot.
  assert (Hc : wr_content r = None).
  { pose proof Hfetch as Hf. unfold fetch_page, get, wait_for in Hf.
    cbn [fst snd] in Hf. destruct (Qle_bool elapsed _); [|discriminate].
    apply _get_built in Hf.
    destruct Hf as (response & _ & Hh & _ & _ & H200 & Hn).
    destruct (Z.eq_dec (wr_status r) 200) as [Hs|Hs]; [|auto].
    destruct Hnot as [Hne | (ct & Hct & Hnonempty & Hpre)]; [contradiction|].
    specialize (H200 Hs). unfold __norm_callback in H200.
    rewrite <- Hh, Hct in H200. unfold content_type_gate in H200.
    destruct ct as [|c ct']; [contradiction|].
    cbn [truthy negb orb] in H200. rewrite Hpre in H200.
    now injection H200 as <-. }
  assert (Heq : get_page_title fetch_page soup_title_text strip
                  filename_pattern_search urlparse url
                  allow_hostname allow_path allow_filename
                = title_fallback filename_pattern_search urlparse url (Some r)
                    allow_hostname allow_path allow_filename).
  { unfold get_page_title. rewrite Hfetch. cbn [response_seen].
    unfold title_try. cbn [bind]. rewrite Hc. cbn [truthy negb].
    rewrite orb_true_r. cbn [try_except]. now rewrite isinstance_Exception. }
  split; [exact Hc|]. split; [exact Heq|].
  intros cd Hcd Hne. rewrite Heq.
  now apply title_fallback_disposition_raises with (cd := cd).
Qed.

End PageTitleSources.

Section PathTail.
Import Text.

Lemma has_char_app (c : ascii) (a b : string) :
  has_char c (a ++ b) = has_char c a || has_char c b.
Proof.
  induction a as [|x a IH]; cbn; [reflexivity|].
  now rewrite IH, orb_assoc.
Qed.

Lemma string_app_nil_r (a : string) : a ++ EmptyString = a.
Proof. induction a as [|x a IH]; cbn; [reflexivity | now rewrite IH]. Qed.

Lemma last_segment_cut (sep : ascii) (s : string) :
  forall acc,
    has_char sep acc = false ->
    has_char sep (last_segment sep acc s) = false
    /\ exists pre,
         acc ++ s = pre ++ last_segment sep acc s
         /\ (pre = EmptyString
             \/ exists pre', pre = pre' ++ String sep EmptyString).
Proof.
  induction s as [|c s IH]; intros acc Hacc.
  - cbn. split; [exact Hacc|]. exists EmptyString. split; [|now left].
    apply string_app_nil_r.
  - cbn [last_segment]. destruct (Ascii.eqb_spec c sep) as [->|Hne].
    + destruct (IH EmptyString eq_refl) as (Hno & pre1 & Heq & Hend).
      split; [exact Hno|].
      exists ((acc ++ String sep EmptyString) ++ pre1). split.
      * rewrite string_app_assoc. cbn [append] in *. rewrite <- Heq.
        now rewrite string_app_assoc.
      * right. destruct Hend as [-> | (pre' & ->)].
        -- exists acc. apply string_app_nil_r.
        -- exists ((acc ++ String sep EmptyString) ++ pre').
           symmetry. apply string_app_assoc.
    + destruct (IH (acc ++ String c EmptyString)) as (Hno & pre & Heq & Hend).
      { rewrite has_char_app, Hacc. cbn.
        destruct (Ascii.eqb_spec c sep); [contradiction | reflexivity]. }
      split; [exact Hno|]. exists pre. split; [|exact Hend].
      rewrite <- Heq. now rewrite string_app_assoc.
Qed.

(** X28.  The title taken from the path is its last segment: when title
    extraction fails, there is no response or the response has no
    [Content-Disposition] or an empty one, the path is allowed and not
    empty, the result is a string without a slash that ends the path, and
    what stands before it in the path is empty or ends with a slash. *)
Theorem page_title_path_tail
    (fetch : string -> outcome (WebResponse string))
    (soup_title_text : string -> outcome string) (strip : string -> string)
    (filename_pattern_search : string -> option string)
    (urlparse : string -> outcome ParseResult)
    (url : string) (allow_hostname allow_filename : bool)
    (e : exn) (parsed : ParseResult) :
  title_try soup_title_text strip (fetch url) = Raise e ->
  (forall r, fetch url = Return r ->
             truthy (Headers.get (wr_headers r) "Content-Disposition") = false) ->
  urlparse url = Return parsed ->
  path parsed <> EmptyString ->
  exists tail pre,
    get_page_title fetch soup_title_text strip filename_pattern_search urlparse
                   url allow_hostname true allow_filename
    = Return (Some tail)
    /\ has_char "/" tail = false
    /\ path parsed = pre ++ tail
    /\ (pre = EmptyString \/ exists pre', pre = pre' ++ "/").
Proof.
  intros Htry Hno Hparse Hpath.
  destruct (last_segment_cut "/" (path parsed) EmptyString eq_refl)
    as (Hslash & pre & Heq & Hend).
  exists (last_segment "/" "" (path parsed)), pre.
  split; [|split; [exact Hslash | split; [exact Heq | exact Hend]]].
  unfold get_page_title. rewrite Htry. cbn [try_except].
  rewrite isinstance_Exception. unfold title_fallback.
  rewrite filename_match_without_disposition.
  2:{ intros r' Hr. apply Hno. unfold response_seen in Hr.
      destruct (fetch url); congruence. }
  cbn [bind is_some andb]. rewrite Hparse. cbn [bind].
  destruct (path parsed); [contradiction | reflexivity].
Qed.

End PathTail.

(** ** Parsed feeds *)

Section FeedParsing.
Variable py_int : string -> outcome Z.
Variable fetch : list (string * string) -> outcome (WebResponse string).
Variable feedparser_parse : string -> outcome FeedParserDict.

(** A 200 with a body whose declared length is not 0 is parsed.  With a
    title in the parsed feed the result carries the feed, the final URL, the
    headers and the status of the response and no error, and no [WebError]
    is created; without a title the result carries the error
    ['feed invalid'] and no feed. *)
Lemma feed_get_parses_own (url : string)
    (headers : option (list (string * string))) (verbose : bool)
    (resp : WebResponse string) (n : Z) (body : string) (d : FeedParserDict) :
  fetch (feed_headers headers) = Return resp ->
  wr_status resp = 200 ->
  py_int (Headers.get_default (wr_headers resp) "Content-Length" "1") = Return n ->
  n <> 0 ->
  wr_content resp = Some body ->
  feedparser_parse body = Return d ->
  (dict_has (feed d) "title" = true ->
   feed_get py_int fetch feedparser_parse url headers verbose
   = Return (mkWebFeed (wr_url resp) (Some (wr_headers resp)) 200 None
                       (Some d) None, []))
  /\ (dict_has (feed d) "title" = false ->
      exists ret err rec,
        feed_get py_int fetch feedparser_parse url headers verbose
        = Return (ret, [rec])
        /\ error ret = Some err /\ error_name err = "feed invalid"
        /\ rss_d ret = None
        /\ lr_level rec = (if verbose then WARNING else DEBUG)).
Proof.
  intros Hfetch H200 Hint Hn Hbody Hparse.
  assert (Htry : forall level,
    feed_get_try py_int fetch feedparser_parse url level (feed_headers headers)
    = if negb (dict_has (feed d) "title")
      then let '(err, rec) :=
             WebError_init "feed invalid" None (Some url) None false level in
           (set_error (set_response (WebFeed_new url) resp) err, [rec], None)
      else (set_rss_d (set_response (WebFeed_new url) resp) d, [], None)).
  { intros level. unfold feed_get_try. rewrite Hfetch, H200, Hint.
    cbn [bind Z.eqb Pos.eqb].
    replace (n =? 0) with false by (symmetry; now apply Z.eqb_neq).
    rewrite Hbody, Hparse. reflexivity. }
  unfold feed_get. rewrite Htry. split.
  - intros ->. cbn. unfold set_rss_d, set_response, WebFeed_new. cbn.
    now rewrite H200.
  - intros ->. cbn. eexists _, _, _. split; [reflexivity|].
    cbn. repeat split.
Qed.

End FeedParsing.

(** ** Feed results with the records of the whole call *)

Section FeedLog.
Local Open Scope list_scope.
Variable py_int : string -> outcome Z.
Variable feedparser_parse : string -> outcome FeedParserDict.

(** X20.  A result of [feed_get] never carries both a parsed feed and an
    error; a parsed feed it carries has a title; and the records of the
    call are those [get] wrote, followed by exactly one record when the
    result carries an error and by none when it does not. *)
Theorem feed_get_feed_or_error
    (fetch : list (string * string)
             -> outcome (WebResponse string) * list log_record)
    (url : string) (headers : option (list (string * string)))
    (verbose : bool) (ret : WebFeed) (logs : list log_record) :
  Logged.feed_get py_int fetch feedparser_parse url headers verbose
  = Return (ret, logs) ->
  (rss_d ret = None \/ error ret = None)
  /\ (forall d, rss_d ret = Some d -> dict_has (feed d) "title" = true)
  /\ exists own,
       logs = snd (fetch (feed_headers headers)) ++ own
       /\ List.length own = (if is_some (error ret) then 1 else 0)%nat.
Proof.
  unfold Logged.feed_get. intros H.
  destruct (feed_get py_int (fun _headers => fst (fetch _headers))
              feedparser_parse url headers verbose) as [[ret' own]|e] eqn:E;
    [|discriminate].
  injection H as <- <-.
  destruct (feed_get_own_records _ _ _ _ _ _ _ _ E) as (H1 & H2 & H3).
  split; [exact H1|]. split; [exact H2|].
  exists own. split; [reflexivity | exact H3].
Qed.

(** X22.  A 200 with a body whose declared length is not 0 is parsed.
    With a title in the parsed feed the result carries the feed, the final
    URL, the headers and the status of the response, no error, and
    [feed_get] adds no record to those of [get]; without a title the result
    carries the error ['feed invalid'] and no feed, and one record follows
    those of [get], at [WARNING], or [DEBUG] when not verbose. *)
Theorem feed_get_parses
    (fetch : list (string * string)
             -> outcome (WebResponse string) * list log_record)
    (url : string) (headers : option (list (string * string)))
    (verbose : bool) (resp : WebResponse string) (records : list log_record)
    (n : Z) (body : string) (d : FeedParserDict) :
  fetch (feed_headers headers) = (Return resp, records) ->
  wr_status resp = 200 ->
  py_int (Headers.get_default (wr_headers resp) "Content-Length" "1") = Return n ->
  n <> 0 ->
  wr_content resp = Some body ->
  feedparser_parse body = Return d ->
  (dict_has (feed d) "title" = true ->
   Logged.feed_get py_int fetch feedparser_parse url headers verbose
   = Return (mkWebFeed (wr_url resp) (Some (wr_headers resp)) 200 None
                       (Some d) None, records))
  /\ (dict_has (feed d) "title" = false ->
      exists ret err rec,
        Logged.feed_get py_int fetch feedparser_parse url headers verbose
        = Return (ret, records ++ [rec])
        /\ error ret = Some err /\ error_name err = "feed invalid"
        /\ rss_d ret = None
        /\ lr_level rec = (if verbose then WARNING else DEBUG)).
Proof.
  intros Hfetch Hst Hn Hnz Hbody Hparse.
  assert (Hf : (fun _headers => fst (fetch _headers)) (feed_headers headers)
               = Return resp) by (cbn beta; now rewrite Hfetch).
  destruct (feed_get_parses_own py_int _ feedparser_parse url headers verbose
              resp n body d Hf Hst Hn Hnz Hbody Hparse) as [Hyes Hnot].
  unfold Logged.feed_get. rewrite Hfetch. cbn [snd]. split.
  - intros Ht. rewrite (Hyes Ht). now rewrite app_nil_r.
  - intros Ht. destruct (Hnot Ht) as (ret & err & rec & -> & He & Hn' & Hd & Hl).
    exists ret, err, rec. repeat split; assumption.
Qed.

Variable IPV6_PRIOR : bool.
Variable resolver_query : outcome (list string).
Variable url_hostname : string -> outcome (option string).
(** The transport, which sees the request headers. *)
Variable session_for :
  list (string * string) -> Z -> family -> outcome ClientResponse.
Variable elapsed : Q.
(** The records [_get] writes during the call. *)
Variable get_records : list (string * string) -> list log_record.

(** [get(url, timeout, web_semaphore, headers=_headers)] as [feed_get]
    calls it, no [decode], no [max_size], no intended content type, with
    the records it writes. *)
Let fetch_feed (url : string) (timeout : option Q)
    (_headers : list (string * string))
    : outcome (WebResponse string) * list log_record :=
  (get py_int IPV6_PRIOR resolver_query url_hostname (session_for _headers)
       elapsed url timeout false None None,
   get_records _headers).

(** X21.  Through the fetch engine, a status other than 200 and 304 always
    ends as a status code error: the result carries the status, the caption
    "status reason" (the status alone without a reason), no parsed feed, and
    the parser is not consulted; [feed_get] adds exactly one record to
    those of [get], at [WARNING], or [DEBUG] when not verbose. *)
Theorem feed_get_status_code_error (url : string) (timeout : option Q)
    (headers : option (list (string * string))) (verbose : bool)
    (resp : WebResponse string) :
  fst (fetch_feed url timeout (feed_headers headers)) = Return resp ->
  wr_status resp <> 200 ->
  wr_status resp <> 304 ->
  exists ret err rec,
    Logged.feed_get py_int (fetch_feed url timeout) feedparser_parse url
                    headers verbose
    = Return (ret, get_records (feed_headers headers) ++ [rec])
    /\ error ret = Some err
    /\ error_name err = "status code error"
    /\ we_status err
       = Some (py_str (wr_status resp)
               ++ match wr_reason resp with
                  | Some (String c reason) => " " ++ String c reason
                  | _ => ""
                  end)%string
    /\ rss_d ret = None
    /\ wf_status ret = wr_status resp
    /\ lr_level rec = (if verbose then WARNING else DEBUG).
Proof.
  intros Hfetch Hs200 Hs304.
  destruct (feed_get_status_code_error_own py_int IPV6_PRIOR resolver_query
              url_hostname feedparser_parse session_for elapsed url timeout
              headers verbose resp Hfetch Hs200 Hs304)
    as (ret & err & rec & Heq & Hrest).
  exists ret, err, rec. split; [|exact Hrest].
  unfold Logged.feed_get. cbn [fetch_feed fst snd].
  unfold fetch_feed. cbn [fst snd]. now rewrite Heq.
Qed.

End FeedLog.

(** * Further properties at work *)

Import Sample2.

(** ** Account pool *)

Lemma get_account_cursor_in_range_witness :
  exists a apis',
    Tgraph.get_account (Tgraph.mkAPIs pool_AB 7) = Return (a, apis')
    /\ In a pool_AB
    /\ Tgraph._accounts apis' = pool_AB
    /\ 0 <= Tgraph._curr_id apis' < Tgraph.count apis'.
Proof.
  refine (get_account_cursor_in_range pool_AB 7 _). discriminate.
Defined.

Lemma get_account_round_robin_witness :
  Tgraph.get_account (Tgraph.mkAPIs pool_AB (Z.of_nat 1))
  = Return (account_B,
            Tgraph.mkAPIs pool_AB
              ((Z.of_nat 1 + 1) mod Z.of_nat (List.length pool_AB)))
  /\ Tgraph.get_account (Tgraph.mkAPIs pool_AB (-3))
     = Tgraph.get_account (Tgraph.mkAPIs pool_AB 0).
Proof.
  refine (get_account_round_robin pool_AB 1 account_B (-3) _ _).
  - reflexivity.
  - left. reflexivity.
Defined.

Lemma get_account_full_turn_witness :
  Publishing.take_accounts (List.length pool_AB) (Tgraph.mkAPIs pool_AB 0)
  = (map Tgraph.token pool_AB, Tgraph.mkAPIs pool_AB 0).
Proof.
  refine (get_account_full_turn pool_AB _). discriminate.
Defined.

(** ** Publication *)

Lemma telegraph_ify_passes_on_witness :
  Tgraph.telegraph_ify int_decimal (Return tt)
    [Raise (mk_exn ServerTimeoutError ""); Return page_link] fresh_ify
  = (Tgraph.Ended (Raise (mk_exn ServerTimeoutError "")),
     Tgraph.mkIfy (Tgraph.retries fresh_ify) pool_A
       (Tgraph.trace fresh_ify ++ [Tgraph.Attempt (Tgraph.token account_A)])%list).
Proof.
  refine (telegraph_ify_passes_on int_decimal [Return page_link] fresh_ify
            (mk_exn ServerTimeoutError "") account_A pool_A _ _ _).
  - reflexivity.
  - reflexivity.
  - left. reflexivity.
Defined.

Lemma telegraph_ify_after_flood_returns_none_witness :
  Tgraph.telegraph_ify int_decimal (Return tt)
    [Raise flood_5; Return page_link] fresh_ify
  = (Tgraph.Ended (Return None),
     Tgraph.mkIfy 1 pool_A
       [Tgraph.Attempt "token-A"; Tgraph.FloodWait "token-A" 5;
        Tgraph.Attempt "token-A"]).
Proof.
  refine (telegraph_ify_after_flood_returns_none int_decimal [Return page_link]
            fresh_ify _ flood_5 account_A pool_A 5 (Some page_link)
            _ _ _ _ _ _).
  - reflexivity.
  - reflexivity.
  - reflexivity.
  - reflexivity.
  - reflexivity.
  - reflexivity.
Defined.

(** ** Dispatcher *)

Lemma consumer_turn_in_order_witness :
  QueuedHelper.consumer_turn nat even_only
    (helper_with [QueuedHelper.Work 2; QueuedHelper.Work 3; QueuedHelper.Work 4;
                  QueuedHelper.Sentinel; QueuedHelper.Work 6]%nat)
  = QueuedHelper.mk nat 0 [QueuedHelper.Work 6%nat]
      (Some QueuedHelper.Finished) [2; 4]%nat [mk_exn TypeError "odd"].
Proof.
  refine (consumer_turn_in_order even_only
            (helper_with [QueuedHelper.Work 2; QueuedHelper.Work 3;
                          QueuedHelper.Work 4; QueuedHelper.Sentinel;
                          QueuedHelper.Work 6]%nat) _).
  reflexivity.
Defined.

Lemma enqueue_order_is_spawn_order_witness :
  QueuedHelper.run nat even_only (helper_with [])
    (map QueuedHelper.Enqueue [4; 1; 2]%nat ++ [QueuedHelper.ConsumerRuns])%list
  = QueuedHelper.mk nat 0 [] (Some QueuedHelper.Waiting) [4; 2]%nat
      [mk_exn TypeError "odd"].
Proof.
  refine (enqueue_order_is_spawn_order even_only (helper_with [])
            [4; 1; 2]%nat _ _ _).
  - reflexivity.
  - reflexivity.
  - cbn. lia.
Defined.

Lemma bounded_queue_stays_bounded_witness :
  Z.of_nat (List.length
              (QueuedHelper._queue nat
                 (QueuedHelper.run nat always_ok bounded_helper
                    (map QueuedHelper.Enqueue [1; 2; 3; 4]%nat))))
  <= QueuedHelper.maxsize nat bounded_helper
  /\ QueuedHelper.maxsize nat
       (QueuedHelper.run nat always_ok bounded_helper
          (map QueuedHelper.Enqueue [1; 2; 3; 4]%nat))
     = QueuedHelper.maxsize nat bounded_helper.
Proof.
  refine (bounded_queue_stays_bounded always_ok
            (map QueuedHelper.Enqueue [1; 2; 3; 4]%nat) bounded_helper _ _).
  - reflexivity.
  - cbn. lia.
Defined.

Lemma close_sync_twice_cancels_witness :
  QueuedHelper.close_sync nat (fst (QueuedHelper.close_sync nat (helper_with [])))
  = (QueuedHelper.with_task nat
       (QueuedHelper.with_queue nat (helper_with []) [QueuedHelper.Sentinel])
       QueuedHelper.CancelRequested, true)
  /\ QueuedHelper._consumer_task nat
       (QueuedHelper.consumer_turn nat always_ok
          (fst (QueuedHelper.close_sync nat
                  (fst (QueuedHelper.close_sync nat (helper_with []))))))
     = Some QueuedHelper.Cancelled.
Proof.
  refine (close_sync_twice_cancels always_ok (helper_with []) _ _).
  - reflexivity.
  - reflexivity.
Defined.

Lemma init_sync_before_cancellation_witness :
  Lifecycle.init_sync nat 0
    (QueuedHelper.with_task nat (helper_with [QueuedHelper.Work 1%nat])
       QueuedHelper.CancelRequested)
  = QueuedHelper.with_task nat (helper_with [QueuedHelper.Work 1%nat])
      QueuedHelper.CancelRequested.
Proof.
  refine (proj1 (init_sync_before_cancellation always_ok 0
                   (QueuedHelper.with_task nat
                      (helper_with [QueuedHelper.Work 1%nat])
                      QueuedHelper.CancelRequested)
                   [2%nat] [] _)).
  reflexivity.
Defined.

(** ** Fetching *)

Lemma get_single_attempt_without_v6_witness :
  Web.attempts string false (Return []) hostname_sample serves_feed seen feed_url
  = [Web.AF_UNSPEC]
  /\ Web._get string false (Return []) hostname_sample serves_feed seen feed_url
     = Return (Web.mkWebResponse feed_url (Some "seen") [] 200 (Some "OK")).
Proof.
  refine (get_single_attempt_without_v6 false (Return []) hostname_sample
            serves_feed seen feed_url (Some "example.org") _ _).
  - reflexivity.
  - left. reflexivity.
Defined.

Lemma get_fallback_is_final_witness :
  Web._get string true (Return ["2001:db8::1"]) hostname_sample blocks_v6 seen
    feed_url
  = Return (Web.mkWebResponse feed_url (Some "seen") [] 200 (Some "OK")).
Proof.
  refine (get_fallback_is_final true (Return ["2001:db8::1"]) hostname_sample
            blocks_v6 seen feed_url (Some "example.org") "2001:db8::1" [] _ _ _).
  - reflexivity.
  - reflexivity.
  - split; [reflexivity|]. right.
    exists (head_only 403 []), None. split; reflexivity.
Defined.

Lemma get_returns_response_witness :
  Web.wr_url feed_200 = feed_url
  /\ (Web.wr_status feed_200 <> 200 -> Web.wr_content feed_200 = None)
  /\ (Web.wr_status feed_200 = 200 ->
      exists response,
        Web.status response = 200
        /\ Web.headers response = Web.wr_headers feed_200
        /\ Web.__norm_callback int_decimal response true None None
           = Return (Web.wr_content feed_200)).
Proof.
  refine (get_returns_response int_decimal false (Return []) hostname_sample
            serves_feed 1%Q feed_url (Some 10%Q) true None None feed_200 _).
  reflexivity.
Defined.

Lemma capped_read_within_max_size_witness :
  exists cl,
    int_decimal
      (Headers.get_default
         (Web.headers (with_body 200 [("Content-Length", "3")] "abcdef"))
         "Content-Length" (py_str 4)) = Return cl
    /\ Z.min cl 4 <= 4
    /\ Web.content_read (with_body 200 [("Content-Length", "3")] "abcdef")
         (Z.min cl 4) = Return "abc".
Proof.
  refine (proj1 (capped_read_within_max_size int_decimal
                   (with_body 200 [("Content-Length", "3")] "abcdef") 4 None _)
            "abc" _).
  - reflexivity.
  - reflexivity.
Defined.


(** ** Feeds *)

Lemma feed_get_feed_or_error_witness :
  (Web.rss_d timeout_feed = None \/ Web.error timeout_feed = None)
  /\ (forall d, Web.rss_d timeout_feed = Some d ->
                Web.dict_has (Web.feed d) "title" = true)
  /\ exists own,
       (lookup_failed ++ timeout_logs
        = snd (unreachable_v6 (Web.feed_headers None)) ++ own)%list
       /\ List.length own
          = (if Web.is_some (Web.error timeout_feed) then 1 else 0)%nat.
Proof.
  refine (feed_get_feed_or_error int_decimal parser_unused unreachable_v6
            feed_url None false timeout_feed
            (lookup_failed ++ timeout_logs)%list _).
  reflexivity.
Defined.

Lemma feed_get_status_code_error_witness :
  exists ret err rec,
    Logged.feed_get int_decimal
      (fun hs => (Web.get int_decimal true
                    (Raise (mk_exn OSError "resolver is down")) hostname_sample
                    not_found 1%Q feed_url None false None None,
                  lookup_failed))
      parser_unused feed_url None true
    = Return (ret, (lookup_failed ++ [rec])%list)
    /\ Web.error ret = Some err
    /\ Web.error_name err = "status code error"
    /\ Web.we_status err = Some "404 OK"
    /\ Web.rss_d ret = None
    /\ Web.wf_status ret = 404
    /\ lr_level rec = WARNING.
Proof.
  refine (feed_get_status_code_error int_decimal parser_unused true
            (Raise (mk_exn OSError "resolver is down")) hostname_sample
            (fun _ => not_found) 1%Q
            (fun _ => lookup_failed) feed_url None None true answer_404 _ _ _).
  - reflexivity.
  - discriminate.
  - discriminate.
Defined.

Lemma feed_get_parses_witness :
  Logged.feed_get int_decimal (fun _ => (Return feed_200, lookup_failed))
    parses_title feed_url None true
  = Return (Web.mkWebFeed feed_url (Some []) 200 None (Some feed_with_title)
              None, lookup_failed).
Proof.
  refine (proj1 (feed_get_parses int_decimal parses_title
                   (fun _ => (Return feed_200, lookup_failed))
                   feed_url None true feed_200 lookup_failed 1 "<rss/>"
                   feed_with_title _ _ _ _ _ _) _).
  - reflexivity.
  - reflexivity.
  - reflexivity.
  - discriminate.
  - reflexivity.
  - reflexivity.
  - reflexivity.
Defined.

(** ** Media *)

Lemma medium_info_refused_types_witness :
  Web.__medium_info_callback int_decimal pil_truncated big_webp
  = (Return (-1, -1), 0%nat).
Proof.
  refine (medium_info_refused_types int_decimal pil_truncated big_webp 9000 _ _).
  - reflexivity.
  - left. split; [discriminate | reflexivity].
Defined.

(** ** Proxy bypass *)

Lemma proxy_filter_label_boundary_witness :
  (Proxy.proxy_filter false ["example.com"] hostname_sample (fun _ => None)
     "a.example.com" false = Proxy.Decided false
   /\ exists d, In d ["example.com"] /\ Proxy.label_suffix "a.example.com" d)
  \/ (Proxy.proxy_filter false ["example.com"] hostname_sample (fun _ => None)
        "a.example.com" false = Proxy.Decided true
      /\ forall d, In d ["example.com"] -> ~ Proxy.label_suffix "a.example.com" d).
Proof.
  refine (proxy_filter_label_boundary ["example.com"] hostname_sample
            (fun _ => None) "a.example.com" _).
  discriminate.
Defined.

(** ** Page titles *)

Lemma page_title_only_from_html_witness :
  Web.get_page_title
    (fun url =>
       Web.get int_decimal false (Return []) hostname_sample report_origin 1%Q
         url (Some 2%Q) true None (Some "text/html"))
    no_title (fun s => s) finds_report urlparse_sample article_url true true true
  = Raise (mk_exn TypeError
             "'flags' is an invalid keyword argument for search()").
Proof.
  refine (proj2 (proj2
            (page_title_only_from_html int_decimal false (Return [])
               hostname_sample report_origin 1%Q no_title (fun s => s)
               finds_report urlparse_sample article_url true true true
               (Web.mkWebResponse article_url None
                  [("Content-Type", "application/pdf");
                   ("Content-Disposition", report_disposition)] 200 (Some "OK"))
               _ _)) report_disposition _ _).
  - reflexivity.
  - right. exists "application/pdf".
    split; [reflexivity | split; [discriminate | reflexivity]].
  - reflexivity.
  - discriminate.
Defined.

Lemma page_title_path_tail_witness :
  exists tail pre,
    Web.get_page_title article_gone no_title (fun s => s) finds_report
      urlparse_sample article_url false true true
    = Return (Some tail)
    /\ Text.has_char "/" tail = false
    /\ Web.path (Web.mkParseResult "/a/b.html" (Some "example.com")) = pre ++ tail
    /\ (pre = EmptyString \/ exists pre', pre = pre' ++ "/").
Proof.
  refine (page_title_path_tail article_gone no_title (fun s => s) finds_report
            urlparse_sample article_url false true
            (mk_exn ValueError "not an HTML page")
            (Web.mkParseResult "/a/b.html" (Some "example.com")) _ _ _ _).
  - reflexivity.
  - intros r Hr. injection Hr as <-. reflexivity.
  - reflexivity.
  - discriminate.
Defined.
